(** * Commit-reveal battle arena: a shallow embedding of the Move packages

    The development follows the Move sources module by module:
    [stats] (pokemon::stats), [pokemon_v1] (pokemon::pokemon_v1),
    [battle] (prototype::battle) and [arena_pvp] (prototype::arena_pvp),
    followed by the decision logic of the command line client's
    [joinArena], by [arena] (prototype::arena, the battle against a bot)
    and by the transactions the client builds for [commit] and [reveal].

    Move integers are unsigned and every arithmetic operation is checked:
    an overflow, an underflow or a division by zero aborts the whole
    transaction.  Integers are embedded as [Z]; each operation states its
    range check explicitly and returns in the abort monad [M]. *)

From Stdlib Require Import ZArith List Bool Lia.
Import ListNotations.
Open Scope Z_scope.

(** ** Abort codes *)

(** The named constants are the error constants of the Move modules; the
    last four are the aborts raised by the Move standard library and the
    virtual machine (option::fill, option::borrow, vector::borrow,
    arithmetic). *)
Inductive abort_code : Type :=
| EArenaNotReady
| EArenaOver
| EPlayerOneNotReady
| EMoveAlreadySubmitted
| EUnknownSender
| EInvalidCommitment
| EYouCantTrickMe
| EWrongMove
| EIncorrectRandomValue
| EIncorrectMovePower
| EIncorrectLevel
| EOPTION_IS_SET
| EOPTION_NOT_SET
| EINDEX_OUT_OF_BOUNDS
| ARITHMETIC_ERROR.

(** ** The abort monad *)

Inductive M (A : Type) : Type :=
| Ok (a : A)
| Aborted (e : abort_code).
Arguments Ok {A} a.
Arguments Aborted {A} e.

Definition bind {A B : Type} (m : M A) (k : A -> M B) : M B :=
  match m with
  | Ok a => k a
  | Aborted e => Aborted e
  end.

Notation "x <- c1 ;; c2" := (bind c1 (fun x => c2))
  (at level 61, c1 at next level, right associativity).
Notation "c1 ;; c2" := (bind c1 (fun _ => c2))
  (at level 61, right associativity).

(** [assert!(cond, code)] *)
Definition assert (cond : bool) (code : abort_code) : M unit :=
  if cond then Ok tt else Aborted code.

(** ** Checked unsigned arithmetic *)

Definition MAX_U8 : Z := 255.
Definition MAX_U64 : Z := 18446744073709551615.

Definition checked (max z : Z) : M Z :=
  if (0 <=? z) && (z <=? max) then Ok z else Aborted ARITHMETIC_ERROR.

Definition lift2 (op : Z -> Z -> M Z) (a b : M Z) : M Z :=
  x <- a ;; y <- b ;; op x y.

Definition add_u8 (a b : Z) : M Z := checked MAX_U8 (a + b).
Definition add_u64 (a b : Z) : M Z := checked MAX_U64 (a + b).
Definition mul_u64 (a b : Z) : M Z := checked MAX_U64 (a * b).
Definition div_u8 (a b : Z) : M Z :=
  if b =? 0 then Aborted ARITHMETIC_ERROR else checked MAX_U8 (a / b).
Definition div_u64 (a b : Z) : M Z :=
  if b =? 0 then Aborted ARITHMETIC_ERROR else checked MAX_U64 (a / b).
Definition rem_u8 (a b : Z) : M Z :=
  if b =? 0 then Aborted ARITHMETIC_ERROR else checked MAX_U8 (a mod b).

Declare Scope move_scope.
Delimit Scope move_scope with move.
Notation "# x" := (Ok x) (at level 9, x at level 9) : move_scope.
Notation "a +! b" := (lift2 add_u64 a b)
  (at level 50, left associativity) : move_scope.
Notation "a *! b" := (lift2 mul_u64 a b)
  (at level 40, left associativity) : move_scope.
Notation "a /! b" := (lift2 div_u64 a b)
  (at level 40, left associativity) : move_scope.
Notation "a +!8 b" := (lift2 add_u8 a b)
  (at level 50, left associativity) : move_scope.
Notation "a /!8 b" := (lift2 div_u8 a b)
  (at level 40, left associativity) : move_scope.
Notation "a %!8 b" := (lift2 rem_u8 a b)
  (at level 40, left associativity) : move_scope.
Open Scope move_scope.

(** ** Vectors and options of the Move standard library *)

(** [vector::borrow]: aborts when the index is out of bounds. *)
Definition borrow {A : Type} (v : list A) (i : Z) : M A :=
  if i <? 0 then Aborted EINDEX_OUT_OF_BOUNDS
  else match nth_error v (Z.to_nat i) with
       | Some x => Ok x
       | None => Aborted EINDEX_OUT_OF_BOUNDS
       end.

Definition is_some {A : Type} (t : option A) : bool :=
  match t with Some _ => true | None => false end.

Definition is_none {A : Type} (t : option A) : bool :=
  match t with Some _ => false | None => true end.

(** [option::borrow] and [option::borrow_mut]: abort on an empty option. *)
Definition option_borrow {A : Type} (t : option A) : M A :=
  match t with
  | Some x => Ok x
  | None => Aborted EOPTION_NOT_SET
  end.

(** [option::fill]: aborts when the option already holds a value. *)
Definition option_fill {A : Type} (t : option A) (e : A) : M (option A) :=
  match t with
  | None => Ok (Some e)
  | Some _ => Aborted EOPTION_IS_SET
  end.

(** Equality of [vector<u8>] values. *)
Fixpoint bytes_eqb (a b : list Z) : bool :=
  match a, b with
  | [], [] => true
  | x :: a', y :: b' => (x =? y) && bytes_eqb a' b'
  | _, _ => false
  end.

(** ** pokemon::stats *)

Module stats.

Definition SCALING_FACTOR : Z := 100000000.

Record Stats : Type := mkStats {
  hp : Z;
  attack : Z;
  defence : Z;
  special_attack : Z;
  special_defence : Z;
  speed : Z;
  level : Z;
  types : list Z
}.

Definition new (hp attack defence special_attack special_defence
                speed level : Z) (types : list Z) : M Stats :=
  assert (level <=? 100) EIncorrectLevel ;;
  scaled <- #hp *! #SCALING_FACTOR ;;
  Ok (mkStats scaled attack defence special_attack special_defence
              speed level types).

Definition scaling : Z := SCALING_FACTOR.

Definition set_hp (stat : Stats) (value : Z) : Stats :=
  mkStats value (attack stat) (defence stat) (special_attack stat)
          (special_defence stat) (speed stat) (level stat) (types stat).

Definition decrease_hp (stat : Stats) (value : Z) : Stats :=
  if hp stat <? value then set_hp stat 0
  else set_hp stat (hp stat - value).

Definition level_up (stat : Stats) : M Stats :=
  l <- #(level stat) +!8 #1 ;;
  Ok (mkStats (hp stat) (attack stat) (defence stat) (special_attack stat)
              (special_defence stat) (speed stat) l (types stat)).

End stats.

(** ** pokemon::pokemon_v1 *)

Module pokemon_v1.

Definition damage (level attack defence move_power random scaling : Z)
  : M Z :=
  lvl_mod <- (#2 *! #level *! #1 /! #5) +! #2 ;;
  atk_def <- (#scaling *! #attack) /! #defence ;;
  result <- (#lvl_mod *! #move_power *! #atk_def /! #50)
            +! (#2 *! #scaling) ;;
  rnd_val <- (#scaling *! #random) /! #255 ;;
  let eff_val := 1 in
  #result *! #rnd_val *! #eff_val /! #scaling.

(** The call [stats::defense(defender)] reads the defence stat. *)
Definition physical_damage (attacker defender : stats.Stats)
           (move_power random : Z) : M Z :=
  assert ((217 <=? random) && (random <=? 255))
              EIncorrectRandomValue ;;
  assert (0 <? move_power) EIncorrectMovePower ;;
  damage (stats.level attacker) (stats.attack attacker)
         (stats.defence defender) move_power random stats.scaling.

Definition special_damage (attacker defender : stats.Stats)
           (move_power random : Z) : M Z :=
  assert ((217 <=? random) && (random <=? 255))
              EIncorrectRandomValue ;;
  assert (0 <? move_power) EIncorrectMovePower ;;
  damage (stats.level attacker) (stats.special_attack attacker)
         (stats.special_defence defender) move_power random stats.scaling.

End pokemon_v1.

(** ** prototype::battle *)

Module battle.

Definition STAB_BONUS : Z := 15.
Definition MOVES_POWER : list Z := [40; 60; 80].
Definition MOVES_EFFECTIVENESS : list (list Z) :=
  [ [10; 10; 20];
    [10; 10; 5];
    [5; 20; 10] ].
Definition EFF_SCALING : Z := 10.

(** [debug] only guards printing; the values printed are computed with
    the same checked arithmetic. *)
Definition attack (attacker defender : stats.Stats) (_move rng : Z)
           (debug : bool) : M stats.Stats :=
  assert (_move <? 3) EWrongMove ;;
  attacker_type <- borrow (stats.types attacker) 0 ;;
  defender_type <- borrow (stats.types defender) 0 ;;
  move_power <- borrow MOVES_POWER _move ;;
  raw_damage <- pokemon_v1.physical_damage attacker defender
                                           move_power rng ;;
  move_effectiveness <- borrow MOVES_EFFECTIVENESS _move ;;
  effectiveness <- borrow move_effectiveness defender_type ;;
  (if debug then
     #raw_damage /! #1000000000 ;;
     #raw_damage *! #effectiveness /! #EFF_SCALING /! #1000000000
   else #0) ;;
  raw_damage <- #raw_damage *! #effectiveness /! #EFF_SCALING ;;
  raw_damage <- (if _move =? attacker_type
                 then #raw_damage *! #STAB_BONUS /! #EFF_SCALING
                 else #raw_damage) ;;
  Ok (stats.decrease_hp defender raw_damage).

End battle.

(** ** prototype::arena_pvp *)

Module arena_pvp.

Definition address : Type := Z.

(** The part of [sui::tx_context::TxContext] that the module reads. *)
Record TxContext : Type := mkTxContext {
  sender : address;
  tx_hash : list Z;
  ids_created : Z
}.

Record Player : Type := mkPlayer {
  starting_hp : Z;
  stats : stats.Stats;
  account : address;
  next_attack : option (list Z);
  next_round : Z
}.

Record Arena : Type := mkArena {
  id : address;
  seed : list Z;
  round : Z;
  player_one : Player;
  player_two : option Player;
  winner : option address
}.

Inductive Event : Type :=
| ArenaCreated (arena : address)
| PlayerJoined (arena : address)
| PlayerCommit (arena : address)
| PlayerReveal (arena : address) (_move : Z)
| RoundResult (arena : address) (attacker_hp defender_hp : Z).

(** Which of the two mutable borrows is the attacker in [reveal]. *)
Inductive Side : Type := PlayerOne | PlayerTwo.

(** [bcs::to_bytes] of an address: its 32 bytes, most significant first. *)
Definition bcs_to_bytes (a : address) : list Z :=
  map (fun i => (a / 256 ^ (31 - Z.of_nat i)) mod 256) (seq 0 32).

Definition is_player_one (arena : Arena) (player : address) : bool :=
  player =? account (player_one arena).

Definition is_player_two (arena : Arena) (player : address) : bool :=
  match player_two arena with
  | Some p2 => player =? account p2
  | None => false
  end.

(** Smooth a value in the range [10; 50] *)
Definition smooth (value : Z) : M Z :=
  value <- (#value %!8 #50 +!8 #50) /!8 #2 ;;
  if value <? 10 then #10 else #value.

(** Generate stats for a Pokemon from a seed. *)
Definition generate_stats (seed : list Z) : M stats.Stats :=
  let level := 10 in
  b0 <- borrow seed 0 ;; s0 <- smooth b0 ;; hp <- #10 +!8 #s0 ;;
  b1 <- borrow seed 1 ;; s1 <- smooth b1 ;;
  b2 <- borrow seed 2 ;; s2 <- smooth b2 ;;
  b3 <- borrow seed 3 ;; s3 <- smooth b3 ;;
  b4 <- borrow seed 4 ;; s4 <- smooth b4 ;;
  b5 <- borrow seed 5 ;; s5 <- smooth b5 ;;
  b6 <- borrow seed 6 ;; type <- #b6 %!8 #3 ;;
  stats.new hp s1 s2 s3 s4 s5 level [type].

Section Natives.

(** Native functions of the Sui framework: the BLAKE2b-256 hash and the
    derivation of fresh object addresses from the transaction digest. *)
Variable blake2b256 : list Z -> list Z.
Variable derive_id : list Z -> Z -> address.

Definition fresh_object_address (ctx : TxContext)
  : address * TxContext :=
  (derive_id (tx_hash ctx) (ids_created ctx),
   mkTxContext (sender ctx) (tx_hash ctx) (ids_created ctx + 1)).

(** Derive a new seed from a previous seed and a path. *)
Definition derive (seed : list Z) (path : Z) : list Z :=
  blake2b256 (seed ++ [path]).

(** Generate a random number for a hit in the range [217; 255] *)
Definition hit_rng (seed : list Z) (path round : Z) : M Z :=
  value <- borrow (derive seed path) round ;;
  #value %!8 #(255 - 217) +!8 #217.

(** Create a new arena. *)
Definition new_ (ctx : TxContext) : M (Arena * TxContext) :=
  let (addr, ctx) := fresh_object_address ctx in
  let seed := blake2b256 (bcs_to_bytes addr) in
  let (id, ctx) := fresh_object_address ctx in
  player_stats <- generate_stats (derive seed 0) ;;
  let player_one :=
    mkPlayer (stats.hp player_stats) player_stats (sender ctx) None 0 in
  let player_two := None in
  Ok (mkArena id seed 0 player_one player_two None, ctx).

(** Create and share a new arena. *)
Definition new (ctx : TxContext) : M (Arena * list Event) :=
  r <- new_ ctx ;;
  let arena := fst r in
  Ok (arena, [ArenaCreated (id arena)]).

(** Join an existing arena and start the battle. *)
Definition join (arena : Arena) (ctx : TxContext)
  : M (Arena * list Event) :=
  assert (negb (sender ctx =? account (player_one arena)))
         EYouCantTrickMe ;;
  stats <- generate_stats (derive (seed arena) 1) ;;
  p2 <- option_fill (player_two arena)
                    (mkPlayer (stats.hp stats) stats (sender ctx) None 0) ;;
  Ok (mkArena (id arena) (seed arena) (round arena) (player_one arena)
              p2 (winner arena),
      [PlayerJoined (id arena)]).

(** Attack the other player. *)
Definition commit (arena : Arena) (commitment : list Z) (ctx : TxContext)
  : M (Arena * list Event) :=
  assert (is_none (winner arena)) EArenaOver ;;
  assert (is_some (player_two arena)) EArenaNotReady ;;
  let player := sender ctx in
  arena' <-
    (if player =? account (player_one arena) then
       let p1 := player_one arena in
       assert (is_none (next_attack p1)) EMoveAlreadySubmitted ;;
       Ok (mkArena (id arena) (seed arena) (round arena)
             (mkPlayer (starting_hp p1) (stats p1) (account p1)
                       (Some commitment) (next_round p1))
             (player_two arena) (winner arena))
     else
       p2 <- option_borrow (player_two arena) ;;
       if player =? account p2 then
         assert (is_none (next_attack p2)) EMoveAlreadySubmitted ;;
         Ok (mkArena (id arena) (seed arena) (round arena)
               (player_one arena)
               (Some (mkPlayer (starting_hp p2) (stats p2) (account p2)
                               (Some commitment) (next_round p2)))
               (winner arena))
       else Aborted EUnknownSender) ;;
  Ok (arena', [PlayerCommit (id arena)]).

(** Each of the players needs to reveal their move; so that the round
    can be calculated. The last player to reveal bumps the round. *)
Definition reveal (arena : Arena) (_move : Z) (salt : list Z)
           (ctx : TxContext) : M (Arena * list Event) :=
  assert (is_some (player_two arena)) EArenaNotReady ;;
  assert (is_none (winner arena)) EArenaOver ;;
  let player := sender ctx in
  side <- (if is_player_one arena player then Ok PlayerOne
           else if is_player_two arena player then Ok PlayerTwo
           else Aborted EUnknownSender) ;;
  p2 <- option_borrow (player_two arena) ;;
  let (attacker, defender) :=
    match side with
    | PlayerOne => (player_one arena, p2)
    | PlayerTwo => (p2, player_one arena)
    end in
  assert (is_some (next_attack attacker)) EPlayerOneNotReady ;;
  assert (next_round attacker =? round arena) EMoveAlreadySubmitted ;;
  let commitment := blake2b256 (_move :: salt) in
  stored <- option_borrow (next_attack attacker) ;;
  assert (bytes_eqb commitment stored) EInvalidCommitment ;;
  rng <- hit_rng commitment 2 (round arena) ;;
  defender_stats <- battle.attack (stats attacker) (stats defender)
                                  _move rng false ;;
  let defender :=
    mkPlayer (starting_hp defender) defender_stats (account defender)
             (next_attack defender) (next_round defender) in
  attacker_round <- #(round arena) +!8 #1 ;;
  let attacker :=
    mkPlayer (starting_hp attacker) (stats attacker) (account attacker)
             None attacker_round in
  next_round_cond <-
    (if is_none (next_attack defender) then
       bumped <- #(round arena) +!8 #1 ;;
       Ok (next_round defender =? bumped)
     else Ok false) ;;
  let winner' :=
    if stats.hp (stats defender) =? 0 then Some (account attacker)
    else winner arena in
  round' <- (if next_round_cond : bool then #(round arena) +!8 #1
             else #(round arena)) ;;
  let (p1', p2') :=
    match side with
    | PlayerOne => (attacker, defender)
    | PlayerTwo => (defender, attacker)
    end in
  Ok (mkArena (id arena) (seed arena) round' p1' (Some p2') winner',
      [PlayerReveal (id arena) _move;
       RoundResult (id arena) (stats.hp (stats attacker))
                   (stats.hp (stats defender))]).

(** *** Transactions on a shared arena *)

(** The three entry functions that take an existing arena. *)
Inductive Op : Type :=
| Join (ctx : TxContext)
| Commit (commitment : list Z) (ctx : TxContext)
| Reveal (_move : Z) (salt : list Z) (ctx : TxContext).

Definition call (arena : Arena) (op : Op) : M (Arena * list Event) :=
  match op with
  | Join ctx => join arena ctx
  | Commit commitment ctx => commit arena commitment ctx
  | Reveal _move salt ctx => reveal arena _move salt ctx
  end.

(** A transaction either commits its effects or aborts and leaves the
    shared object as it was. *)
Definition exec (arena : Arena) (op : Op) : Arena * M (list Event) :=
  match call arena op with
  | Ok (arena', events) => (arena', Ok events)
  | Aborted e => (arena, Aborted e)
  end.

Definition exec_all (arena : Arena) (ops : list Op) : Arena :=
  fold_left (fun a op => fst (exec a op)) ops arena.

(** Arena states that [new] followed by committed transactions can
    produce. *)
Inductive reachable : Arena -> Prop :=
| reachable_new ctx arena events :
    new ctx = Ok (arena, events) -> reachable arena
| reachable_call arena op arena' events :
    reachable arena -> call arena op = Ok (arena', events) ->
    reachable arena'.

(** The record of an identity in the arena, and of its opponent, in the
    order [reveal] resolves them. *)
Definition player_of (arena : Arena) (who : address) : option Player :=
  if is_player_one arena who then Some (player_one arena)
  else if is_player_two arena who then player_two arena
  else None.

Definition opponent_of (arena : Arena) (who : address) : option Player :=
  if is_player_one arena who then player_two arena
  else if is_player_two arena who then Some (player_one arena)
  else None.

End Natives.

End arena_pvp.

(** ** The join command of the command line client (cli/v1/pvp.js) *)

Module pvp_cli.
Import arena_pvp.

(** How [joinArena] leaves its joining step: it throws, or it goes on to
    play after printing "Joined!" or "Rejoined!". *)
Inductive JoinOutcome : Type :=
| ArenaIsFull
| CouldNotJoin (errors : abort_code)
| Joined (events : list Event)
| Rejoined.

Section Natives.

Variable blake2b256 : list Z -> list Z.

(** [arena] is the object the client fetched; [ctx] carries the
    client's own address as the sender of the transaction it may send.
    The join transaction is sent only when [rejoin] is false. *)
Definition joinArena (arena : Arena) (ctx : TxContext)
  : Arena * JoinOutcome :=
  let address := sender ctx in
  match player_two arena with
  | Some player_two =>
      if negb (account player_two =? address) then (arena, ArenaIsFull)
      else (arena, Rejoined)
  | None =>
      match exec blake2b256 arena (Join ctx) with
      | (arena', Ok events) => (arena', Joined events)
      | (arena', Aborted errors) => (arena', CouldNotJoin errors)
      end
  end.

End Natives.

End pvp_cli.

(** ** The error taxonomy of the design document *)

Inductive ErrorClass : Type :=
| PreconditionError
| AuthorizationError
| SequencingError
| IntegrityError
| UnclassifiedAbort.

(** Each error constant of the arena module is classified by the condition
    it reports: arena not ready or already over; caller not a participant
    or the initiator joining; double commit or reveal out of turn; a
    revealed move that does not hash to the commitment.  Aborts raised by
    the damage engine and by the standard library carry no class. *)
Definition error_class (e : abort_code) : ErrorClass :=
  match e with
  | EArenaNotReady | EArenaOver => PreconditionError
  | EUnknownSender | EYouCantTrickMe => AuthorizationError
  | EPlayerOneNotReady | EMoveAlreadySubmitted => SequencingError
  | EInvalidCommitment => IntegrityError
  | _ => UnclassifiedAbort
  end.

(** ** The damage formula as the design document writes it *)

(** Unbounded integers, every division truncating, in the documented
    order: levelMod, atkDefRatio, base, randomFactor, raw, then the
    effectiveness entry [moveType][defenderType] over the effectiveness
    scaling, then the same-type bonus 15/10 when the move type is the
    attacker's type.  The move type is the move index. *)
Definition documented_move_power (moveIndex : Z) : Z :=
  nth (Z.to_nat moveIndex) [40; 60; 80] 0.

Definition documented_effectiveness (moveType defenderType : Z) : Z :=
  nth (Z.to_nat defenderType)
      (nth (Z.to_nat moveType) battle.MOVES_EFFECTIVENESS []) 0.

Definition documented_damage
           (level attackStat defenceStat attackerType defenderType
            moveIndex randomByte : Z) : Z :=
  let scalingFactor := stats.SCALING_FACTOR in
  let effectivenessScaling := 10 in
  let stabBonus := 15 in
  let movePower := documented_move_power moveIndex in
  let levelMod := (2 * level * 1 ÷ 5) + 2 in
  let atkDefRatio := (scalingFactor * attackStat) ÷ defenceStat in
  let base := (levelMod * movePower * atkDefRatio ÷ 50) + 2 * scalingFactor in
  let randomFactor := (scalingFactor * randomByte) ÷ 255 in
  let raw := base * randomFactor ÷ scalingFactor in
  let raw := raw * documented_effectiveness moveIndex defenderType
             ÷ effectivenessScaling in
  if moveIndex =? attackerType then raw * stabBonus ÷ effectivenessScaling
  else raw.

(** ** Closed forms used in the statements *)

(** The value [smooth] computes before its comparison with 10. *)
Definition smoothed (b : Z) : Z := (b mod 50 + 50) / 2.

(** The stats [generate_stats] builds from the first seven seed bytes. *)
Definition generated (b0 b1 b2 b3 b4 b5 b6 : Z) : stats.Stats :=
  stats.mkStats ((10 + smoothed b0) * stats.SCALING_FACTOR)
                (smoothed b1) (smoothed b2) (smoothed b3) (smoothed b4)
                (smoothed b5) 10 [b6 mod 3].

(** The two borrows [reveal] takes, by the side of the revealing player. *)
Definition attacker_of (side : arena_pvp.Side) (arena : arena_pvp.Arena)
           (p2 : arena_pvp.Player) : arena_pvp.Player :=
  match side with
  | arena_pvp.PlayerOne => arena_pvp.player_one arena
  | arena_pvp.PlayerTwo => p2
  end.

Definition defender_of (side : arena_pvp.Side) (arena : arena_pvp.Arena)
           (p2 : arena_pvp.Player) : arena_pvp.Player :=
  match side with
  | arena_pvp.PlayerOne => p2
  | arena_pvp.PlayerTwo => arena_pvp.player_one arena
  end.

(** The arena a successful [reveal] leaves, given the defender's stats
    after the attack. *)
Definition revealed (arena : arena_pvp.Arena) (side : arena_pvp.Side)
           (p2 : arena_pvp.Player) (defender_stats : stats.Stats)
  : arena_pvp.Arena :=
  let attacker := attacker_of side arena p2 in
  let defender := defender_of side arena p2 in
  let attacker' :=
    arena_pvp.mkPlayer (arena_pvp.starting_hp attacker)
      (arena_pvp.stats attacker) (arena_pvp.account attacker) None
      (arena_pvp.round arena + 1) in
  let defender' :=
    arena_pvp.mkPlayer (arena_pvp.starting_hp defender) defender_stats
      (arena_pvp.account defender) (arena_pvp.next_attack defender)
      (arena_pvp.next_round defender) in
  let bump :=
    is_none (arena_pvp.next_attack defender)
    && (arena_pvp.next_round defender =? arena_pvp.round arena + 1) in
  arena_pvp.mkArena (arena_pvp.id arena) (arena_pvp.seed arena)
    (if bump then arena_pvp.round arena + 1 else arena_pvp.round arena)
    (match side with
     | arena_pvp.PlayerOne => attacker'
     | arena_pvp.PlayerTwo => defender'
     end)
    (Some (match side with
           | arena_pvp.PlayerOne => defender'
           | arena_pvp.PlayerTwo => attacker'
           end))
    (if stats.hp defender_stats =? 0
     then Some (arena_pvp.account attacker)
     else arena_pvp.winner arena).

(** A player record with a stored commitment. *)
Definition committed (p : arena_pvp.Player) (commitment : list Z)
  : arena_pvp.Player :=
  arena_pvp.mkPlayer (arena_pvp.starting_hp p) (arena_pvp.stats p)
    (arena_pvp.account p) (Some commitment) (arena_pvp.next_round p).

(** Round bookkeeping and hp sign of a player record inside an arena. *)
Definition player_inv (arena : arena_pvp.Arena) (p : arena_pvp.Player)
  : Prop :=
  (arena_pvp.next_round p = arena_pvp.round arena \/
   arena_pvp.next_round p = arena_pvp.round arena + 1) /\
  0 <= stats.hp (arena_pvp.stats p).

(** The invariant of reachable arenas: both counters trail the round by at
    most one, hp is never negative, and nothing has been played or won
    before the second player joins. *)
Definition arena_inv (arena : arena_pvp.Arena) : Prop :=
  player_inv arena (arena_pvp.player_one arena) /\
  match arena_pvp.player_two arena with
  | Some p2 => player_inv arena p2
  | None => arena_pvp.round arena = 0 /\ arena_pvp.winner arena = None
  end.

(** Every abort code a computation can raise satisfies [P]. *)
Definition aborts_only {A : Type} (P : abort_code -> Prop) (m : M A) : Prop :=
  forall e, m = Aborted e -> P e.

(** Both players have revealed for round [r] and the round counter has
    not moved. *)
Definition stalled (arena : arena_pvp.Arena) (r : Z) : Prop :=
  arena_pvp.round arena = r /\
  arena_pvp.next_round (arena_pvp.player_one arena) = r + 1 /\
  exists p2, arena_pvp.player_two arena = Some p2 /\
             arena_pvp.next_round p2 = r + 1.

(** ** A concrete instance for examples *)

(** A stand-in for the hash with the shape of a 256-bit digest; the
    examples only need some fixed function with 32-byte outputs. *)
Definition sample_hash (bytes : list Z) : list Z :=
  map (fun i =>
         fold_left (fun acc b => (acc * 33 + b + Z.of_nat i) mod 256)
                   bytes (Z.of_nat i * 7 + 5))
      (seq 0 32).

Definition sample_derive_id (tx : list Z) (n : Z) : arena_pvp.address :=
  4096 + n.

Definition ALICE : arena_pvp.address := 1.
Definition BOB : arena_pvp.address := 2.
Definition CAROL : arena_pvp.address := 3.
Definition SALT : list Z := [1; 2; 3; 4].

Definition ctx_of (who : arena_pvp.address) : arena_pvp.TxContext :=
  arena_pvp.mkTxContext who [0] 0.

Definition hashed_move (_move : Z) : list Z := sample_hash (_move :: SALT).

(** The arena ALICE creates under the sample natives, and the states of
    a sample battle with BOB. *)
Definition sample_arena : arena_pvp.Arena :=
  arena_pvp.mkArena 4097
    [21; 60; 99; 138; 177; 216; 255; 38; 77; 116; 155; 194; 233; 16; 55; 94;
     133; 172; 211; 250; 33; 72; 111; 150; 189; 228; 11; 50; 89; 128; 167;
     206]
    0
    (arena_pvp.mkPlayer 4100000000
       (stats.mkStats 4100000000 35 39 43 47 26 10 [2]) ALICE None 0)
    None None.

Definition play (ops : list arena_pvp.Op) : arena_pvp.Arena :=
  arena_pvp.exec_all sample_hash sample_arena ops.

Definition join_bob : arena_pvp.Op := arena_pvp.Join (ctx_of BOB).

Definition commit_by (who : arena_pvp.address) (_move : Z) : arena_pvp.Op :=
  arena_pvp.Commit (hashed_move _move) (ctx_of who).

Definition reveal_by (who : arena_pvp.address) (_move : Z) : arena_pvp.Op :=
  arena_pvp.Reveal _move SALT (ctx_of who).

(** One full round: both commit, BOB reveals, then ALICE. *)
Definition full_round (alice_move bob_move : Z) : list arena_pvp.Op :=
  [commit_by ALICE alice_move; commit_by BOB bob_move;
   reveal_by BOB bob_move; reveal_by ALICE alice_move].

Definition joined : arena_pvp.Arena := play [join_bob].

Definition both_committed : arena_pvp.Arena :=
  play [join_bob; commit_by ALICE 0; commit_by BOB 2].

Definition bob_revealed : arena_pvp.Arena :=
  play [join_bob; commit_by ALICE 0; commit_by BOB 2; reveal_by BOB 2].


(** ALICE has revealed for round 0 and committed again. *)
Definition alice_recommitted : arena_pvp.Arena :=
  play [join_bob; commit_by ALICE 0; reveal_by ALICE 0; commit_by ALICE 1].

(** ALICE commits for the next round before BOB reveals for this one. *)
Definition alice_early : arena_pvp.Arena :=
  play [join_bob; commit_by ALICE 0; reveal_by ALICE 0; commit_by ALICE 1;
        commit_by BOB 1; reveal_by BOB 1].

(** BOB wins in the third round. *)
Definition finished : arena_pvp.Arena :=
  play (join_bob :: full_round 0 0 ++ full_round 0 0
          ++ [commit_by ALICE 0; commit_by BOB 0; reveal_by BOB 0]).

(** ** prototype::arena, the battle against a bot *)

Module arena.

Record Arena : Type := mkArena {
  id : arena_pvp.address;
  seed : list Z;
  round : Z;
  bot_stats : stats.Stats;
  player_stats : stats.Stats;
  is_over : bool
}.

Inductive Event : Type :=
| ArenaCreated (arena : arena_pvp.address)
               (bot_stats player_stats : stats.Stats)
| ArenaHit (arena : arena_pvp.address) (bot_hp player_hp : Z).

(** [attack] aborts with the bare code 666, which is none of the named
    constants; every other abort comes from the functions it calls. *)
Inductive Result (A : Type) : Type :=
| Returned (a : A)
| Code (code : Z)
| Raised (e : abort_code).
Arguments Returned {A} a.
Arguments Code {A} code.
Arguments Raised {A} e.

Definition of_M {A : Type} (m : M A) : Result A :=
  match m with
  | Ok a => Returned a
  | Aborted e => Raised e
  end.

Definition smooth (value : Z) : M Z :=
  value <- (#value %!8 #60 +!8 #60) /!8 #2 ;;
  if value =? 0 then #10 else #value.

Definition generate_stats (seed : list Z) : M stats.Stats :=
  let level := 10 in
  b0 <- borrow seed 0 ;; s0 <- smooth b0 ;; hp <- #10 +!8 #s0 ;;
  b1 <- borrow seed 1 ;; s1 <- smooth b1 ;;
  b2 <- borrow seed 2 ;; s2 <- smooth b2 ;;
  b3 <- borrow seed 3 ;; s3 <- smooth b3 ;;
  b4 <- borrow seed 4 ;; s4 <- smooth b4 ;;
  b5 <- borrow seed 5 ;; s5 <- smooth b5 ;;
  b6 <- borrow seed 6 ;; type <- #b6 %!8 #3 ;;
  stats.new hp s1 s2 s3 s4 s5 level [type].

Section Natives.

Variable blake2b256 : list Z -> list Z.
Variable derive_id : list Z -> Z -> arena_pvp.address.

Definition derive (seed : list Z) (path : Z) : list Z :=
  blake2b256 (seed ++ [path]).

Definition hit_rng (seed : list Z) (path round : Z) : M Z :=
  value <- borrow (derive seed path) round ;;
  #value %!8 #(255 - 217) +!8 #217.

Definition new_ (ctx : arena_pvp.TxContext) : M (Arena * list Event) :=
  let (addr, ctx) := arena_pvp.fresh_object_address derive_id ctx in
  let seed := blake2b256 (arena_pvp.bcs_to_bytes addr) in
  let (id, ctx) := arena_pvp.fresh_object_address derive_id ctx in
  let arena := id in
  player_stats <- generate_stats (derive seed 0) ;;
  bot_stats <- generate_stats (derive seed 1) ;;
  Ok (mkArena id seed 0 bot_stats player_stats false,
      [ArenaCreated arena bot_stats player_stats]).

(** Create and share a new arena. *)
Definition new (ctx : arena_pvp.TxContext) : M (Arena * list Event) :=
  new_ ctx.

Definition attack (arena : Arena) (_move : Z)
  : Result (Arena * list Event) :=
  if negb (Bool.eqb (is_over arena) false) then Code 666
  else
    of_M
      (player_rng <- hit_rng (seed arena) 3 (round arena) ;;
       bot_rng <- hit_rng (seed arena) 4 (round arena) ;;
       bot_move <- (r <- hit_rng (seed arena) 5 (round arena) ;;
                    #r %!8 #3) ;;
       bot_stats <- battle.attack (player_stats arena) (bot_stats arena)
                                  _move player_rng false ;;
       player_stats <- battle.attack bot_stats (player_stats arena)
                                     bot_move bot_rng false ;;
       round <- #(round arena) +!8 #1 ;;
       let player_hp := stats.hp player_stats in
       let bot_hp := stats.hp bot_stats in
       let is_over :=
         if (player_hp =? 0) || (bot_hp =? 0) then true
         else is_over arena in
       Ok (mkArena (id arena) (seed arena) round bot_stats player_stats
                   is_over,
           [ArenaHit (id arena) bot_hp player_hp])).

(** An attack transaction on the shared arena: effects are kept only when
    the call returns. *)
Definition exec (arena : Arena) (_move : Z) : Arena :=
  match attack arena _move with
  | Returned (arena', _) => arena'
  | _ => arena
  end.

Definition exec_all (arena : Arena) (moves : list Z) : Arena :=
  fold_left exec moves arena.

Inductive reachable : Arena -> Prop :=
| reachable_new ctx arena events :
    new ctx = Ok (arena, events) -> reachable arena
| reachable_attack arena _move arena' events :
    reachable arena -> attack arena _move = Returned (arena', events) ->
    reachable arena'.

End Natives.

End arena.

(** ** The transactions the command line client sends (cli/v1/pvp.js) *)

Module pvp_tx.

(** The salt the client uses for every commitment. *)
Definition salt : list Z := [1; 2; 3; 4].

Section Natives.

Variable blake2b256 : list Z -> list Z.

(** [commit(arena, move)]: the commitment is the hash of the five bytes
    of [new Uint8Array([move, 1, 2, 3, 4])], whose first element is the
    move reduced modulo 256. *)
Definition commit (arena : arena_pvp.Arena) (move : Z)
           (ctx : arena_pvp.TxContext)
  : M (arena_pvp.Arena * list arena_pvp.Event) :=
  let data := (move mod 256) :: salt in
  let hash := blake2b256 data in
  arena_pvp.commit arena hash ctx.

(** [reveal(arena, move)]: the move is passed as a [u8] with the same
    salt.  [move] stands for a byte, as [chooseMove] yields it (0, 1 or
    2); what the client's library makes of a value that is no byte lies
    outside the sources, and nothing is stated of [reveal] there. *)
Definition reveal (arena : arena_pvp.Arena) (move : Z)
           (ctx : arena_pvp.TxContext)
  : M (arena_pvp.Arena * list arena_pvp.Event) :=
  arena_pvp.reveal blake2b256 arena move salt ctx.

End Natives.

End pvp_tx.

(** ** Further closed forms used in the statements *)

(** The sender of a transaction. *)
Definition op_sender (op : arena_pvp.Op) : arena_pvp.address :=
  match op with
  | arena_pvp.Join ctx => arena_pvp.sender ctx
  | arena_pvp.Commit _ ctx => arena_pvp.sender ctx
  | arena_pvp.Reveal _ _ ctx => arena_pvp.sender ctx
  end.

(** Stats as a generator leaves them: level 10, the five non-hp stats
    between [lo] and [hi], exactly one type below 3. *)
Definition stats_shape (lo hi : Z) (s : stats.Stats) : Prop :=
  stats.level s = 10 /\
  lo <= stats.attack s <= hi /\
  lo <= stats.defence s <= hi /\
  lo <= stats.special_attack s <= hi /\
  lo <= stats.special_defence s <= hi /\
  lo <= stats.speed s <= hi /\
  exists t, stats.types s = [t] /\ 0 <= t < 3.

Definition player_shape (p : arena_pvp.Player) : Prop :=
  stats_shape 25 49 (arena_pvp.stats p) /\
  0 <= stats.hp (arena_pvp.stats p) <= arena_pvp.starting_hp p /\
  35 * stats.SCALING_FACTOR <= arena_pvp.starting_hp p
  <= 59 * stats.SCALING_FACTOR.

(** The winner is the player left standing. *)
Definition winner_inv (w : option arena_pvp.address)
           (p1 p2 : arena_pvp.Player) : Prop :=
  match w with
  | None => 0 < stats.hp (arena_pvp.stats p1) /\
            0 < stats.hp (arena_pvp.stats p2)
  | Some a =>
      (a = arena_pvp.account p1 /\ 0 < stats.hp (arena_pvp.stats p1) /\
       stats.hp (arena_pvp.stats p2) = 0) \/
      (a = arena_pvp.account p2 /\ 0 < stats.hp (arena_pvp.stats p2) /\
       stats.hp (arena_pvp.stats p1) = 0)
  end.

Definition battle_inv (arena : arena_pvp.Arena) : Prop :=
  0 <= arena_pvp.round arena /\
  player_shape (arena_pvp.player_one arena) /\
  match arena_pvp.player_two arena with
  | Some p2 =>
      player_shape p2 /\
      arena_pvp.account p2 <> arena_pvp.account (arena_pvp.player_one arena) /\
      winner_inv (arena_pvp.winner arena) (arena_pvp.player_one arena) p2
  | None =>
      arena_pvp.winner arena = None /\
      0 < stats.hp (arena_pvp.stats (arena_pvp.player_one arena))
  end.

(** The invariant of the arenas of the battle against the bot. *)
Definition bot_inv (a : arena.Arena) : Prop :=
  0 <= arena.round a /\
  stats_shape 30 59 (arena.player_stats a) /\
  stats_shape 30 59 (arena.bot_stats a) /\
  0 <= stats.hp (arena.player_stats a) <= 69 * stats.SCALING_FACTOR /\
  0 <= stats.hp (arena.bot_stats a) <= 69 * stats.SCALING_FACTOR /\
  (arena.is_over a = true <->
   stats.hp (arena.player_stats a) = 0 \/ stats.hp (arena.bot_stats a) = 0).

(** The least damage a hit can do: base 2 * SCALING_FACTOR at the lowest
    roll 217/255, halved by the lowest effectiveness 5/10. *)
Definition MIN_RAW_DAMAGE : Z := 170196078.
Definition MIN_DAMAGE : Z := 85098039.

(** The least damage of a hit between two generated players (stats in
    [25,49]) and between the player and the bot (stats in [30,59]): move 1
    against a defender of type 2, without the same-type bonus, at the
    lowest roll. *)
Definition MIN_HIT : Z := 241400558.
Definition BOT_MIN_HIT : Z := 240870718.

(** Each reveal has cost the opponent at least [MIN_HIT] hp; [next_round]
    counts the reveals a player has made. *)
Definition hits_inv (arena : arena_pvp.Arena) : Prop :=
  arena_pvp.round arena <= 25 /\
  match arena_pvp.player_two arena with
  | None => arena_pvp.next_round (arena_pvp.player_one arena) = 0
  | Some p2 =>
      stats.hp (arena_pvp.stats (arena_pvp.player_one arena))
      <= Z.max 0 (arena_pvp.starting_hp (arena_pvp.player_one arena)
                  - MIN_HIT * arena_pvp.next_round p2) /\
      stats.hp (arena_pvp.stats p2)
      <= Z.max 0 (arena_pvp.starting_hp p2
                  - MIN_HIT * arena_pvp.next_round (arena_pvp.player_one arena))
  end.

(** Each attack against the bot has cost both sides at least
    [BOT_MIN_HIT] hp. *)
Definition bot_hits_inv (a : arena.Arena) : Prop :=
  arena.round a <= 29 /\
  stats.hp (arena.player_stats a)
  <= Z.max 0 (69 * stats.SCALING_FACTOR - BOT_MIN_HIT * arena.round a) /\
  stats.hp (arena.bot_stats a)
  <= Z.max 0 (69 * stats.SCALING_FACTOR - BOT_MIN_HIT * arena.round a).

(** The same player record up to hp, commitment and round counter. *)
Definition same_player (p p' : arena_pvp.Player) : Prop :=
  arena_pvp.starting_hp p' = arena_pvp.starting_hp p /\
  arena_pvp.account p' = arena_pvp.account p /\
  exists h, arena_pvp.stats p' = stats.set_hp (arena_pvp.stats p) h.

(** ** Further sample states *)

(** ALICE alone has committed, to move 0 and to the invalid move 7. *)
Definition alice_committed : arena_pvp.Arena :=
  play [join_bob; commit_by ALICE 0].

Definition alice_wrong : arena_pvp.Arena :=
  play [join_bob; commit_by ALICE 7].

(** ALICE has revealed for round 0 and committed again, BOB has committed
    only: BOB's reveal will be the second of round 0. *)
Definition bob_late : arena_pvp.Arena :=
  play [join_bob; commit_by ALICE 0; reveal_by ALICE 0; commit_by ALICE 1;
        commit_by BOB 1].

(** A hand-built arena, not a reachable one: the first player holds a
    commitment before anybody has joined. *)
Definition unjoined_committed : arena_pvp.Arena :=
  arena_pvp.mkArena 4097 (arena_pvp.seed sample_arena) 0
    (committed (arena_pvp.player_one sample_arena) (hashed_move 1))
    None None.

(** The arena ALICE creates against the bot under the sample natives, and
    the states of a sample battle. *)
Definition sample_bot_arena : arena.Arena :=
  arena.mkArena 4097
    [21; 60; 99; 138; 177; 216; 255; 38; 77; 116; 155; 194; 233; 16; 55; 94;
     133; 172; 211; 250; 33; 72; 111; 150; 189; 228; 11; 50; 89; 128; 167;
     206]
    0
    (stats.mkStats 5700000000 51 55 59 33 37 10 [0])
    (stats.mkStats 5600000000 50 54 58 32 36 10 [2])
    false.

Definition bot_play (moves : list Z) : arena.Arena :=
  arena.exec_all sample_hash sample_bot_arena moves.

(** The bot wins with the sixth attack. *)
Definition bot_finished : arena.Arena := bot_play [0; 0; 0; 0; 0; 0].

(** * Properties *)

(** ** Inversion of successful computations *)

Lemma bind_ok_inv {A B : Type} (m : M A) (k : A -> M B) (b : B) :
  bind m k = Ok b -> exists a, m = Ok a /\ k a = Ok b.
Proof.
  destruct m as [a|e]; simpl; intros H; [now exists a | discriminate].
Qed.

Lemma lift2_ok_inv (op : Z -> Z -> M Z) (a b : M Z) (r : Z) :
  lift2 op a b = Ok r -> exists x y, a = Ok x /\ b = Ok y /\ op x y = Ok r.
Proof.
  unfold lift2. destruct a as [x|e]; simpl; [|discriminate].
  destruct b as [y|e]; simpl; [|discriminate]. intros H. now exists x, y.
Qed.

Lemma assert_ok_inv (cond : bool) (code : abort_code) (u : unit) :
  assert cond code = Ok u -> cond = true.
Proof. destruct cond; simpl; [reflexivity | discriminate]. Qed.

Lemma checked_ok_inv (max z r : Z) :
  checked max z = Ok r -> r = z /\ 0 <= z <= max.
Proof.
  unfold checked.
  destruct (0 <=? z) eqn:Hlo; destruct (z <=? max) eqn:Hhi; simpl;
    intros H; inversion H; subst. lia.
Qed.

Lemma checked_in_range (max z : Z) :
  0 <= z <= max -> checked max z = Ok z.
Proof.
  intros [Hlo Hhi]. unfold checked.
  apply Z.leb_le in Hlo, Hhi. now rewrite Hlo, Hhi.
Qed.

Lemma div_ok_inv (max a b r : Z) :
  (if b =? 0 then Aborted ARITHMETIC_ERROR else checked max (a / b)) = Ok r ->
  b <> 0 /\ r = a / b /\ 0 <= a / b <= max.
Proof.
  destruct (b =? 0) eqn:Hb; [discriminate|].
  intros H. apply checked_ok_inv in H. apply Z.eqb_neq in Hb. tauto.
Qed.

Lemma rem_ok_inv (max a b r : Z) :
  (if b =? 0 then Aborted ARITHMETIC_ERROR else checked max (a mod b)) = Ok r ->
  b <> 0 /\ r = a mod b /\ 0 <= a mod b <= max.
Proof.
  destruct (b =? 0) eqn:Hb; [discriminate|].
  intros H. apply checked_ok_inv in H. apply Z.eqb_neq in Hb. tauto.
Qed.

Lemma borrow_ok_inv {A : Type} (v : list A) (i : Z) (x : A) :
  borrow v i = Ok x -> 0 <= i /\ nth_error v (Z.to_nat i) = Some x.
Proof.
  unfold borrow. destruct (i <? 0) eqn:Hi; [discriminate|].
  apply Z.ltb_ge in Hi.
  destruct (nth_error v (Z.to_nat i)); intros H; inversion H; auto.
Qed.

Lemma option_borrow_ok_inv {A : Type} (t : option A) (x : A) :
  option_borrow t = Ok x -> t = Some x.
Proof. destruct t; simpl; intros H; inversion H; reflexivity. Qed.

Lemma bytes_eqb_eq (a b : list Z) : bytes_eqb a b = true <-> a = b.
Proof.
  revert b. induction a as [|x a IH]; destruct b as [|y b]; simpl;
    try (split; [discriminate | congruence]); [tauto|].
  rewrite andb_true_iff, Z.eqb_eq, IH. split.
  - intros [-> ->]. reflexivity.
  - intros H. inversion H. auto.
Qed.

Lemma Ok_inj {A : Type} (a b : A) : Ok a = Ok b -> a = b.
Proof. intros H. now inversion H. Qed.

(** Peel successful binds, assertions and checked operations. *)
Ltac subst_by H :=
  match type of H with
  | ?x = ?y => first [ is_var x; subst x | is_var y; subst y | idtac ]
  end.

Ltac inv_step :=
  match goal with
  | H : Ok _ = Ok _ |- _ => apply Ok_inj in H; subst_by H
  | H : Aborted _ = Ok _ |- _ => discriminate H
  | H : bind _ _ = Ok _ |- _ =>
      apply bind_ok_inv in H; destruct H as (? & ? & ?)
  | H : lift2 _ _ _ = Ok _ |- _ =>
      apply lift2_ok_inv in H; destruct H as (? & ? & ? & ? & ?)
  | H : assert _ _ = Ok _ |- _ => apply assert_ok_inv in H
  | H : add_u8 _ _ = Ok _ |- _ =>
      let E := fresh in
      apply checked_ok_inv in H; destruct H as (E & ?); subst_by E
  | H : add_u64 _ _ = Ok _ |- _ =>
      let E := fresh in
      apply checked_ok_inv in H; destruct H as (E & ?); subst_by E
  | H : mul_u64 _ _ = Ok _ |- _ =>
      let E := fresh in
      apply checked_ok_inv in H; destruct H as (E & ?); subst_by E
  | H : div_u64 _ _ = Ok _ |- _ =>
      let E := fresh in
      apply div_ok_inv in H; destruct H as (? & E & ?); subst_by E
  | H : div_u8 _ _ = Ok _ |- _ =>
      let E := fresh in
      apply div_ok_inv in H; destruct H as (? & E & ?); subst_by E
  | H : rem_u8 _ _ = Ok _ |- _ =>
      let E := fresh in
      apply rem_ok_inv in H; destruct H as (? & E & ?); subst_by E
  | H : option_borrow _ = Ok _ |- _ => apply option_borrow_ok_inv in H
  end.

Ltac inv_M := repeat inv_step.

(** ** Damage engine *)

(** On the values the checked arithmetic lets through, floor division and
    truncating division agree. *)
Lemma quot_eq_div_checked (a b : Z) :
  0 <= a -> b <> 0 -> 0 <= a / b -> a ÷ b = a / b.
Proof.
  intros Ha Hb Hq.
  destruct (Z_lt_le_dec 0 b) as [Hpos|Hneg].
  - now apply Z.quot_div_nonneg.
  - assert (Hlt : b < 0) by lia.
    pose proof (Z.mod_neg_bound a b Hlt) as Hm.
    pose proof (Z.div_mod a b Hb) as Hd.
    assert (a = 0) by nia. subst a.
    now rewrite Z.quot_0_l, Z.div_0_l.
Qed.

Lemma damage_ok_inv (level attack defence move_power random scaling d : Z) :
  0 < scaling ->
  pokemon_v1.damage level attack defence move_power random scaling = Ok d ->
  0 <= d <= MAX_U64 /\
  d = ((2 * level * 1 ÷ 5 + 2) * move_power
         * (scaling * attack ÷ defence) ÷ 50 + 2 * scaling)
        * (scaling * random ÷ 255) ÷ scaling.
Proof.
  intros Hs H. unfold pokemon_v1.damage in H. inv_M.
  split; [lia|].
  rewrite ?Z.mul_1_r in *.
  repeat match goal with
         | |- context [?a ÷ ?b] => rewrite (quot_eq_div_checked a b) by lia
         end.
  reflexivity.
Qed.

Lemma decrease_hp_max (stat : stats.Stats) (value : Z) :
  stats.hp (stats.decrease_hp stat value) = Z.max 0 (stats.hp stat - value).
Proof.
  unfold stats.decrease_hp.
  destruct (stats.hp stat <? value) eqn:Hlt; simpl;
    [apply Z.ltb_lt in Hlt | apply Z.ltb_ge in Hlt]; lia.
Qed.

Lemma mul_div_ok_inv (a b c r : Z) :
  0 <= a -> 0 < c ->
  #a *! #b /! #c = Ok r ->
  0 <= a * b <= MAX_U64 /\ r = a * b ÷ c /\ 0 <= r <= a * b.
Proof.
  intros Ha Hc H. inv_M. split; [lia|].
  rewrite quot_eq_div_checked by lia. split; [reflexivity|].
  split; [lia|]. apply Z.div_le_upper_bound; nia.
Qed.

Lemma attack_ok_inv (attacker defender : stats.Stats) (_move rng : Z)
      (debug : bool) (defender' : stats.Stats) :
  battle.attack attacker defender _move rng debug = Ok defender' ->
  exists attacker_type defender_type damage,
    nth_error (stats.types attacker) 0 = Some attacker_type /\
    nth_error (stats.types defender) 0 = Some defender_type /\
    (_move = 0 \/ _move = 1 \/ _move = 2) /\
    217 <= rng <= 255 /\
    0 <= damage <= MAX_U64 /\
    damage = documented_damage (stats.level attacker) (stats.attack attacker)
               (stats.defence defender) attacker_type defender_type
               _move rng /\
    defender' = stats.decrease_hp defender damage.
Proof.
  intros H. unfold battle.attack in H.
  apply bind_ok_inv in H. destruct H as (u & Hmove & H).
  apply assert_ok_inv, Z.ltb_lt in Hmove.
  apply bind_ok_inv in H. destruct H as (attacker_type & Hat & H).
  apply bind_ok_inv in H. destruct H as (defender_type & Hdt & H).
  apply bind_ok_inv in H. destruct H as (move_power & Hpow & H).
  apply bind_ok_inv in H. destruct H as (raw & Hraw & H).
  apply bind_ok_inv in H. destruct H as (row & Hrow & H).
  apply bind_ok_inv in H. destruct H as (effectiveness & Heff & H).
  apply bind_ok_inv in H. destruct H as (printed & _ & H).
  apply bind_ok_inv in H. destruct H as (scaled & Hscaled & H).
  apply bind_ok_inv in H. destruct H as (final & Hfinal & H).
  inversion H; subst defender'; clear H.
  apply borrow_ok_inv in Hat, Hdt, Hpow, Hrow, Heff.
  destruct Hat as [_ Hat], Hdt as [_ Hdt], Hpow as [Hm0 Hpow],
           Hrow as [_ Hrow], Heff as [Hdt0 Heff].
  unfold pokemon_v1.physical_damage in Hraw.
  apply bind_ok_inv in Hraw. destruct Hraw as (u1 & Hrng & Hraw).
  apply bind_ok_inv in Hraw. destruct Hraw as (u2 & _ & Hraw).
  apply assert_ok_inv in Hrng.
  apply andb_true_iff in Hrng. destruct Hrng as [Hr1 Hr2].
  apply Z.leb_le in Hr1, Hr2.
  apply damage_ok_inv in Hraw; [|reflexivity].
  destruct Hraw as [Hraw_range Hraw].
  assert (Hpower : move_power = documented_move_power _move).
  { unfold documented_move_power.
    now apply nth_error_nth with (d := 0) in Hpow. }
  assert (Heffv : effectiveness = documented_effectiveness _move defender_type).
  { unfold documented_effectiveness.
    apply nth_error_nth with (d := []) in Hrow. rewrite Hrow.
    now apply nth_error_nth with (d := 0) in Heff. }
  apply mul_div_ok_inv in Hscaled; [|lia|reflexivity].
  destruct Hscaled as (Hprod & Hscaled & Hscaled_range).
  assert (Hfinal' : 0 <= final <= MAX_U64 /\
            final = if _move =? attacker_type
                    then scaled * battle.STAB_BONUS ÷ battle.EFF_SCALING
                    else scaled).
  { destruct (_move =? attacker_type).
    - apply mul_div_ok_inv in Hfinal; [|lia|reflexivity].
      unfold battle.STAB_BONUS in *. lia.
    - apply Ok_inj in Hfinal. subst final. lia. }
  destruct Hfinal' as [Hfinal_range Hfinal'].
  exists attacker_type, defender_type, final.
  repeat split; try assumption; try lia.
  unfold documented_damage.
  rewrite <- Hpower, <- Heffv.
  change stats.scaling with stats.SCALING_FACTOR in Hraw.
  rewrite <- Hraw.
  change battle.EFF_SCALING with 10 in Hscaled. rewrite <- Hscaled.
  exact Hfinal'.
Qed.

(** Forward evaluation of checked operations that stay in range. *)
Lemma bind_Ok {A B : Type} (a : A) (k : A -> M B) : bind (Ok a) k = k a.
Proof. reflexivity. Qed.

Lemma mul_u64_ok (a b : Z) :
  0 <= a * b <= MAX_U64 -> #a *! #b = #(a * b).
Proof. intros H. unfold lift2, mul_u64. simpl. now apply checked_in_range. Qed.

Lemma add_u64_ok (a b : Z) :
  0 <= a + b <= MAX_U64 -> #a +! #b = #(a + b).
Proof. intros H. unfold lift2, add_u64. simpl. now apply checked_in_range. Qed.

Lemma div_u64_ok (a b : Z) :
  0 <= a <= MAX_U64 -> 0 < b -> #a /! #b = #(a / b).
Proof.
  intros Ha Hb. unfold lift2, div_u64. simpl.
  destruct (b =? 0) eqn:E; [apply Z.eqb_eq in E; lia|].
  apply checked_in_range. split; [apply Z.div_pos; lia|].
  apply Z.le_trans with a; [|lia]. apply Z.div_le_upper_bound; nia.
Qed.

Lemma div_bounds (a b hi : Z) :
  0 <= a -> 0 < b -> a <= b * hi -> 0 <= a / b <= hi.
Proof.
  intros Ha Hb Hhi. split; [apply Z.div_pos; lia|].
  now apply Z.div_le_upper_bound.
Qed.

Lemma mul_bounds (a b ha hb : Z) :
  0 <= a <= ha -> 0 <= b <= hb -> 0 <= a * b <= ha * hb.
Proof. intros Ha Hb. nia. Qed.

Lemma damage_total (level attack defence move_power random : Z) :
  0 <= level <= 100 -> 0 <= attack <= 50 -> 10 <= defence ->
  0 < move_power <= 80 -> 217 <= random <= 255 ->
  exists d,
    pokemon_v1.damage level attack defence move_power random stats.scaling
    = Ok d /\ 0 <= d <= 40000000000.
Proof.
  intros Hl Ha Hd Hp Hr.
  unfold pokemon_v1.damage, stats.scaling, stats.SCALING_FACTOR, MAX_U64 in *.
  set (lvl_mod := 2 * level * 1 / 5 + 2).
  assert (Hlvl : 2 <= lvl_mod <= 42).
  { subst lvl_mod. pose proof (div_bounds (2 * level * 1) 5 40). lia. }
  set (atk_def := 100000000 * attack / defence).
  assert (Hatk : 0 <= atk_def <= 500000000).
  { subst atk_def. apply div_bounds; lia. }
  set (result := lvl_mod * move_power * atk_def / 50 + 2 * 100000000).
  assert (Hlp : 0 <= lvl_mod * move_power <= 3360).
  { pose proof (mul_bounds lvl_mod move_power 42 80). lia. }
  assert (Hprod : 0 <= lvl_mod * move_power * atk_def <= 1680000000000).
  { pose proof (mul_bounds (lvl_mod * move_power) atk_def 3360 500000000).
    lia. }
  assert (Hres : 0 <= result <= 33800000000).
  { subst result.
    pose proof (div_bounds (lvl_mod * move_power * atk_def) 50 33600000000).
    lia. }
  set (rnd_val := 100000000 * random / 255).
  assert (Hrnd : 0 <= rnd_val <= 100000000).
  { subst rnd_val. apply div_bounds; lia. }
  assert (Hfin : 0 <= result * rnd_val <= 3380000000000000000).
  { pose proof (mul_bounds result rnd_val 33800000000 100000000). lia. }
  exists (result * rnd_val * 1 / 100000000).
  split.
  - rewrite (mul_u64_ok 2 level) by (unfold MAX_U64; lia).
    rewrite (mul_u64_ok (2 * level) 1) by (unfold MAX_U64; lia).
    rewrite div_u64_ok by (unfold MAX_U64; lia).
    rewrite add_u64_ok by (unfold MAX_U64; fold lvl_mod; lia).
    rewrite bind_Ok. fold lvl_mod.
    rewrite mul_u64_ok by (unfold MAX_U64; lia).
    rewrite div_u64_ok by (unfold MAX_U64; lia).
    rewrite bind_Ok. fold atk_def.
    rewrite (mul_u64_ok lvl_mod) by (unfold MAX_U64; lia).
    rewrite mul_u64_ok by (unfold MAX_U64; lia).
    rewrite div_u64_ok by (unfold MAX_U64; lia).
    rewrite (mul_u64_ok 2) by (unfold MAX_U64; lia).
    rewrite add_u64_ok by (unfold MAX_U64; fold result; lia).
    rewrite bind_Ok. fold result.
    rewrite mul_u64_ok by (unfold MAX_U64; lia).
    rewrite div_u64_ok by (unfold MAX_U64; lia).
    rewrite bind_Ok. fold rnd_val.
    rewrite mul_u64_ok by (unfold MAX_U64; lia).
    rewrite mul_u64_ok by (unfold MAX_U64; lia).
    rewrite div_u64_ok by (unfold MAX_U64; lia).
    reflexivity.
  - rewrite Z.mul_1_r.
    pose proof (div_bounds (result * rnd_val) 100000000 40000000000). lia.
Qed.

Lemma move_power_total (_move : Z) :
  0 <= _move < 3 ->
  exists p, borrow battle.MOVES_POWER _move = Ok p /\ 0 < p <= 80.
Proof.
  intros H.
  assert (C : _move = 0 \/ _move = 1 \/ _move = 2) by lia.
  destruct C as [-> | [-> | ->]]; eexists; (split; [reflexivity | lia]).
Qed.

Lemma effectiveness_total (_move defender_type : Z) :
  0 <= _move < 3 -> 0 <= defender_type < 3 ->
  exists row e,
    borrow battle.MOVES_EFFECTIVENESS _move = Ok row /\
    borrow row defender_type = Ok e /\ 0 <= e <= 20.
Proof.
  intros Hm Ht.
  assert (Cm : _move = 0 \/ _move = 1 \/ _move = 2) by lia.
  assert (Ct : defender_type = 0 \/ defender_type = 1 \/ defender_type = 2)
    by lia.
  destruct Cm as [-> | [-> | ->]]; destruct Ct as [-> | [-> | ->]];
    do 2 eexists; (split; [reflexivity | split; [reflexivity | lia]]).
Qed.

Lemma mul_div_u64_ok (a b c : Z) :
  0 <= a * b <= MAX_U64 -> 0 < c -> #a *! #b /! #c = #(a * b / c).
Proof.
  intros Hab Hc. rewrite mul_u64_ok by assumption.
  now apply div_u64_ok.
Qed.

Lemma borrow_head {A : Type} (v : list A) (x : A) :
  nth_error v 0 = Some x -> borrow v 0 = Ok x.
Proof. unfold borrow. simpl. now intros ->. Qed.

Lemma attack_total (attacker defender : stats.Stats) (_move rng : Z)
      (debug : bool) (attacker_type defender_type : Z) :
  nth_error (stats.types attacker) 0 = Some attacker_type ->
  nth_error (stats.types defender) 0 = Some defender_type ->
  0 <= defender_type < 3 ->
  0 <= _move < 3 -> 217 <= rng <= 255 ->
  0 <= stats.level attacker <= 100 ->
  0 <= stats.attack attacker <= 50 ->
  10 <= stats.defence defender ->
  exists defender', battle.attack attacker defender _move rng debug
                    = Ok defender'.
Proof.
  intros Hat Hdt Htd Hm Hr Hl Ha Hd.
  destruct (move_power_total _move Hm) as (p & Hp & Hprange).
  destruct (effectiveness_total _move defender_type Hm Htd)
    as (row & e & Hrow & He & Herange).
  destruct (damage_total (stats.level attacker) (stats.attack attacker)
              (stats.defence defender) p rng Hl Ha Hd Hprange Hr)
    as (d & Hdmg & Hdrange).
  unfold battle.attack.
  assert (Hmove : (_move <? 3) = true) by (apply Z.ltb_lt; lia).
  rewrite Hmove. unfold assert at 1. rewrite bind_Ok.
  rewrite (borrow_head _ _ Hat), bind_Ok.
  rewrite (borrow_head _ _ Hdt), bind_Ok, Hp, bind_Ok.
  unfold pokemon_v1.physical_damage.
  assert (Hrng : ((217 <=? rng) && (rng <=? 255)) = true).
  { apply andb_true_iff. split; apply Z.leb_le; lia. }
  assert (Hpos : (0 <? p) = true) by (apply Z.ltb_lt; lia).
  rewrite Hrng, Hpos. unfold assert. rewrite !bind_Ok, Hdmg, bind_Ok.
  rewrite Hrow, bind_Ok, He, bind_Ok.
  assert (Hde : 0 <= d * e <= 800000000000).
  { pose proof (mul_bounds d e 40000000000 20). lia. }
  unfold battle.EFF_SCALING, battle.STAB_BONUS.
  assert (Hscaled : 0 <= d * e / 10 <= 80000000000).
  { apply div_bounds; lia. }
  assert (Hprinted :
            (if debug
             then #d /! #1000000000 ;;
                  #d *! #e /! #10 /! #1000000000
             else #0) = #(if debug then d * e / 10 / 1000000000 else 0)).
  { destruct debug; [|reflexivity].
    rewrite div_u64_ok by (unfold MAX_U64; lia). rewrite bind_Ok.
    rewrite mul_div_u64_ok by (unfold MAX_U64; lia).
    rewrite div_u64_ok by (unfold MAX_U64; lia). reflexivity. }
  rewrite Hprinted, bind_Ok.
  rewrite mul_div_u64_ok by (unfold MAX_U64; lia). rewrite bind_Ok.
  destruct (_move =? attacker_type).
  - rewrite mul_div_u64_ok by (unfold MAX_U64; lia). rewrite bind_Ok.
    eexists. reflexivity.
  - rewrite bind_Ok. eexists. reflexivity.
Qed.

(** C5. The damage subtracted from the defender is the documented formula:
    whenever [battle::attack] returns, the move index is 0, 1 or 2, the
    random byte lies in [217,255], and the defender's hp has been decreased,
    saturating at zero, by the documented truncating-integer formula with
    move power 40/60/80, the effectiveness entry [move][defender type] over
    10 and the 15/10 bonus exactly when the move equals the attacker's
    type; and the call does return for every move in {0,1,2} and random
    byte in [217,255] on stats within the documented bounds. *)
Theorem attack_subtracts_documented_damage
        (attacker defender : stats.Stats) (_move rng : Z) (debug : bool) :
  (forall defender',
      battle.attack attacker defender _move rng debug = Ok defender' ->
      exists attacker_type defender_type,
        nth_error (stats.types attacker) 0 = Some attacker_type /\
        nth_error (stats.types defender) 0 = Some defender_type /\
        (_move = 0 \/ _move = 1 \/ _move = 2) /\
        217 <= rng <= 255 /\
        let damage :=
          documented_damage (stats.level attacker) (stats.attack attacker)
            (stats.defence defender) attacker_type defender_type _move rng in
        defender' = stats.decrease_hp defender damage /\
        stats.hp defender' = Z.max 0 (stats.hp defender - damage)) /\
  (forall attacker_type defender_type,
      nth_error (stats.types attacker) 0 = Some attacker_type ->
      nth_error (stats.types defender) 0 = Some defender_type ->
      0 <= defender_type < 3 ->
      0 <= _move < 3 -> 217 <= rng <= 255 ->
      0 <= stats.level attacker <= 100 ->
      0 <= stats.attack attacker <= 50 ->
      10 <= stats.defence defender ->
      exists defender',
        battle.attack attacker defender _move rng debug = Ok defender').
Proof.
  split.
  - intros defender' H.
    destruct (attack_ok_inv _ _ _ _ _ _ H)
      as (ta & td & damage & Hta & Htd & Hm & Hr & _ & Hdmg & Hdef).
    exists ta, td. repeat split; try assumption; try lia.
    + cbv zeta. rewrite <- Hdmg. exact Hdef.
    + cbv zeta. rewrite <- Hdmg, Hdef. apply decrease_hp_max.
  - intros. eapply attack_total; eassumption.
Qed.

(** ** Stat generation *)

Lemma rem_u8_ok (a c : Z) :
  0 < c <= 256 -> #a %!8 #c = #(a mod c).
Proof.
  intros Hc. unfold lift2, rem_u8. simpl.
  destruct (c =? 0) eqn:E; [apply Z.eqb_eq in E; lia|].
  apply checked_in_range. pose proof (Z.mod_pos_bound a c). unfold MAX_U8. lia.
Qed.

Lemma add_u8_ok (a b : Z) :
  0 <= a + b <= 255 -> #a +!8 #b = #(a + b).
Proof. intros H. unfold lift2, add_u8. simpl. now apply checked_in_range. Qed.

Lemma div_u8_ok (a b : Z) :
  0 <= a <= 255 -> 0 < b -> #a /!8 #b = #(a / b).
Proof.
  intros Ha Hb. unfold lift2, div_u8. simpl.
  destruct (b =? 0) eqn:E; [apply Z.eqb_eq in E; lia|].
  apply checked_in_range. unfold MAX_U8.
  split; [apply Z.div_pos; lia|].
  apply Z.le_trans with a; [|lia]. apply Z.div_le_upper_bound; nia.
Qed.

Lemma smoothed_range (b : Z) : 25 <= smoothed b <= 49.
Proof.
  unfold smoothed. pose proof (Z.mod_pos_bound b 50).
  split.
  - apply Z.div_le_lower_bound; lia.
  - assert (H49 : (b mod 50 + 50) / 2 < 50)
      by (apply Z.div_lt_upper_bound; lia).
    lia.
Qed.

Lemma smooth_ok (b : Z) : arena_pvp.smooth b = Ok (smoothed b).
Proof.
  unfold arena_pvp.smooth.
  pose proof (Z.mod_pos_bound b 50).
  pose proof (smoothed_range b) as Hr.
  rewrite rem_u8_ok by lia.
  rewrite add_u8_ok by lia.
  rewrite div_u8_ok by lia.
  rewrite bind_Ok. fold (smoothed b).
  destruct (smoothed b <? 10) eqn:E; [apply Z.ltb_lt in E; lia|].
  reflexivity.
Qed.

Lemma generate_stats_ok_inv (seed : list Z) (s : stats.Stats) :
  arena_pvp.generate_stats seed = Ok s ->
  exists b0 b1 b2 b3 b4 b5 b6 rest,
    seed = b0 :: b1 :: b2 :: b3 :: b4 :: b5 :: b6 :: rest /\
    s = generated b0 b1 b2 b3 b4 b5 b6.
Proof.
  intros H. unfold arena_pvp.generate_stats, stats.new in H.
  inv_M.
  repeat match goal with
         | H : arena_pvp.smooth ?b = Ok ?s |- _ =>
             rewrite smooth_ok in H; apply Ok_inj in H; subst s
         | H : borrow _ _ = Ok _ |- _ =>
             apply borrow_ok_inv in H; destruct H as [_ H]; simpl in H
         end.
  destruct seed as [|b0 [|b1 [|b2 [|b3 [|b4 [|b5 [|b6 rest]]]]]]];
    try discriminate.
  repeat match goal with
         | H : Some ?a = Some ?b |- _ =>
             assert (b = a) by congruence; clear H; subst b
         end.
  exists b0, b1, b2, b3, b4, b5, b6, rest. split; [reflexivity|].
  unfold generated. f_equal; ring.
Qed.

Lemma generate_stats_total (b0 b1 b2 b3 b4 b5 b6 : Z) (rest : list Z) :
  arena_pvp.generate_stats (b0 :: b1 :: b2 :: b3 :: b4 :: b5 :: b6 :: rest)
  = Ok (generated b0 b1 b2 b3 b4 b5 b6).
Proof.
  unfold arena_pvp.generate_stats.
  repeat match goal with
         | |- context [borrow ?v ?i] =>
             change (borrow v i) with (Ok (nth (Z.to_nat i) v 0));
             cbv beta iota delta [nth Z.to_nat Pos.to_nat Pos.iter_op Init.Nat.add]
         end.
  rewrite !bind_Ok, !smooth_ok, !bind_Ok.
  pose proof (smoothed_range b0).
  rewrite add_u8_ok by lia. rewrite bind_Ok.
  repeat rewrite ?smooth_ok, ?bind_Ok.
  rewrite rem_u8_ok by lia. rewrite bind_Ok.
  unfold stats.new. change (10 <=? 100) with true. unfold assert.
  rewrite bind_Ok.
  rewrite mul_u64_ok by (unfold stats.SCALING_FACTOR, MAX_U64; lia).
  reflexivity.
Qed.

Lemma seed_split (seed : list Z) :
  (7 <= length seed)%nat ->
  exists b0 b1 b2 b3 b4 b5 b6 rest,
    seed = b0 :: b1 :: b2 :: b3 :: b4 :: b5 :: b6 :: rest.
Proof.
  destruct seed as [|b0 [|b1 [|b2 [|b3 [|b4 [|b5 [|b6 rest]]]]]]];
    simpl; intros H; try lia.
  now exists b0, b1, b2, b3, b4, b5, b6, rest.
Qed.

(** C6. For every seed with at least the seven bytes the generator reads,
    [generate_stats] returns stats whose attack, defence, special attack,
    special defence and speed lie in [10,50] and whose hp is at least
    10 * SCALING_FACTOR. *)
Theorem generate_stats_contract (seed : list Z) :
  (7 <= length seed)%nat ->
  exists s,
    arena_pvp.generate_stats seed = Ok s /\
    10 <= stats.attack s <= 50 /\
    10 <= stats.defence s <= 50 /\
    10 <= stats.special_attack s <= 50 /\
    10 <= stats.special_defence s <= 50 /\
    10 <= stats.speed s <= 50 /\
    10 * stats.SCALING_FACTOR <= stats.hp s.
Proof.
  intros Hlen.
  destruct (seed_split seed Hlen)
    as (b0 & b1 & b2 & b3 & b4 & b5 & b6 & rest & ->).
  exists (generated b0 b1 b2 b3 b4 b5 b6).
  split; [apply generate_stats_total|].
  pose proof (smoothed_range b0). pose proof (smoothed_range b1).
  pose proof (smoothed_range b2). pose proof (smoothed_range b3).
  pose proof (smoothed_range b4). pose proof (smoothed_range b5).
  unfold generated.
  cbn [stats.hp stats.attack stats.defence stats.special_attack
       stats.special_defence stats.speed].
  unfold stats.SCALING_FACTOR. lia.
Qed.

Lemma generate_stats_contract_witness :
  exists s,
    arena_pvp.generate_stats [0; 49; 50; 99; 128; 255; 7] = Ok s /\
    10 <= stats.attack s <= 50 /\
    10 <= stats.defence s <= 50 /\
    10 <= stats.special_attack s <= 50 /\
    10 <= stats.special_defence s <= 50 /\
    10 <= stats.speed s <= 50 /\
    10 * stats.SCALING_FACTOR <= stats.hp s.
Proof.
  apply (generate_stats_contract [0; 49; 50; 99; 128; 255; 7]).
  simpl. lia.
Defined.

(** C9. For every byte the value [smooth] computes before its comparison,
    ((b mod 50) + 50) / 2, already lies in [25,49]; the branch returning 10
    is never taken; every generated non-hp stat lies in [25,49] and the
    generated hp lies in [35 * SCALING_FACTOR, 59 * SCALING_FACTOR]. *)
Theorem smooth_fallback_unreachable (b : Z) (seed : list Z) :
  (7 <= length seed)%nat ->
  (25 <= (b mod 50 + 50) / 2 <= 49 /\
   ((b mod 50 + 50) / 2 <? 10) = false /\
   arena_pvp.smooth b = Ok ((b mod 50 + 50) / 2)) /\
  exists s,
    arena_pvp.generate_stats seed = Ok s /\
    25 <= stats.attack s <= 49 /\
    25 <= stats.defence s <= 49 /\
    25 <= stats.special_attack s <= 49 /\
    25 <= stats.special_defence s <= 49 /\
    25 <= stats.speed s <= 49 /\
    35 * stats.SCALING_FACTOR <= stats.hp s <= 59 * stats.SCALING_FACTOR.
Proof.
  intros Hlen. split.
  - pose proof (smoothed_range b) as Hr. unfold smoothed in Hr.
    split; [lia|]. split; [apply Z.ltb_ge; lia | apply smooth_ok].
  - destruct (seed_split seed Hlen)
      as (b0 & b1 & b2 & b3 & b4 & b5 & b6 & rest & ->).
    exists (generated b0 b1 b2 b3 b4 b5 b6).
    split; [apply generate_stats_total|].
    pose proof (smoothed_range b0). pose proof (smoothed_range b1).
    pose proof (smoothed_range b2). pose proof (smoothed_range b3).
    pose proof (smoothed_range b4). pose proof (smoothed_range b5).
    unfold generated.
    cbn [stats.hp stats.attack stats.defence stats.special_attack
         stats.special_defence stats.speed].
    unfold stats.SCALING_FACTOR. lia.
Qed.

Lemma smooth_fallback_unreachable_witness :
  (25 <= (255 mod 50 + 50) / 2 <= 49 /\
   ((255 mod 50 + 50) / 2 <? 10) = false /\
   arena_pvp.smooth 255 = Ok ((255 mod 50 + 50) / 2)) /\
  exists s,
    arena_pvp.generate_stats [0; 49; 50; 99; 128; 255; 7; 9] = Ok s /\
    25 <= stats.attack s <= 49 /\
    25 <= stats.defence s <= 49 /\
    25 <= stats.special_attack s <= 49 /\
    25 <= stats.special_defence s <= 49 /\
    25 <= stats.speed s <= 49 /\
    35 * stats.SCALING_FACTOR <= stats.hp s <= 59 * stats.SCALING_FACTOR.
Proof.
  apply (smooth_fallback_unreachable 255 [0; 49; 50; 99; 128; 255; 7; 9]).
  simpl. lia.
Defined.

(** ** The arena state machine *)

Section ArenaProperties.

Variable blake2b256 : list Z -> list Z.
Variable derive_id : list Z -> Z -> arena_pvp.address.

Import arena_pvp.

Local Abbreviation derive := (arena_pvp.derive blake2b256).
Local Abbreviation hit_rng := (arena_pvp.hit_rng blake2b256).
Local Abbreviation new := (arena_pvp.new blake2b256 derive_id).
Local Abbreviation join := (arena_pvp.join blake2b256).
Local Abbreviation reveal := (arena_pvp.reveal blake2b256).
Local Abbreviation call := (arena_pvp.call blake2b256).
Local Abbreviation exec := (arena_pvp.exec blake2b256).
Local Abbreviation exec_all := (arena_pvp.exec_all blake2b256).
Local Abbreviation commit := arena_pvp.commit.
Local Abbreviation reachable := (arena_pvp.reachable blake2b256 derive_id).

Lemma hit_rng_ok_inv (seed : list Z) (path round rng : Z) :
  hit_rng seed path round = Ok rng ->
  exists value,
    0 <= round /\
    nth_error (derive seed path) (Z.to_nat round) = Some value /\
    rng = value mod 38 + 217 /\ 217 <= rng <= 254.
Proof.
  unfold arena_pvp.hit_rng. intros H.
  apply bind_ok_inv in H. destruct H as (value & Hv & H).
  apply borrow_ok_inv in Hv. destruct Hv as [Hr Hv].
  change (255 - 217) with 38 in H.
  rewrite rem_u8_ok in H by lia.
  pose proof (Z.mod_pos_bound value 38).
  rewrite add_u8_ok in H by lia.
  apply Ok_inj in H. subst rng.
  exists value. repeat split; try assumption; lia.
Qed.

Lemma reveal_ok_inv (arena : Arena) (_move : Z) (salt : list Z)
      (ctx : TxContext) (arena' : Arena) (events : list Event) :
  reveal arena _move salt ctx = Ok (arena', events) ->
  exists side p2 rng defender_stats,
    player_two arena = Some p2 /\
    winner arena = None /\
    match side with
    | PlayerOne => is_player_one arena (sender ctx) = true
    | PlayerTwo => is_player_one arena (sender ctx) = false /\
                   is_player_two arena (sender ctx) = true
    end /\
    next_attack (attacker_of side arena p2)
    = Some (blake2b256 (_move :: salt)) /\
    next_round (attacker_of side arena p2) = round arena /\
    hit_rng (blake2b256 (_move :: salt)) 2 (round arena) = Ok rng /\
    battle.attack (stats (attacker_of side arena p2))
                  (stats (defender_of side arena p2)) _move rng false
    = Ok defender_stats /\
    0 <= round arena + 1 <= 255 /\
    arena' = revealed arena side p2 defender_stats.
Proof.
  intros H. unfold arena_pvp.reveal in H.
  apply bind_ok_inv in H. destruct H as (u1 & Hp2 & H).
  apply bind_ok_inv in H. destruct H as (u2 & Hw & H).
  apply bind_ok_inv in H. destruct H as (side & Hside & H).
  apply bind_ok_inv in H. destruct H as (p2 & Hb & H).
  apply option_borrow_ok_inv in Hb.
  apply assert_ok_inv in Hw.
  assert (Hwinner : winner arena = None)
    by (destruct (winner arena); [discriminate | reflexivity]).
  exists side, p2.
  assert (Hroles :
            match side with
            | PlayerOne => is_player_one arena (sender ctx) = true
            | PlayerTwo => is_player_one arena (sender ctx) = false /\
                           is_player_two arena (sender ctx) = true
            end).
  { destruct (is_player_one arena (sender ctx)) eqn:E1.
    - apply Ok_inj in Hside. now subst side.
    - destruct (is_player_two arena (sender ctx)) eqn:E2;
        [|discriminate]. apply Ok_inj in Hside. now subst side. }
  clear Hside.
  assert (Hpair :
            match side with
            | PlayerOne => (player_one arena, p2)
            | PlayerTwo => (p2, player_one arena)
            end = (attacker_of side arena p2, defender_of side arena p2))
    by (destruct side; reflexivity).
  rewrite Hpair in H. clear Hpair.
  set (attacker := attacker_of side arena p2) in *.
  set (defender := defender_of side arena p2) in *.
  apply bind_ok_inv in H. destruct H as (u3 & _ & H).
  apply bind_ok_inv in H. destruct H as (u4 & Hround & H).
  apply bind_ok_inv in H. destruct H as (stored & Hstored & H).
  apply bind_ok_inv in H. destruct H as (u5 & Hhash & H).
  apply bind_ok_inv in H. destruct H as (rng & Hrng & H).
  apply bind_ok_inv in H. destruct H as (defender_stats & Hatk & H).
  apply bind_ok_inv in H. destruct H as (attacker_round & Har & H).
  apply bind_ok_inv in H. destruct H as (cond & Hcond & H).
  apply bind_ok_inv in H. destruct H as (round' & Hround' & H).
  apply option_borrow_ok_inv in Hstored.
  apply assert_ok_inv, bytes_eqb_eq in Hhash.
  apply assert_ok_inv, Z.eqb_eq in Hround.
  apply lift2_ok_inv in Har. destruct Har as (a & b & Ha & Hb' & Har).
  apply Ok_inj in Ha, Hb'. subst a b.
  apply checked_ok_inv in Har. destruct Har as [-> Hrange].
  exists rng, defender_stats.
  split; [assumption|]. split; [assumption|]. split; [assumption|].
  split; [congruence|]. split; [assumption|]. split; [assumption|].
  split; [assumption|]. split; [exact Hrange|].
  assert (Hadd : #(round arena) +!8 #1 = #(round arena + 1))
    by (apply add_u8_ok; exact Hrange).
  cbn [next_attack next_round stats account starting_hp] in Hcond, Hround', H.
  rewrite Hadd in Hcond.
  assert (Hc : cond = is_none (next_attack defender)
                      && (next_round defender =? round arena + 1)).
  { destruct (is_none (next_attack defender)).
    - rewrite bind_Ok in Hcond. apply Ok_inj in Hcond. now subst cond.
    - apply Ok_inj in Hcond. now subst cond. }
  assert (Hr' : round' = if cond then round arena + 1 else round arena).
  { destruct cond; [rewrite Hadd in Hround'|];
      apply Ok_inj in Hround'; now subst round'. }
  subst cond round'.
  unfold revealed. fold attacker defender.
  destruct side; cbn [fst snd] in H; apply Ok_inj in H;
    inversion H; reflexivity.
Qed.

Lemma commit_ok_inv (arena : Arena) (commitment : list Z) (ctx : TxContext)
      (arena' : Arena) (events : list Event) :
  commit arena commitment ctx = Ok (arena', events) ->
  winner arena = None /\
  exists p2,
    player_two arena = Some p2 /\
    ((sender ctx = account (player_one arena) /\
      next_attack (player_one arena) = None /\
      arena' = mkArena (id arena) (seed arena) (round arena)
                 (committed (player_one arena) commitment)
                 (Some p2) (winner arena))
     \/
     (sender ctx <> account (player_one arena) /\
      sender ctx = account p2 /\
      next_attack p2 = None /\
      arena' = mkArena (id arena) (seed arena) (round arena)
                 (player_one arena)
                 (Some (committed p2 commitment)) (winner arena))).
Proof.
  intros H. unfold arena_pvp.commit in H.
  apply bind_ok_inv in H. destruct H as (u1 & Hw & H).
  apply bind_ok_inv in H. destruct H as (u2 & Hp2 & H).
  apply bind_ok_inv in H. destruct H as (a & Ha & H).
  apply Ok_inj in H. inversion H; subst a events; clear H.
  apply assert_ok_inv in Hw, Hp2.
  split; [destruct (winner arena); [discriminate | reflexivity]|].
  destruct (player_two arena) as [p2|] eqn:E2; [|discriminate].
  exists p2. split; [reflexivity|].
  destruct (sender ctx =? account (player_one arena)) eqn:E1.
  - apply Z.eqb_eq in E1. left.
    apply bind_ok_inv in Ha. destruct Ha as (u3 & Hn & Ha).
    apply assert_ok_inv in Hn. apply Ok_inj in Ha.
    split; [assumption|].
    split; [destruct (next_attack (player_one arena));
            [discriminate | reflexivity]|].
    symmetry. exact Ha.
  - apply Z.eqb_neq in E1. right. cbn [option_borrow bind] in Ha.
    destruct (sender ctx =? account p2) eqn:E3; [|discriminate].
    apply Z.eqb_eq in E3.
    apply bind_ok_inv in Ha. destruct Ha as (u3 & Hn & Ha).
    apply assert_ok_inv in Hn. apply Ok_inj in Ha.
    split; [assumption|]. split; [assumption|].
    split; [destruct (next_attack p2); [discriminate | reflexivity]|].
    symmetry. exact Ha.
Qed.

Lemma join_ok_inv (arena : Arena) (ctx : TxContext)
      (arena' : Arena) (events : list Event) :
  join arena ctx = Ok (arena', events) ->
  sender ctx <> account (player_one arena) /\
  player_two arena = None /\
  exists s,
    generate_stats (derive (seed arena) 1) = Ok s /\
    arena' = mkArena (id arena) (seed arena) (round arena)
               (player_one arena)
               (Some (mkPlayer (stats.hp s) s (sender ctx) None 0))
               (winner arena).
Proof.
  intros H. unfold arena_pvp.join in H.
  apply bind_ok_inv in H. destruct H as (u1 & Hs & H).
  apply bind_ok_inv in H. destruct H as (s & Hgen & H).
  apply bind_ok_inv in H. destruct H as (p2 & Hfill & H).
  apply Ok_inj in H. inversion H; subst arena' events; clear H.
  apply assert_ok_inv, negb_true_iff, Z.eqb_neq in Hs.
  split; [assumption|].
  destruct (player_two arena) as [old|]; [discriminate|].
  split; [reflexivity|].
  exists s. split; [assumption|].
  simpl in Hfill. apply Ok_inj in Hfill. now subst p2.
Qed.

Lemma new_ok_inv (ctx : TxContext) (arena : Arena) (events : list Event) :
  new ctx = Ok (arena, events) ->
  exists s,
    generate_stats (derive (seed arena) 0) = Ok s /\
    round arena = 0 /\ player_two arena = None /\ winner arena = None /\
    player_one arena = mkPlayer (stats.hp s) s (sender ctx) None 0.
Proof.
  intros H. unfold arena_pvp.new, arena_pvp.new_ in H.
  unfold arena_pvp.fresh_object_address in H.
  apply bind_ok_inv in H. destruct H as ([a c] & Hn & H).
  apply bind_ok_inv in Hn. destruct Hn as (s & Hgen & Hn).
  apply Ok_inj in Hn. inversion Hn; subst a c; clear Hn.
  apply Ok_inj in H. inversion H; subst arena events; clear H.
  exists s. simpl. auto.
Qed.

(** *** The invariant of reachable arenas *)

Lemma generated_hp_nonneg (seed : list Z) (s : stats.Stats) :
  generate_stats seed = Ok s -> 0 <= stats.hp s.
Proof.
  intros H. apply generate_stats_ok_inv in H.
  destruct H as (b0 & b1 & b2 & b3 & b4 & b5 & b6 & rest & _ & ->).
  pose proof (smoothed_range b0).
  unfold generated, stats.SCALING_FACTOR. cbn [stats.hp]. lia.
Qed.

Lemma attack_hp (attacker defender defender' : stats.Stats)
      (_move rng : Z) (debug : bool) :
  battle.attack attacker defender _move rng debug = Ok defender' ->
  0 <= stats.hp defender ->
  0 <= stats.hp defender' <= stats.hp defender.
Proof.
  intros H Hhp. apply attack_ok_inv in H.
  destruct H as (ta & td & damage & _ & _ & _ & _ & Hd & _ & ->).
  rewrite decrease_hp_max. lia.
Qed.

Lemma arena_inv_new (ctx : TxContext) (arena : Arena) (events : list Event) :
  new ctx = Ok (arena, events) -> arena_inv arena.
Proof.
  intros H. apply new_ok_inv in H.
  destruct H as (s & Hgen & Hr & Hp2 & Hw & Hp1).
  apply generated_hp_nonneg in Hgen.
  unfold arena_inv, player_inv. rewrite Hp2, Hp1, Hr.
  cbn [next_round stats]. auto.
Qed.

Lemma arena_inv_reveal (arena arena' : Arena) (_move : Z) (salt : list Z)
      (ctx : TxContext) (events : list Event) :
  arena_inv arena ->
  reveal arena _move salt ctx = Ok (arena', events) ->
  arena_inv arena'.
Proof.
  intros [I1 I2] H. apply reveal_ok_inv in H.
  destruct H as (side & p2 & rng & ds & Hp2 & Hw & _ & _ & Hnr & _
                 & Hatk & _ & ->).
  rewrite Hp2 in I2. destruct I1 as [R1 H1], I2 as [R2 H2].
  unfold arena_inv, player_inv, revealed.
  destruct side; cbn [attacker_of defender_of] in *;
    cbn [player_one player_two round next_round next_attack stats];
    apply attack_hp in Hatk; try assumption;
    match goal with
    | |- context [if ?c then _ else _] => destruct c eqn:Hc
    end;
    try (apply andb_true_iff in Hc; destruct Hc as [_ Hc];
         apply Z.eqb_eq in Hc);
    repeat split; try lia.
Qed.

Lemma arena_inv_call (arena arena' : Arena) (op : Op) (events : list Event) :
  arena_inv arena ->
  call arena op = Ok (arena', events) ->
  arena_inv arena'.
Proof.
  intros I H. destruct op as [ctx | commitment ctx | _move salt ctx];
    cbn [arena_pvp.call] in H.
  - apply join_ok_inv in H.
    destruct H as (_ & Hp2 & s & Hgen & ->).
    destruct I as [I1 I2]. rewrite Hp2 in I2. destruct I2 as [Hr Hw].
    apply generated_hp_nonneg in Hgen.
    unfold arena_inv, player_inv in *.
    cbn [player_one player_two round next_round stats]. rewrite Hr in *.
    split; [assumption|]. split; [auto | assumption].
  - apply commit_ok_inv in H.
    destruct H as (_ & p2 & Hp2 & [(_ & _ & ->) | (_ & _ & _ & ->)]);
      destruct I as [I1 I2]; rewrite Hp2 in I2;
      unfold arena_inv, player_inv, committed in *;
      cbn [player_one player_two round next_round stats]; auto.
  - eapply arena_inv_reveal; eassumption.
Qed.

Lemma reachable_inv (arena : Arena) : reachable arena -> arena_inv arena.
Proof.
  induction 1 as [ctx arena events Hnew | arena op arena' events _ IH Hcall].
  - eapply arena_inv_new; eassumption.
  - eapply arena_inv_call; eassumption.
Qed.

Lemma exec_cases (arena : Arena) (op : Op) :
  (exists arena' events,
      call arena op = Ok (arena', events) /\
      exec arena op = (arena', Ok events)) \/
  (exists e, call arena op = Aborted e /\ exec arena op = (arena, Aborted e)).
Proof.
  unfold arena_pvp.exec. destruct (call arena op) as [[arena' events]|e].
  - left. now exists arena', events.
  - right. now exists e.
Qed.

Lemma reachable_exec (arena : Arena) (op : Op) :
  reachable arena -> reachable (fst (exec arena op)).
Proof.
  intros R. destruct (exec_cases arena op)
    as [(arena' & events & Hc & ->) | (e & _ & ->)]; cbn [fst].
  - eapply reachable_call; eassumption.
  - assumption.
Qed.

Lemma reachable_exec_all (ops : list Op) (arena : Arena) :
  reachable arena -> reachable (exec_all arena ops).
Proof.
  revert arena. induction ops as [|op ops IH]; intros arena R.
  - exact R.
  - apply (IH (fst (exec arena op))). now apply reachable_exec.
Qed.

(** *** Rejected calls *)

Lemma reveal_not_ready (arena : Arena) (_move : Z) (salt : list Z)
      (ctx : TxContext) :
  player_two arena = None ->
  reveal arena _move salt ctx = Aborted EArenaNotReady.
Proof. intros H. unfold arena_pvp.reveal. rewrite H. reflexivity. Qed.

Lemma reveal_over (arena : Arena) (_move : Z) (salt : list Z)
      (ctx : TxContext) (p2 : Player) (w : address) :
  player_two arena = Some p2 -> winner arena = Some w ->
  reveal arena _move salt ctx = Aborted EArenaOver.
Proof.
  intros H2 Hw. unfold arena_pvp.reveal. rewrite H2, Hw. reflexivity.
Qed.

Lemma commit_over (arena : Arena) (commitment : list Z) (ctx : TxContext)
      (w : address) :
  winner arena = Some w ->
  commit arena commitment ctx = Aborted EArenaOver.
Proof. intros Hw. unfold arena_pvp.commit. rewrite Hw. reflexivity. Qed.

(** The attacker's record is the sender's record. *)
Lemma player_of_side (arena : Arena) (who : address) (p : Player) :
  player_of arena who = Some p ->
  (is_player_one arena who = true /\ p = player_one arena) \/
  (is_player_one arena who = false /\ is_player_two arena who = true /\
   player_two arena = Some p).
Proof.
  unfold arena_pvp.player_of.
  destruct (is_player_one arena who) eqn:E1.
  - intros H. inversion H. now left.
  - destruct (is_player_two arena who) eqn:E2; [|discriminate].
    intros H. right. auto.
Qed.

Lemma reveal_checks (arena : Arena) (_move : Z) (salt : list Z)
      (ctx : TxContext) (p2 attacker : Player) (stored : list Z) :
  player_two arena = Some p2 -> winner arena = None ->
  player_of arena (sender ctx) = Some attacker ->
  next_attack attacker = Some stored ->
  (next_round attacker <> round arena ->
   reveal arena _move salt ctx = Aborted EMoveAlreadySubmitted) /\
  (next_round attacker = round arena ->
   blake2b256 (_move :: salt) <> stored ->
   reveal arena _move salt ctx = Aborted EInvalidCommitment).
Proof.
  intros H2 Hw Hp Hs.
  assert (Hhash : blake2b256 (_move :: salt) <> stored ->
                  bytes_eqb (blake2b256 (_move :: salt)) stored = false).
  { intros Hne. destruct (bytes_eqb _ stored) eqn:E; [|reflexivity].
    apply bytes_eqb_eq in E. contradiction. }
  apply player_of_side in Hp.
  unfold arena_pvp.reveal. rewrite H2, Hw.
  cbn [is_some is_none assert bind].
  destruct Hp as [(E1 & ->) | (E1 & E2 & E3)].
  - rewrite E1. cbn [bind option_borrow]. rewrite Hs.
    cbn [is_some assert bind option_borrow]. split.
    + intros Hne. apply Z.eqb_neq in Hne. rewrite Hne. reflexivity.
    + intros Heq Hne. apply Z.eqb_eq in Heq. rewrite Heq.
      cbn [assert bind]. rewrite (Hhash Hne). reflexivity.
  - rewrite E1, E2. cbn [bind option_borrow].
    rewrite H2 in E3. inversion E3; subst attacker. rewrite Hs.
    cbn [is_some assert bind option_borrow]. split.
    + intros Hne. apply Z.eqb_neq in Hne. rewrite Hne. reflexivity.
    + intros Heq Hne. apply Z.eqb_eq in Heq. rewrite Heq.
      cbn [assert bind]. rewrite (Hhash Hne). reflexivity.
Qed.

Lemma join_full (arena : Arena) (ctx : TxContext) (p2 : Player) :
  player_two arena = Some p2 ->
  exists e,
    join arena ctx = Aborted e /\
    (sender ctx = account (player_one arena) -> e = EYouCantTrickMe) /\
    (sender ctx <> account (player_one arena) ->
     (7 <= length (derive (seed arena) 1))%nat -> e = EOPTION_IS_SET).
Proof.
  intros H2. unfold arena_pvp.join.
  destruct (sender ctx =? account (player_one arena)) eqn:E1.
  - exists EYouCantTrickMe. apply Z.eqb_eq in E1.
    split; [reflexivity|]. split; [reflexivity | contradiction].
  - apply Z.eqb_neq in E1. cbn [negb assert bind].
    destruct (generate_stats (derive (seed arena) 1)) as [s|e] eqn:Eg.
    + exists EOPTION_IS_SET. rewrite H2. cbn [bind option_fill].
      split; [reflexivity|]. split; [contradiction | reflexivity].
    + exists e. cbn [bind]. split; [reflexivity|].
      split; [contradiction|]. intros _ Hlen.
      destruct (seed_split _ Hlen)
        as (b0 & b1 & b2 & b3 & b4 & b5 & b6 & rest & Hseed).
      rewrite Hseed, generate_stats_total in Eg. discriminate.
Qed.

Lemma commit_accepted (arena : Arena) (commitment : list Z) (ctx : TxContext)
      (p2 p : Player) :
  player_two arena = Some p2 -> winner arena = None ->
  player_of arena (sender ctx) = Some p ->
  next_attack p = None ->
  exists arena',
    commit arena commitment ctx = Ok (arena', [PlayerCommit (id arena)]) /\
    player_of arena' (sender ctx) = Some (committed p commitment) /\
    round arena' = round arena /\ winner arena' = None /\
    is_some (player_two arena') = true.
Proof.
  intros H2 Hw Hp Hn. apply player_of_side in Hp.
  unfold arena_pvp.commit. rewrite Hw, H2.
  cbn [is_some is_none assert bind].
  destruct Hp as [(E1 & ->) | (E1 & E2 & E3)].
  - unfold is_player_one in E1. rewrite E1, Hn.
    cbn [is_none assert bind]. eexists. split; [reflexivity|].
    unfold arena_pvp.player_of, is_player_one.
    cbn [player_one account round winner player_two is_some].
    rewrite E1. auto.
  - unfold is_player_one in E1. unfold is_player_two in E2.
    rewrite H2 in E2, E3. inversion E3; subst p2.
    rewrite E1. cbn [option_borrow bind]. rewrite E2, Hn.
    cbn [is_none assert bind]. eexists. split; [reflexivity|].
    unfold arena_pvp.player_of, is_player_one, is_player_two.
    cbn [player_one player_two account round winner is_some committed].
    rewrite E1, E2. auto.
Qed.

(** *** Round bookkeeping *)

Lemma sides_of_reveal (arena : Arena) (who : address) (side : Side)
      (p2 : Player) :
  player_two arena = Some p2 ->
  match side with
  | PlayerOne => is_player_one arena who = true
  | PlayerTwo => is_player_one arena who = false /\
                 is_player_two arena who = true
  end ->
  player_of arena who = Some (attacker_of side arena p2) /\
  opponent_of arena who = Some (defender_of side arena p2) /\
  who = account (attacker_of side arena p2).
Proof.
  intros H2 Hs. unfold arena_pvp.player_of, arena_pvp.opponent_of.
  destruct side; cbn [attacker_of defender_of].
  - rewrite Hs. unfold is_player_one in Hs. apply Z.eqb_eq in Hs. auto.
  - destruct Hs as [E1 E2]. rewrite E1, E2.
    unfold is_player_two in E2. rewrite H2 in E2. apply Z.eqb_eq in E2. auto.
Qed.

Lemma revealed_sides (arena : Arena) (who : address) (side : Side)
      (p2 : Player) (ds : stats.Stats) :
  player_two arena = Some p2 ->
  match side with
  | PlayerOne => is_player_one arena who = true
  | PlayerTwo => is_player_one arena who = false /\
                 is_player_two arena who = true
  end ->
  opponent_of (revealed arena side p2 ds) who
  = Some (mkPlayer (starting_hp (defender_of side arena p2)) ds
                   (account (defender_of side arena p2))
                   (next_attack (defender_of side arena p2))
                   (next_round (defender_of side arena p2))).
Proof.
  intros H2 Hs.
  unfold arena_pvp.opponent_of, is_player_one, is_player_two, revealed in *.
  destruct side; cbn [attacker_of defender_of player_one player_two account].
  - rewrite Hs. reflexivity.
  - destruct Hs as [E1 E2]. rewrite H2 in E2. rewrite E1, E2. reflexivity.
Qed.

(** The condition the code tests: a successful reveal advances [round] by
    exactly one if and only if, at the end of the reveal, the defender
    holds no pending commitment and the defender's [next_round] is the old
    round plus one; otherwise the round is unchanged, in particular
    whenever the defender has not yet revealed for the round. *)
Lemma reveal_round_step (arena : Arena) (_move : Z) (salt : list Z)
        (ctx : TxContext) (arena' : Arena) (events : list Event) :
  reveal arena _move salt ctx = Ok (arena', events) ->
  exists defender defender',
    opponent_of arena (sender ctx) = Some defender /\
    opponent_of arena' (sender ctx) = Some defender' /\
    (round arena' = round arena + 1 <->
     next_attack defender' = None /\
     next_round defender' = round arena + 1) /\
    (round arena' = round arena + 1 \/ round arena' = round arena) /\
    (next_round defender = round arena -> round arena' = round arena).
Proof.
  intros H. apply reveal_ok_inv in H.
  destruct H as (side & p2 & rng & ds & Hp2 & _ & Hs & _ & _ & _ & _ & _ & ->).
  destruct (sides_of_reveal arena (sender ctx) side p2 Hp2 Hs)
    as (_ & Hopp & _).
  pose proof (revealed_sides arena (sender ctx) side p2 ds Hp2 Hs) as Hopp'.
  exists (defender_of side arena p2). eexists.
  split; [exact Hopp|]. split; [exact Hopp'|].
  cbn [next_attack next_round].
  unfold revealed. cbn [round].
  set (defender := defender_of side arena p2).
  destruct (next_attack defender) as [c|] eqn:En; cbn [is_none andb].
  - repeat split; try lia; try (right; reflexivity);
      try (intros [Hc _]; discriminate).
  - destruct (next_round defender =? round arena + 1) eqn:Er.
    + apply Z.eqb_eq in Er. repeat split; lia.
    + apply Z.eqb_neq in Er.
      repeat split; try lia; try (intros [_ Hr]; lia).
Qed.

Lemma exec_aborted (arena : Arena) (op : Op) (e : abort_code) :
  call arena op = Aborted e -> exec arena op = (arena, Aborted e).
Proof. intros H. unfold arena_pvp.exec. now rewrite H. Qed.


(** C3 (as the code has it). A reveal whose move and salt do not hash to
    the sender's stored commitment is always rejected and leaves the arena
    as it was.  Which check rejects it is decided by the state alone, in
    the order of the code: [EArenaNotReady] (a PreconditionError) when the
    second player is absent; else [EArenaOver] (a PreconditionError) when a
    winner is set; else [EMoveAlreadySubmitted] (a SequencingError) when
    the sender's [next_round] is not the round; and [EInvalidCommitment]
    (an IntegrityError) in the one remaining case, where every check that
    precedes the hash comparison passes. *)
Theorem reveal_hash_mismatch_rejected
        (arena : Arena) (_move : Z) (salt : list Z) (ctx : TxContext)
        (attacker : Player) (stored : list Z) :
  player_of arena (sender ctx) = Some attacker ->
  next_attack attacker = Some stored ->
  blake2b256 (_move :: salt) <> stored ->
  (player_two arena = None ->
   reveal arena _move salt ctx = Aborted EArenaNotReady /\
   exec arena (Reveal _move salt ctx) = (arena, Aborted EArenaNotReady) /\
   error_class EArenaNotReady = PreconditionError) /\
  (is_some (player_two arena) = true ->
   winner arena <> None ->
   reveal arena _move salt ctx = Aborted EArenaOver /\
   exec arena (Reveal _move salt ctx) = (arena, Aborted EArenaOver) /\
   error_class EArenaOver = PreconditionError) /\
  (is_some (player_two arena) = true ->
   winner arena = None ->
   next_round attacker <> round arena ->
   reveal arena _move salt ctx = Aborted EMoveAlreadySubmitted /\
   exec arena (Reveal _move salt ctx)
   = (arena, Aborted EMoveAlreadySubmitted) /\
   error_class EMoveAlreadySubmitted = SequencingError) /\
  (is_some (player_two arena) = true ->
   winner arena = None ->
   next_round attacker = round arena ->
   reveal arena _move salt ctx = Aborted EInvalidCommitment /\
   exec arena (Reveal _move salt ctx) = (arena, Aborted EInvalidCommitment) /\
   error_class EInvalidCommitment = IntegrityError).
Proof.
  intros Hp Hs Hne.
  split; [|split; [|split]].
  - intros E2.
    pose proof (reveal_not_ready arena _move salt ctx E2) as H.
    split; [exact H|]. split; [now apply exec_aborted | reflexivity].
  - intros H2 Hw.
    destruct (player_two arena) as [p2|] eqn:E2; [|discriminate].
    destruct (winner arena) as [w|] eqn:Ew; [|congruence].
    pose proof (reveal_over arena _move salt ctx p2 w E2 Ew) as H.
    split; [exact H|]. split; [now apply exec_aborted | reflexivity].
  - intros H2 Hw Hr.
    destruct (player_two arena) as [p2|] eqn:E2; [|discriminate].
    destruct (reveal_checks arena _move salt ctx p2 attacker stored
                            E2 Hw Hp Hs) as [Hround _].
    specialize (Hround Hr).
    split; [exact Hround|]. split; [now apply exec_aborted | reflexivity].
  - intros H2 Hw Hr.
    destruct (player_two arena) as [p2|] eqn:E2; [|discriminate].
    destruct (reveal_checks arena _move salt ctx p2 attacker stored
                            E2 Hw Hp Hs) as [_ Hhash].
    specialize (Hhash Hr Hne).
    split; [exact Hhash|]. split; [now apply exec_aborted | reflexivity].
Qed.

(** C2 (as the code has it). Once the second player is set, the [join]
    entry function aborts for every caller and leaves the arena as it was:
    with [EYouCantTrickMe] for the first player, and with the abort of
    [option::fill] for everyone else, the stored second player included.
    The rejoin is a matter of the client: its [joinArena] reads the arena
    first, sends no join transaction when its own address is the stored
    second player, and throws "Arena is full" for any other address. *)
Theorem join_when_second_player_set
        (arena : Arena) (ctx : TxContext) (p2 : Player) :
  player_two arena = Some p2 ->
  (exists e,
      join arena ctx = Aborted e /\
      exec arena (Join ctx) = (arena, Aborted e) /\
      (sender ctx = account (player_one arena) -> e = EYouCantTrickMe) /\
      (sender ctx <> account (player_one arena) ->
       (7 <= length (derive (seed arena) 1))%nat -> e = EOPTION_IS_SET)) /\
  (sender ctx = account p2 ->
   pvp_cli.joinArena blake2b256 arena ctx = (arena, pvp_cli.Rejoined)) /\
  (sender ctx <> account p2 ->
   pvp_cli.joinArena blake2b256 arena ctx = (arena, pvp_cli.ArenaIsFull)).
Proof.
  intros H2. split; [|split].
  - destruct (join_full arena ctx p2 H2) as (e & Hj & H1 & Hn).
    exists e. split; [exact Hj|].
    split; [apply exec_aborted; exact Hj|]. now split.
  - intros Hs. unfold pvp_cli.joinArena. rewrite H2, Hs, Z.eqb_refl.
    reflexivity.
  - intros Hs. unfold pvp_cli.joinArena. rewrite H2.
    assert (E : (account p2 =? sender ctx) = false)
      by (apply Z.eqb_neq; congruence).
    rewrite E. reflexivity.
Qed.

(** *** The winner *)

Lemma exec_after_winner (arena : Arena) (w : address) (op : Op) :
  arena_inv arena -> winner arena = Some w ->
  exists e, exec arena op = (arena, Aborted e).
Proof.
  intros [_ I2] Hw.
  destruct (player_two arena) as [p2|] eqn:E2;
    [|destruct I2 as [_ Hnone]; congruence].
  destruct op as [ctx | commitment ctx | _move salt ctx].
  - destruct (join_full arena ctx p2 E2) as (e & Hj & _).
    exists e. now apply exec_aborted.
  - exists EArenaOver. apply exec_aborted. cbn [arena_pvp.call].
    eapply commit_over; eassumption.
  - exists EArenaOver. apply exec_aborted. cbn [arena_pvp.call].
    eapply reveal_over; eassumption.
Qed.

(** C4. In a reachable arena whose winner is set, every further
    transaction leaves the whole arena, and so the winner, as it is; every
    commit and every reveal aborts with [EArenaOver], a PreconditionError.
    The winner was set by the call that produced the arena from a state
    without winner: a reveal, sent by the winner, after which the
    defender's hp is 0. *)
Theorem winner_is_final (arena : Arena) (w : address) :
  reachable arena -> winner arena = Some w ->
  (forall ops, exec_all arena ops = arena) /\
  (forall commitment ctx,
      commit arena commitment ctx = Aborted EArenaOver /\
      exec arena (Commit commitment ctx) = (arena, Aborted EArenaOver)) /\
  (forall _move salt ctx,
      reveal arena _move salt ctx = Aborted EArenaOver /\
      exec arena (Reveal _move salt ctx) = (arena, Aborted EArenaOver)) /\
  error_class EArenaOver = PreconditionError /\
  (forall before op events,
      winner before = None ->
      call before op = Ok (arena, events) ->
      exists _move salt ctx defender,
        op = Reveal _move salt ctx /\
        w = sender ctx /\
        opponent_of arena (sender ctx) = Some defender /\
        stats.hp (stats defender) = 0).
Proof.
  intros R Hw. pose proof (reachable_inv arena R) as I.
  assert (H2 : exists p2, player_two arena = Some p2).
  { destruct I as [_ I2]. destruct (player_two arena) as [p2|].
    - now exists p2.
    - destruct I2 as [_ Hnone]. congruence. }
  destruct H2 as (p2 & H2).
  split; [|split; [|split; [|split]]].
  - intros ops. induction ops as [|op ops IH]; [reflexivity|].
    unfold arena_pvp.exec_all. cbn [fold_left].
    destruct (exec_after_winner arena w op I Hw) as (e & ->).
    exact IH.
  - intros commitment ctx.
    pose proof (commit_over arena commitment ctx w Hw) as H.
    split; [exact H | now apply exec_aborted].
  - intros _move salt ctx.
    pose proof (reveal_over arena _move salt ctx p2 w H2 Hw) as H.
    split; [exact H | now apply exec_aborted].
  - reflexivity.
  - intros before op events Hnone Hcall.
    destruct op as [ctx | commitment ctx | _move salt ctx];
      cbn [arena_pvp.call] in Hcall.
    + apply join_ok_inv in Hcall. destruct Hcall as (_ & _ & s & _ & Ha).
      rewrite Ha in Hw. cbn [winner] in Hw. congruence.
    + apply commit_ok_inv in Hcall.
      destruct Hcall as (_ & q & _ & [(_ & _ & Ha) | (_ & _ & _ & Ha)]);
        rewrite Ha in Hw; cbn [winner] in Hw; congruence.
    + apply reveal_ok_inv in Hcall.
      destruct Hcall
        as (side & q & rng & ds & Hq & _ & Hs & _ & _ & _ & _ & _ & Ha).
      destruct (sides_of_reveal before (sender ctx) side q Hq Hs)
        as (_ & _ & Hacc).
      pose proof (revealed_sides before (sender ctx) side q ds Hq Hs) as Ho.
      rewrite <- Ha in Ho.
      rewrite Ha in Hw. unfold revealed in Hw. cbn [winner] in Hw.
      destruct (stats.hp ds =? 0) eqn:E0; [|congruence].
      apply Z.eqb_eq in E0.
      exists _move, salt, ctx. eexists.
      split; [reflexivity|]. split; [congruence|].
      split; [exact Ho|]. exact E0.
Qed.

(** *** Hit points *)

Lemma exec_hp_step (arena : Arena) (op : Op) :
  arena_inv arena ->
  stats.hp (stats (player_one (fst (exec arena op))))
  <= stats.hp (stats (player_one arena)) /\
  (forall p2, player_two arena = Some p2 ->
     exists p2', player_two (fst (exec arena op)) = Some p2' /\
                 stats.hp (stats p2') <= stats.hp (stats p2)).
Proof.
  intros I.
  destruct (exec_cases arena op)
    as [(arena' & events & Hc & ->) | (e & _ & ->)]; cbn [fst].
  2: { split; [lia|]. intros p2 H2. exists p2. split; [assumption | lia]. }
  destruct op as [ctx | commitment ctx | _move salt ctx];
    cbn [arena_pvp.call] in Hc.
  - apply join_ok_inv in Hc. destruct Hc as (_ & H2 & s & _ & ->).
    cbn [player_one player_two]. split; [lia|].
    intros p2 Hp2. congruence.
  - apply commit_ok_inv in Hc.
    destruct Hc as (_ & q & Hq & [(_ & _ & ->) | (_ & _ & _ & ->)]);
      cbn [player_one player_two committed stats]; (split; [lia|]);
      intros p2 Hp2; rewrite Hq in Hp2; inversion Hp2; subst q;
      eexists; (split; [reflexivity|]); cbn [stats committed]; lia.
  - apply reveal_ok_inv in Hc.
    destruct Hc as (side & q & rng & ds & Hq & _ & _ & _ & _ & _ & Hatk & _ & ->).
    destruct I as [[_ H1] I2]. rewrite Hq in I2. destruct I2 as [_ Hh2].
    unfold revealed.
    destruct side; cbn [attacker_of defender_of] in *;
      cbn [player_one player_two stats];
      apply attack_hp in Hatk; try assumption;
      (split; [lia|]); intros p2 Hp2; rewrite Hq in Hp2;
      inversion Hp2; subst q; eexists; (split; [reflexivity|]);
      cbn [stats]; lia.
Qed.

(** C8. From a reachable arena, along every sequence of transactions, each
    player's hp never increases and is never negative; [decrease_hp] sets
    the hp to exactly 0 when the damage exceeds what is left and subtracts
    the damage otherwise. *)
Theorem hp_never_increases (arena : Arena) (ops : list Op) :
  reachable arena ->
  (0 <= stats.hp (stats (player_one (exec_all arena ops)))
   <= stats.hp (stats (player_one arena))) /\
  (forall p2, player_two arena = Some p2 ->
     exists p2', player_two (exec_all arena ops) = Some p2' /\
                 0 <= stats.hp (stats p2') <= stats.hp (stats p2)) /\
  (forall p2', player_two (exec_all arena ops) = Some p2' ->
               0 <= stats.hp (stats p2')) /\
  (forall stat value,
      stats.hp stat < value ->
      stats.hp (stats.decrease_hp stat value) = 0) /\
  (forall stat value,
      value <= stats.hp stat ->
      stats.hp (stats.decrease_hp stat value) = stats.hp stat - value).
Proof.
  intros R.
  assert (Hmono :
            stats.hp (stats (player_one (exec_all arena ops)))
            <= stats.hp (stats (player_one arena)) /\
            (forall p2, player_two arena = Some p2 ->
               exists p2', player_two (exec_all arena ops) = Some p2' /\
                           stats.hp (stats p2') <= stats.hp (stats p2))).
  { revert arena R. induction ops as [|op ops IH]; intros arena R.
    - split; [cbn; lia|]. intros p2 H2. exists p2. split; [exact H2 | lia].
    - pose proof (exec_hp_step arena op (reachable_inv arena R)) as [S1 S2].
      destruct (IH (fst (exec arena op)) (reachable_exec arena op R))
        as [T1 T2].
      unfold arena_pvp.exec_all in *. cbn [fold_left].
      split; [lia|]. intros p2 H2.
      destruct (S2 p2 H2) as (q & Hq & Hle).
      destruct (T2 q Hq) as (q' & Hq' & Hle').
      exists q'. split; [exact Hq' | lia]. }
  destruct Hmono as [M1 M2].
  pose proof (reachable_inv _ (reachable_exec_all ops arena R)) as [[_ N1] N2].
  split; [lia|]. split; [|split; [|split]].
  - intros p2 H2. destruct (M2 p2 H2) as (q & Hq & Hle).
    exists q. split; [exact Hq|]. rewrite Hq in N2. destruct N2 as [_ N2]. lia.
  - intros q Hq. rewrite Hq in N2. apply N2.
  - intros stat value Hlt. unfold stats.decrease_hp.
    apply Z.ltb_lt in Hlt. rewrite Hlt. reflexivity.
  - intros stat value Hle. unfold stats.decrease_hp.
    apply Z.ltb_ge in Hle. rewrite Hle. reflexivity.
Qed.

(** *** The random byte of a reveal *)

Lemma aborts_only_Ok {A : Type} (P : abort_code -> Prop) (a : A) :
  aborts_only P (Ok a).
Proof. intros e H. discriminate. Qed.

Lemma aborts_only_Aborted {A : Type} (P : abort_code -> Prop)
      (code : abort_code) :
  P code -> aborts_only P (@Aborted A code).
Proof. intros Hp e H. inversion H. now subst. Qed.

Lemma aborts_only_bind {A B : Type} (P : abort_code -> Prop)
      (m : M A) (k : A -> M B) :
  aborts_only P m ->
  (forall a, m = Ok a -> aborts_only P (k a)) ->
  aborts_only P (bind m k).
Proof.
  intros Hm Hk e H. destruct m as [a|e0]; simpl in H.
  - exact (Hk a eq_refl e H).
  - apply Hm. inversion H. reflexivity.
Qed.

Lemma aborts_only_assert (P : abort_code -> Prop) (cond : bool)
      (code : abort_code) :
  P code -> aborts_only P (assert cond code).
Proof.
  intros Hp. destruct cond;
    [apply aborts_only_Ok | now apply aborts_only_Aborted].
Qed.

Lemma aborts_only_borrow {A : Type} (P : abort_code -> Prop)
      (v : list A) (i : Z) :
  P EINDEX_OUT_OF_BOUNDS -> aborts_only P (borrow v i).
Proof.
  intros Hp. unfold borrow. destruct (i <? 0);
    [now apply aborts_only_Aborted|].
  destruct (nth_error v (Z.to_nat i));
    [apply aborts_only_Ok | now apply aborts_only_Aborted].
Qed.

Lemma aborts_only_option_borrow {A : Type} (P : abort_code -> Prop)
      (t : option A) :
  P EOPTION_NOT_SET -> aborts_only P (option_borrow t).
Proof.
  intros Hp. destruct t;
    [apply aborts_only_Ok | now apply aborts_only_Aborted].
Qed.

Lemma aborts_only_checked (P : abort_code -> Prop) (max z : Z) :
  P ARITHMETIC_ERROR -> aborts_only P (checked max z).
Proof.
  intros Hp. unfold checked. destruct ((0 <=? z) && (z <=? max));
    [apply aborts_only_Ok | now apply aborts_only_Aborted].
Qed.

Lemma aborts_only_div (P : abort_code -> Prop) (max a b : Z) :
  P ARITHMETIC_ERROR ->
  aborts_only P (if b =? 0 then Aborted ARITHMETIC_ERROR
                 else checked max a).
Proof.
  intros Hp. destruct (b =? 0);
    [now apply aborts_only_Aborted | now apply aborts_only_checked].
Qed.

Lemma aborts_only_lift2 (P : abort_code -> Prop)
      (op : Z -> Z -> M Z) (a b : M Z) :
  (forall x y, aborts_only P (op x y)) ->
  aborts_only P a -> aborts_only P b -> aborts_only P (lift2 op a b).
Proof.
  intros Hop Ha Hb. unfold lift2.
  apply aborts_only_bind; [exact Ha|]. intros x _.
  apply aborts_only_bind; [exact Hb|]. intros y _. apply Hop.
Qed.

(** Arithmetic expressions raise nothing but the arithmetic abort. *)
Ltac arith_aborts :=
  repeat first
    [ apply aborts_only_Ok
    | now apply aborts_only_checked
    | now apply aborts_only_div
    | apply aborts_only_lift2; [intros ? ? | | ] ].

Lemma damage_aborts (P : abort_code -> Prop)
      (level attack defence move_power random scaling : Z) :
  P ARITHMETIC_ERROR ->
  aborts_only P (pokemon_v1.damage level attack defence move_power
                                   random scaling).
Proof.
  intros Hp. unfold pokemon_v1.damage.
  repeat (apply aborts_only_bind; [arith_aborts | intros ? _]).
  arith_aborts.
Qed.

Lemma attack_aborts (attacker defender : stats.Stats) (_move rng : Z)
      (debug : bool) :
  217 <= rng <= 255 ->
  aborts_only (fun e => e <> EIncorrectRandomValue)
              (battle.attack attacker defender _move rng debug).
Proof.
  intros Hr. unfold battle.attack.
  apply aborts_only_bind; [apply aborts_only_assert; discriminate|].
  intros _ _.
  apply aborts_only_bind; [apply aborts_only_borrow; discriminate|].
  intros attacker_type _.
  apply aborts_only_bind; [apply aborts_only_borrow; discriminate|].
  intros defender_type _.
  apply aborts_only_bind; [apply aborts_only_borrow; discriminate|].
  intros move_power _.
  apply aborts_only_bind.
  { unfold pokemon_v1.physical_damage.
    assert (Hc : ((217 <=? rng) && (rng <=? 255)) = true).
    { apply andb_true_iff. split; apply Z.leb_le; lia. }
    rewrite Hc. cbn [assert bind].
    apply aborts_only_bind; [apply aborts_only_assert; discriminate|].
    intros _ _. apply damage_aborts. discriminate. }
  intros raw _.
  apply aborts_only_bind; [apply aborts_only_borrow; discriminate|].
  intros row _.
  apply aborts_only_bind; [apply aborts_only_borrow; discriminate|].
  intros effectiveness _.
  apply aborts_only_bind.
  { destruct debug; [|apply aborts_only_Ok].
    apply aborts_only_bind; [|intros ? _]; arith_aborts; discriminate. }
  intros _ _.
  apply aborts_only_bind; [arith_aborts; discriminate|].
  intros scaled _.
  apply aborts_only_bind.
  { destruct (_move =? attacker_type); arith_aborts; discriminate. }
  intros final _. apply aborts_only_Ok.
Qed.

Lemma hit_rng_aborts (seed : list Z) (path round : Z) :
  aborts_only (fun e => e <> EIncorrectRandomValue) (hit_rng seed path round).
Proof.
  unfold arena_pvp.hit_rng.
  apply aborts_only_bind; [apply aborts_only_borrow; discriminate|].
  intros value _. arith_aborts.
Qed.

Lemma reveal_aborts (arena : Arena) (_move : Z) (salt : list Z)
      (ctx : TxContext) :
  aborts_only (fun e => e <> EIncorrectRandomValue)
              (reveal arena _move salt ctx).
Proof.
  unfold arena_pvp.reveal.
  apply aborts_only_bind; [apply aborts_only_assert; discriminate|].
  intros _ _.
  apply aborts_only_bind; [apply aborts_only_assert; discriminate|].
  intros _ _.
  apply aborts_only_bind.
  { destruct (is_player_one arena (sender ctx)); [apply aborts_only_Ok|].
    destruct (is_player_two arena (sender ctx)); [apply aborts_only_Ok|].
    apply aborts_only_Aborted. discriminate. }
  intros side _.
  apply aborts_only_bind; [apply aborts_only_option_borrow; discriminate|].
  intros p2 _.
  assert (Hpair :
            match side with
            | PlayerOne => (player_one arena, p2)
            | PlayerTwo => (p2, player_one arena)
            end = (attacker_of side arena p2, defender_of side arena p2))
    by (destruct side; reflexivity).
  rewrite Hpair. clear Hpair.
  apply aborts_only_bind; [apply aborts_only_assert; discriminate|].
  intros _ _.
  apply aborts_only_bind; [apply aborts_only_assert; discriminate|].
  intros _ _.
  apply aborts_only_bind; [apply aborts_only_option_borrow; discriminate|].
  intros stored _.
  apply aborts_only_bind; [apply aborts_only_assert; discriminate|].
  intros _ _.
  apply aborts_only_bind; [apply hit_rng_aborts|].
  intros rng Hrng.
  apply hit_rng_ok_inv in Hrng. destruct Hrng as (value & _ & _ & _ & Hr).
  apply aborts_only_bind; [apply attack_aborts; lia|].
  intros defender_stats _.
  apply aborts_only_bind; [arith_aborts|].
  intros attacker_round _.
  apply aborts_only_bind.
  { match goal with
    | |- context [if ?c then _ else _] => destruct c
    end; [|apply aborts_only_Ok].
    apply aborts_only_bind; [arith_aborts|]. intros ? _.
    apply aborts_only_Ok. }
  intros cond _.
  apply aborts_only_bind; [destruct cond; arith_aborts|].
  intros round' _.
  destruct side; apply aborts_only_Ok.
Qed.

(** C7. In every successful reveal the random byte handed to the damage
    engine is [derive(digest, 2)[round] mod 38 + 217], where [digest] is
    the hash of the move byte followed by the salt; it lies in [217,255],
    so the precondition check of [physical_damage] passes; and no reveal,
    successful or not, aborts with [EIncorrectRandomValue]. *)
Theorem reveal_random_byte_in_range
        (arena : Arena) (_move : Z) (salt : list Z) (ctx : TxContext) :
  (forall arena' events,
      reveal arena _move salt ctx = Ok (arena', events) ->
      exists side p2 value rng defender_stats,
        player_two arena = Some p2 /\
        nth_error (derive (blake2b256 (_move :: salt)) 2)
                  (Z.to_nat (round arena)) = Some value /\
        rng = value mod 38 + 217 /\
        217 <= rng <= 255 /\
        assert ((217 <=? rng) && (rng <=? 255)) EIncorrectRandomValue
        = Ok tt /\
        battle.attack (stats (attacker_of side arena p2))
                      (stats (defender_of side arena p2)) _move rng false
        = Ok defender_stats /\
        arena' = revealed arena side p2 defender_stats) /\
  reveal arena _move salt ctx <> Aborted EIncorrectRandomValue.
Proof.
  split.
  - intros arena' events H. apply reveal_ok_inv in H.
    destruct H as (side & p2 & rng & ds & Hp2 & _ & _ & _ & _ & Hrng
                   & Hatk & _ & Ha).
    apply hit_rng_ok_inv in Hrng.
    destruct Hrng as (value & _ & Hv & Heq & Hr).
    exists side, p2, value, rng, ds.
    repeat split; try assumption; try lia.
    assert (Hc : ((217 <=? rng) && (rng <=? 255)) = true).
    { apply andb_true_iff. split; apply Z.leb_le; lia. }
    rewrite Hc. reflexivity.
  - intros H. apply reveal_aborts in H. now apply H.
Qed.

End ArenaProperties.

(** * The sample battle *)

Lemma sample_arena_new :
  arena_pvp.new sample_hash sample_derive_id (ctx_of ALICE)
  = Ok (sample_arena, [arena_pvp.ArenaCreated 4097]).
Proof. reflexivity. Qed.

Lemma play_reachable (ops : list arena_pvp.Op) :
  arena_pvp.reachable sample_hash sample_derive_id (play ops).
Proof.
  apply reachable_exec_all.
  exact (arena_pvp.reachable_new _ _ _ _ _ sample_arena_new).
Qed.

(** The end-to-end scenario: both commit with salt [1,2,3,4], both reveal;
    the round becomes 1 only with the second reveal. *)
Example sample_rounds :
  arena_pvp.round both_committed = 0 /\
  arena_pvp.round bob_revealed = 0 /\
  arena_pvp.round (play (join_bob :: full_round 0 2)) = 1.
Proof. repeat split; vm_compute; reflexivity. Qed.

(** The first hit of the sample battle against the documented formula. *)
Example sample_first_hit :
  stats.hp (arena_pvp.stats (arena_pvp.player_one bob_revealed))
  = stats.hp (arena_pvp.stats (arena_pvp.player_one both_committed))
    - documented_damage 10 36 39 0 2 2 224.
Proof. vm_compute. reflexivity. Qed.


(** C3, counterexample: ALICE holds a commitment for the next round; a
    reveal that does not hash to it is rejected for its round, a
    SequencingError, before any hash is compared. *)
Lemma reveal_hash_mismatch_counterexample :
  arena_pvp.reachable sample_hash sample_derive_id alice_recommitted /\
  exists attacker,
    arena_pvp.player_of alice_recommitted (arena_pvp.sender (ctx_of ALICE))
    = Some attacker /\
    arena_pvp.next_attack attacker = Some (hashed_move 1) /\
    sample_hash (2 :: SALT) <> hashed_move 1 /\
    arena_pvp.reveal sample_hash alice_recommitted 2 SALT (ctx_of ALICE)
    = Aborted EMoveAlreadySubmitted /\
    error_class EMoveAlreadySubmitted <> IntegrityError.
Proof.
  split; [apply play_reachable|].
  exists (arena_pvp.player_one alice_recommitted).
  repeat split; try (vm_compute; reflexivity).
  - vm_compute. discriminate.
  - discriminate.
Qed.

Lemma reveal_hash_mismatch_rejected_witness :
  arena_pvp.reveal sample_hash both_committed 1 SALT (ctx_of BOB)
  = Aborted EInvalidCommitment /\
  arena_pvp.exec sample_hash both_committed
                 (arena_pvp.Reveal 1 SALT (ctx_of BOB))
  = (both_committed, Aborted EInvalidCommitment) /\
  arena_pvp.reveal sample_hash alice_recommitted 2 SALT (ctx_of ALICE)
  = Aborted EMoveAlreadySubmitted /\
  arena_pvp.reveal sample_hash finished 1 SALT (ctx_of ALICE)
  = Aborted EArenaOver /\
  arena_pvp.reveal sample_hash unjoined_committed 2 SALT (ctx_of ALICE)
  = Aborted EArenaNotReady.
Proof.
  assert (Hb : arena_pvp.player_of both_committed
                 (arena_pvp.sender (ctx_of BOB))
               = Some (committed (arena_pvp.mkPlayer 4200000000
                             (stats.mkStats 4200000000 36 40 44 48 27 10 [0])
                             BOB None 0) (hashed_move 2)))
    by (vm_compute; reflexivity).
  assert (Hbne : sample_hash (1 :: SALT) <> hashed_move 2)
    by (vm_compute; discriminate).
  assert (Hb2 : is_some (arena_pvp.player_two both_committed) = true)
    by (vm_compute; reflexivity).
  assert (Hbw : arena_pvp.winner both_committed = None)
    by (vm_compute; reflexivity).
  destruct (reveal_hash_mismatch_rejected sample_hash both_committed 1 SALT
              (ctx_of BOB) _ (hashed_move 2) Hb eq_refl Hbne)
    as (_ & _ & _ & Hhash).
  destruct (Hhash Hb2 Hbw ltac:(vm_compute; reflexivity))
    as (Hrev & Hexec & _).
  split; [exact Hrev|]. split; [exact Hexec|].
  assert (Ha : exists p,
             arena_pvp.player_of alice_recommitted
                                 (arena_pvp.sender (ctx_of ALICE)) = Some p /\
             arena_pvp.next_attack p = Some (hashed_move 1) /\
             arena_pvp.next_round p <> arena_pvp.round alice_recommitted)
    by (vm_compute; eexists; repeat split; try reflexivity; discriminate).
  destruct Ha as (pa & Hpa & Hna & Hnr).
  assert (Hane : sample_hash (2 :: SALT) <> hashed_move 1)
    by (vm_compute; discriminate).
  destruct (reveal_hash_mismatch_rejected sample_hash alice_recommitted 2
              SALT (ctx_of ALICE) pa (hashed_move 1) Hpa Hna Hane)
    as (_ & _ & Hround & _).
  split.
  { apply Hround; [vm_compute; reflexivity | vm_compute; reflexivity
                   | exact Hnr]. }
  assert (Hf : exists p,
             arena_pvp.player_of finished
                                 (arena_pvp.sender (ctx_of ALICE)) = Some p /\
             arena_pvp.next_attack p = Some (hashed_move 0))
    by (vm_compute; eexists; split; reflexivity).
  destruct Hf as (pf & Hpf & Hnf).
  assert (Hfne : sample_hash (1 :: SALT) <> hashed_move 0)
    by (vm_compute; discriminate).
  destruct (reveal_hash_mismatch_rejected sample_hash finished 1
              SALT (ctx_of ALICE) pf (hashed_move 0) Hpf Hnf Hfne)
    as (_ & Hover & _).
  split.
  { apply Hover; [vm_compute; reflexivity|].
    intros Hw. vm_compute in Hw. discriminate Hw. }
  assert (Hu : arena_pvp.player_of unjoined_committed
                 (arena_pvp.sender (ctx_of ALICE))
               = Some (arena_pvp.player_one unjoined_committed))
    by (vm_compute; reflexivity).
  destruct (reveal_hash_mismatch_rejected sample_hash unjoined_committed 2
              SALT (ctx_of ALICE) _ (hashed_move 1) Hu eq_refl Hane)
    as (Hnone & _).
  apply Hnone. reflexivity.
Defined.

(** C2, counterexample: BOB is the stored second player and calls [join]
    again; the call aborts instead of succeeding as a no-op. *)
Lemma rejoin_counterexample :
  exists p2,
    arena_pvp.player_two joined = Some p2 /\
    arena_pvp.account p2 = BOB /\
    arena_pvp.join sample_hash joined (ctx_of BOB) = Aborted EOPTION_IS_SET /\
    error_class EOPTION_IS_SET <> PreconditionError.
Proof.
  eexists. split; [vm_compute; reflexivity|].
  split; [reflexivity|]. split; [vm_compute; reflexivity | discriminate].
Qed.

Lemma join_when_second_player_set_witness :
  (exists e,
      arena_pvp.join sample_hash joined (ctx_of BOB) = Aborted e /\
      arena_pvp.exec sample_hash joined (arena_pvp.Join (ctx_of BOB))
      = (joined, Aborted e) /\
      (BOB = ALICE -> e = EYouCantTrickMe) /\
      (BOB <> ALICE ->
       (7 <= length (arena_pvp.derive sample_hash
                                      (arena_pvp.seed joined) 1))%nat ->
       e = EOPTION_IS_SET)) /\
  (BOB = BOB ->
   pvp_cli.joinArena sample_hash joined (ctx_of BOB)
   = (joined, pvp_cli.Rejoined)) /\
  (BOB <> BOB ->
   pvp_cli.joinArena sample_hash joined (ctx_of BOB)
   = (joined, pvp_cli.ArenaIsFull)).
Proof.
  apply (join_when_second_player_set sample_hash joined (ctx_of BOB)
           (arena_pvp.mkPlayer 4200000000
              (stats.mkStats 4200000000 36 40 44 48 27 10 [0]) BOB None 0)).
  vm_compute. reflexivity.
Defined.

Lemma winner_is_final_witness :
  arena_pvp.reachable sample_hash sample_derive_id finished /\
  arena_pvp.winner finished = Some BOB /\
  (forall ops, arena_pvp.exec_all sample_hash finished ops = finished) /\
  (forall commitment ctx,
      arena_pvp.commit finished commitment ctx = Aborted EArenaOver) /\
  (forall _move salt ctx,
      arena_pvp.reveal sample_hash finished _move salt ctx
      = Aborted EArenaOver).
Proof.
  assert (W : arena_pvp.winner finished = Some BOB)
    by (vm_compute; reflexivity).
  split; [apply play_reachable|]. split; [exact W|].
  destruct (winner_is_final sample_hash sample_derive_id finished BOB
              (play_reachable _) W) as (Hops & Hc & Hr & _).
  split; [exact Hops|]. split.
  - intros commitment ctx. apply Hc.
  - intros _move salt ctx. apply Hr.
Defined.

Lemma hp_never_increases_witness :
  0 <= stats.hp (arena_pvp.stats (arena_pvp.player_one finished))
  <= stats.hp (arena_pvp.stats (arena_pvp.player_one joined)) /\
  stats.hp (arena_pvp.stats (arena_pvp.player_one finished)) = 0.
Proof.
  split; [|vm_compute; reflexivity].
  pose proof (hp_never_increases sample_hash sample_derive_id joined
                (full_round 0 0 ++ full_round 0 0
                   ++ [commit_by ALICE 0; commit_by BOB 0; reveal_by BOB 0])
                (play_reachable _)) as (H & _).
  vm_compute in H. vm_compute. exact H.
Defined.

Lemma attack_subtracts_documented_damage_witness :
  exists defender',
    battle.attack (stats.mkStats 4200000000 36 40 44 48 27 10 [0])
                  (stats.mkStats 4100000000 35 39 43 47 26 10 [2])
                  2 224 false = Ok defender' /\
    stats.hp defender'
    = Z.max 0 (4100000000 - documented_damage 10 36 39 0 2 2 224).
Proof.
  destruct (attack_subtracts_documented_damage
              (stats.mkStats 4200000000 36 40 44 48 27 10 [0])
              (stats.mkStats 4100000000 35 39 43 47 26 10 [2])
              2 224 false) as [Hformula Hreturns].
  destruct (Hreturns 0 2 eq_refl eq_refl) as (defender' & Hok);
    [lia | lia | lia | cbn [stats.level]; lia | cbn [stats.attack]; lia
     | cbn [stats.defence]; lia |].
  exists defender'. split; [exact Hok|].
  destruct (Hformula defender' Hok)
    as (ta & td & Hta & Htd & _ & _ & _ & Hhp).
  cbn [stats.types nth_error] in Hta, Htd.
  apply (f_equal (fun o => match o with Some t => t | None => 0 end))
    in Hta, Htd.
  cbn beta iota in Hta, Htd. subst ta td.
  exact Hhp.
Defined.

Lemma reveal_random_byte_in_range_witness :
  exists value rng,
    nth_error (arena_pvp.derive sample_hash (hashed_move 2) 2) 0
    = Some value /\
    rng = value mod 38 + 217 /\ 217 <= rng <= 255.
Proof.
  destruct (reveal_random_byte_in_range sample_hash both_committed 2 SALT
              (ctx_of BOB)) as [Hok _].
  destruct (Hok bob_revealed
                [arena_pvp.PlayerReveal 4097 2;
                 arena_pvp.RoundResult 4097 4200000000 3145888392])
    as (side & p2 & value & rng & ds & _ & Hv & Hrng & Hrange & _);
    [vm_compute; reflexivity|].
  exists value, rng. split; [exact Hv|]. split; [exact Hrng | exact Hrange].
Defined.

(** * A round that never advances *)

Section StalledRound.

Variable blake2b256 : list Z -> list Z.

Import arena_pvp.

(** When the defender of the second reveal of a round already holds a
    commitment for the next round, the round counter is not advanced; both
    players then have [next_round] one ahead of the round, no reveal is
    accepted any more, and the round keeps its value forever. *)
Lemma stalled_exec (arena : Arena) (r : Z) (op : Op) :
  stalled arena r -> stalled (fst (arena_pvp.exec blake2b256 arena op)) r.
Proof.
  intros (Hr & H1 & p2 & H2 & Hn2).
  destruct (exec_cases blake2b256 arena op)
    as [(arena' & events & Hc & ->) | (e & _ & ->)]; cbn [fst];
    [|split; [exact Hr|]; split; [exact H1|]; exists p2; split; assumption].
  destruct op as [ctx | commitment ctx | _move salt ctx];
    cbn [arena_pvp.call] in Hc.
  - apply join_ok_inv in Hc. destruct Hc as (_ & Hnone & _). congruence.
  - apply commit_ok_inv in Hc.
    destruct Hc as (_ & q & Hq & [(_ & _ & ->) | (_ & _ & _ & ->)]);
      rewrite H2 in Hq; inversion Hq; subst q;
      (split; [exact Hr|]); (split; [exact H1|]);
      eexists; (split; [reflexivity | exact Hn2]).
  - apply reveal_ok_inv in Hc.
    destruct Hc as (side & q & rng & ds & Hq & _ & _ & _ & Hnr & _).
    rewrite H2 in Hq. inversion Hq; subst q.
    destruct side; cbn [attacker_of] in Hnr; lia.
Qed.

Lemma stalled_forever (ops : list Op) (arena : Arena) (r : Z) :
  stalled arena r ->
  stalled (arena_pvp.exec_all blake2b256 arena ops) r.
Proof.
  revert arena. induction ops as [|op ops IH]; intros arena S; [exact S|].
  apply (IH (fst (arena_pvp.exec blake2b256 arena op))).
  now apply stalled_exec.
Qed.

Lemma stalled_exec_winner (arena : Arena) (r : Z) (op : Op) :
  stalled arena r ->
  winner (fst (arena_pvp.exec blake2b256 arena op)) = winner arena.
Proof.
  intros (Hr & H1 & p2 & H2 & Hn2).
  destruct (exec_cases blake2b256 arena op)
    as [(arena' & events & Hc & ->) | (e & _ & ->)]; cbn [fst];
    [|reflexivity].
  destruct op as [ctx | commitment ctx | _move salt ctx];
    cbn [arena_pvp.call] in Hc.
  - apply join_ok_inv in Hc. destruct Hc as (_ & Hnone & _). congruence.
  - apply commit_ok_inv in Hc.
    destruct Hc as (_ & q & _ & [(_ & _ & ->) | (_ & _ & _ & ->)]);
      reflexivity.
  - apply reveal_ok_inv in Hc.
    destruct Hc as (side & q & rng & ds & Hq & _ & _ & _ & Hnr & _).
    rewrite H2 in Hq. inversion Hq; subst q.
    destruct side; cbn [attacker_of] in Hnr; lia.
Qed.

Lemma stalled_forever_winner (ops : list Op) (arena : Arena) (r : Z) :
  stalled arena r ->
  winner (arena_pvp.exec_all blake2b256 arena ops) = winner arena.
Proof.
  revert arena. induction ops as [|op ops IH]; intros arena S;
    [reflexivity|].
  transitivity (winner (fst (arena_pvp.exec blake2b256 arena op))).
  - apply (IH (fst (arena_pvp.exec blake2b256 arena op))).
    now apply stalled_exec.
  - now apply (stalled_exec_winner arena r).
Qed.

End StalledRound.

Example alice_early_stalled :
  stalled alice_early 0 /\
  forall ops, arena_pvp.round (arena_pvp.exec_all sample_hash alice_early ops)
              = 0.
Proof.
  assert (S : stalled alice_early 0).
  { split; [vm_compute; reflexivity|]. split; [vm_compute; reflexivity|].
    eexists. split; vm_compute; reflexivity. }
  split; [exact S|]. intros ops.
  apply (stalled_forever sample_hash ops alice_early 0 S).
Qed.

(** * Further properties of the damage engine *)

Lemma damage_min (level attack defence move_power random d : Z) :
  pokemon_v1.damage level attack defence move_power random stats.scaling
  = Ok d ->
  217 <= random ->
  MIN_RAW_DAMAGE <= d.
Proof.
  intros H Hr. unfold pokemon_v1.damage in H. inv_M.
  unfold stats.scaling, stats.SCALING_FACTOR, MIN_RAW_DAMAGE in *.
  match goal with
  | |- _ <= ?a * ?b * 1 / _ =>
      assert (Ha : 200000000 <= a) by lia;
      assert (Hb : 85098039 <= b) by (apply Z.div_le_lower_bound; lia);
      apply Z.div_le_lower_bound; [lia|];
      pose proof (mul_bounds 200000000 85098039 a b);
      nia
  end.
Qed.

Lemma effectiveness_min (_move defender_type e : Z) (row : list Z) :
  0 <= _move < 3 ->
  nth_error battle.MOVES_EFFECTIVENESS (Z.to_nat _move) = Some row ->
  nth_error row (Z.to_nat defender_type) = Some e ->
  5 <= e <= 20.
Proof.
  intros Hm Hrow He.
  assert (C : _move = 0 \/ _move = 1 \/ _move = 2) by lia.
  destruct C as [-> | [-> | ->]];
    cbn in Hrow; apply (f_equal (fun o => match o with
                                          | Some r => r
                                          | None => []
                                          end)) in Hrow;
    cbn beta iota in Hrow; subst row;
    destruct (Z.to_nat defender_type) as [|[|[|n]]]; cbn in He;
    try (destruct n; cbn in He; discriminate He);
    injection He as He; rewrite <- He; lia.
Qed.

(** What a hit leaves of the defender: the same stats with the hp lowered,
    saturating, by at least [MIN_DAMAGE]. *)
Lemma attack_min_damage (attacker defender defender' : stats.Stats)
      (_move rng : Z) (debug : bool) :
  battle.attack attacker defender _move rng debug = Ok defender' ->
  exists damage,
    MIN_DAMAGE <= damage <= MAX_U64 /\
    defender' = stats.decrease_hp defender damage.
Proof.
  intros H. unfold battle.attack in H.
  apply bind_ok_inv in H. destruct H as (u & Hmove & H).
  apply assert_ok_inv, Z.ltb_lt in Hmove.
  apply bind_ok_inv in H. destruct H as (attacker_type & _ & H).
  apply bind_ok_inv in H. destruct H as (defender_type & _ & H).
  apply bind_ok_inv in H. destruct H as (move_power & Hpow & H).
  apply bind_ok_inv in H. destruct H as (raw & Hraw & H).
  apply bind_ok_inv in H. destruct H as (row & Hrow & H).
  apply bind_ok_inv in H. destruct H as (effectiveness & Heff & H).
  apply bind_ok_inv in H. destruct H as (printed & _ & H).
  apply bind_ok_inv in H. destruct H as (scaled & Hscaled & H).
  apply bind_ok_inv in H. destruct H as (final & Hfinal & H).
  apply Ok_inj in H. subst defender'.
  apply borrow_ok_inv in Hpow, Hrow, Heff.
  destruct Hpow as [Hm0 _], Hrow as [_ Hrow], Heff as [_ Heff].
  pose proof (effectiveness_min _move defender_type effectiveness row
                (conj Hm0 Hmove) Hrow Heff) as He.
  unfold pokemon_v1.physical_damage in Hraw.
  apply bind_ok_inv in Hraw. destruct Hraw as (u1 & Hrng & Hraw).
  apply bind_ok_inv in Hraw. destruct Hraw as (u2 & _ & Hraw).
  apply assert_ok_inv, andb_true_iff in Hrng. destruct Hrng as [Hr1 _].
  apply Z.leb_le in Hr1.
  pose proof (damage_min _ _ _ _ _ _ Hraw Hr1) as Hmin.
  unfold MIN_RAW_DAMAGE in Hmin.
  apply mul_div_ok_inv in Hscaled; [|lia|reflexivity].
  destruct Hscaled as (Hprod & Hscaled & Hscaled_range).
  assert (Hs : MIN_DAMAGE <= scaled <= MAX_U64).
  { unfold MIN_DAMAGE. split; [|lia]. subst scaled.
    unfold battle.EFF_SCALING.
    rewrite Z.quot_div_nonneg by lia.
    apply Z.div_le_lower_bound; [lia|]. nia. }
  exists final. split; [|reflexivity].
  destruct (_move =? attacker_type).
  - apply mul_div_ok_inv in Hfinal; [|unfold MIN_DAMAGE in Hs; lia|reflexivity].
    destruct Hfinal as (Hp2 & Hf & Hfr).
    unfold battle.STAB_BONUS, battle.EFF_SCALING, MIN_DAMAGE in *.
    split; [|lia]. subst final.
    rewrite Z.quot_div_nonneg by lia.
    apply Z.div_le_lower_bound; lia.
  - apply Ok_inj in Hfinal. subst final. exact Hs.
Qed.

Lemma decrease_hp_fields (stat : stats.Stats) (value : Z) :
  stats.attack (stats.decrease_hp stat value) = stats.attack stat /\
  stats.defence (stats.decrease_hp stat value) = stats.defence stat /\
  stats.special_attack (stats.decrease_hp stat value)
  = stats.special_attack stat /\
  stats.special_defence (stats.decrease_hp stat value)
  = stats.special_defence stat /\
  stats.speed (stats.decrease_hp stat value) = stats.speed stat /\
  stats.level (stats.decrease_hp stat value) = stats.level stat /\
  stats.types (stats.decrease_hp stat value) = stats.types stat.
Proof.
  unfold stats.decrease_hp. destruct (stats.hp stat <? value); cbn; auto 10.
Qed.

Lemma decrease_hp_shape (lo hi : Z) (stat : stats.Stats) (value : Z) :
  stats_shape lo hi stat -> stats_shape lo hi (stats.decrease_hp stat value).
Proof.
  unfold stats_shape.
  destruct (decrease_hp_fields stat value)
    as (-> & -> & -> & -> & -> & -> & ->).
  auto.
Qed.

Lemma attack_strict (attacker defender defender' : stats.Stats)
      (_move rng : Z) (debug : bool) :
  battle.attack attacker defender _move rng debug = Ok defender' ->
  0 <= stats.hp defender ->
  0 <= stats.hp defender' /\
  stats.hp defender' <= stats.hp defender - MIN_DAMAGE \/
  stats.hp defender' = 0 /\ stats.hp defender < MIN_DAMAGE.
Proof.
  intros H Hhp. apply attack_min_damage in H.
  destruct H as (damage & Hd & ->). rewrite decrease_hp_max.
  unfold MIN_DAMAGE in *. lia.
Qed.

(** Forward evaluation of the damage formula under a bound on the ratio
    of attack to defence. *)
Lemma damage_total_ratio (level attack defence move_power random : Z) :
  0 <= level <= 100 -> 0 <= attack <= 255 -> 0 < defence ->
  attack <= 5 * defence ->
  0 < move_power <= 80 -> 217 <= random <= 255 ->
  exists d,
    pokemon_v1.damage level attack defence move_power random stats.scaling
    = Ok d /\ 0 <= d <= 40000000000.
Proof.
  intros Hl Ha Hd Hratio Hp Hr.
  unfold pokemon_v1.damage, stats.scaling, stats.SCALING_FACTOR, MAX_U64 in *.
  set (lvl_mod := 2 * level * 1 / 5 + 2).
  assert (Hlvl : 2 <= lvl_mod <= 42).
  { subst lvl_mod. pose proof (div_bounds (2 * level * 1) 5 40). lia. }
  assert (Hsa : 0 <= 100000000 * attack <= 500000000 * defence) by lia.
  set (atk_def := 100000000 * attack / defence).
  assert (Hatk : 0 <= atk_def <= 500000000).
  { subst atk_def. apply div_bounds; lia. }
  set (result := lvl_mod * move_power * atk_def / 50 + 2 * 100000000).
  assert (Hlp : 0 <= lvl_mod * move_power <= 3360).
  { pose proof (mul_bounds lvl_mod move_power 42 80). lia. }
  assert (Hprod : 0 <= lvl_mod * move_power * atk_def <= 1680000000000).
  { pose proof (mul_bounds (lvl_mod * move_power) atk_def 3360 500000000).
    lia. }
  assert (Hres : 0 <= result <= 33800000000).
  { subst result.
    pose proof (div_bounds (lvl_mod * move_power * atk_def) 50 33600000000).
    lia. }
  set (rnd_val := 100000000 * random / 255).
  assert (Hrnd : 0 <= rnd_val <= 100000000).
  { subst rnd_val. apply div_bounds; lia. }
  assert (Hfin : 0 <= result * rnd_val <= 3380000000000000000).
  { pose proof (mul_bounds result rnd_val 33800000000 100000000). lia. }
  exists (result * rnd_val * 1 / 100000000).
  split.
  - rewrite (mul_u64_ok 2 level) by (unfold MAX_U64; lia).
    rewrite (mul_u64_ok (2 * level) 1) by (unfold MAX_U64; lia).
    rewrite div_u64_ok by (unfold MAX_U64; lia).
    rewrite add_u64_ok by (unfold MAX_U64; fold lvl_mod; lia).
    rewrite bind_Ok. fold lvl_mod.
    rewrite mul_u64_ok by (unfold MAX_U64; lia).
    rewrite div_u64_ok by (unfold MAX_U64; lia).
    rewrite bind_Ok. fold atk_def.
    rewrite (mul_u64_ok lvl_mod) by (unfold MAX_U64; lia).
    rewrite mul_u64_ok by (unfold MAX_U64; lia).
    rewrite div_u64_ok by (unfold MAX_U64; lia).
    rewrite (mul_u64_ok 2) by (unfold MAX_U64; lia).
    rewrite add_u64_ok by (unfold MAX_U64; fold result; lia).
    rewrite bind_Ok. fold result.
    rewrite mul_u64_ok by (unfold MAX_U64; lia).
    rewrite div_u64_ok by (unfold MAX_U64; lia).
    rewrite bind_Ok. fold rnd_val.
    rewrite mul_u64_ok by (unfold MAX_U64; lia).
    rewrite mul_u64_ok by (unfold MAX_U64; lia).
    rewrite div_u64_ok by (unfold MAX_U64; lia).
    reflexivity.
  - rewrite Z.mul_1_r.
    pose proof (div_bounds (result * rnd_val) 100000000 40000000000). lia.
Qed.

Lemma attack_total_ratio (attacker defender : stats.Stats) (_move rng : Z)
      (debug : bool) (attacker_type defender_type : Z) :
  nth_error (stats.types attacker) 0 = Some attacker_type ->
  nth_error (stats.types defender) 0 = Some defender_type ->
  0 <= defender_type < 3 ->
  0 <= _move < 3 -> 217 <= rng <= 255 ->
  0 <= stats.level attacker <= 100 ->
  0 <= stats.attack attacker <= 255 ->
  0 < stats.defence defender ->
  stats.attack attacker <= 5 * stats.defence defender ->
  exists defender', battle.attack attacker defender _move rng debug
                    = Ok defender'.
Proof.
  intros Hat Hdt Htd Hm Hr Hl Ha Hd Hratio.
  destruct (move_power_total _move Hm) as (p & Hp & Hprange).
  destruct (effectiveness_total _move defender_type Hm Htd)
    as (row & e & Hrow & He & Herange).
  destruct (damage_total_ratio (stats.level attacker) (stats.attack attacker)
              (stats.defence defender) p rng Hl Ha Hd Hratio Hprange Hr)
    as (d & Hdmg & Hdrange).
  unfold battle.attack.
  assert (Hmove : (_move <? 3) = true) by (apply Z.ltb_lt; lia).
  rewrite Hmove. unfold assert at 1. rewrite bind_Ok.
  rewrite (borrow_head _ _ Hat), bind_Ok.
  rewrite (borrow_head _ _ Hdt), bind_Ok, Hp, bind_Ok.
  unfold pokemon_v1.physical_damage.
  assert (Hrng : ((217 <=? rng) && (rng <=? 255)) = true).
  { apply andb_true_iff. split; apply Z.leb_le; lia. }
  assert (Hpos : (0 <? p) = true) by (apply Z.ltb_lt; lia).
  rewrite Hrng, Hpos. unfold assert. rewrite !bind_Ok, Hdmg, bind_Ok.
  rewrite Hrow, bind_Ok, He, bind_Ok.
  assert (Hde : 0 <= d * e <= 800000000000).
  { pose proof (mul_bounds d e 40000000000 20). lia. }
  unfold battle.EFF_SCALING, battle.STAB_BONUS.
  assert (Hscaled : 0 <= d * e / 10 <= 80000000000).
  { apply div_bounds; lia. }
  assert (Hprinted :
            (if debug
             then #d /! #1000000000 ;;
                  #d *! #e /! #10 /! #1000000000
             else #0) = #(if debug then d * e / 10 / 1000000000 else 0)).
  { destruct debug; [|reflexivity].
    rewrite div_u64_ok by (unfold MAX_U64; lia). rewrite bind_Ok.
    rewrite mul_div_u64_ok by (unfold MAX_U64; lia).
    rewrite div_u64_ok by (unfold MAX_U64; lia). reflexivity. }
  rewrite Hprinted, bind_Ok.
  rewrite mul_div_u64_ok by (unfold MAX_U64; lia). rewrite bind_Ok.
  destruct (_move =? attacker_type).
  - rewrite mul_div_u64_ok by (unfold MAX_U64; lia). rewrite bind_Ok.
    eexists. reflexivity.
  - rewrite bind_Ok. eexists. reflexivity.
Qed.

(** Stats of the shape a generator leaves can always hit each other. *)
Lemma attack_total_shape (lo hi : Z) (attacker defender : stats.Stats)
      (_move rng : Z) (debug : bool) :
  0 < lo -> hi <= 5 * lo -> hi <= 255 ->
  stats_shape lo hi attacker -> stats_shape lo hi defender ->
  0 <= _move < 3 -> 217 <= rng <= 255 ->
  exists defender', battle.attack attacker defender _move rng debug
                    = Ok defender'.
Proof.
  intros Hlo Hhi H255 (La & Aa & _ & _ & _ & _ & ta & Ta & _)
         (_ & _ & Dd & _ & _ & _ & td & Td & Htd) Hm Hr.
  apply (attack_total_ratio attacker defender _move rng debug ta td);
    try lia.
  - rewrite Ta. reflexivity.
  - rewrite Td. reflexivity.
Qed.

Lemma generated_shape (b0 b1 b2 b3 b4 b5 b6 : Z) :
  stats_shape 25 49 (generated b0 b1 b2 b3 b4 b5 b6) /\
  35 * stats.SCALING_FACTOR <= stats.hp (generated b0 b1 b2 b3 b4 b5 b6)
  <= 59 * stats.SCALING_FACTOR.
Proof.
  pose proof (smoothed_range b0). pose proof (smoothed_range b1).
  pose proof (smoothed_range b2). pose proof (smoothed_range b3).
  pose proof (smoothed_range b4). pose proof (smoothed_range b5).
  pose proof (Z.mod_pos_bound b6 3).
  unfold stats_shape, generated.
  cbn [stats.hp stats.attack stats.defence stats.special_attack
       stats.special_defence stats.speed stats.level stats.types].
  unfold stats.SCALING_FACTOR.
  repeat split; try lia. exists (b6 mod 3). split; [reflexivity | lia].
Qed.

Lemma generate_stats_shape (seed : list Z) (s : stats.Stats) :
  arena_pvp.generate_stats seed = Ok s ->
  stats_shape 25 49 s /\
  35 * stats.SCALING_FACTOR <= stats.hp s <= 59 * stats.SCALING_FACTOR.
Proof.
  intros H. apply generate_stats_ok_inv in H.
  destruct H as (b0 & b1 & b2 & b3 & b4 & b5 & b6 & rest & _ & ->).
  apply generated_shape.
Qed.

(** * Further properties of the arena state machine *)

(** ** The least damage between generated stats *)

Lemma damage_formula_mono (k s a1 a2 d1 d2 r1 r2 : Z) :
  0 <= k -> 0 < s ->
  0 <= a1 <= a2 -> 0 < d2 <= d1 -> 0 <= r1 <= r2 ->
  (k * (s * a1 / d1) / 50 + 2 * s) * (s * r1 / 255) / s
  <= (k * (s * a2 / d2) / 50 + 2 * s) * (s * r2 / 255) / s.
Proof.
  intros Hk Hs Ha Hd Hr.
  assert (Hq : 0 <= s * a1 / d1 <= s * a2 / d2).
  { split; [apply Z.div_pos; nia|].
    apply Z.le_trans with (s * a2 / d1).
    - apply Z.div_le_mono; nia.
    - apply Z.div_le_compat_l; [nia | lia]. }
  assert (Hres : 0 <= k * (s * a1 / d1) / 50 <= k * (s * a2 / d2) / 50).
  { split; [apply Z.div_pos; nia|]. apply Z.div_le_mono; nia. }
  assert (Hrnd : 0 <= s * r1 / 255 <= s * r2 / 255).
  { split; [apply Z.div_pos; nia|]. apply Z.div_le_mono; nia. }
  apply Z.div_le_mono; [lia|].
  apply Z.mul_le_mono_nonneg; lia.
Qed.

Lemma raw_formula_mono (k e s a1 a2 d1 d2 r1 r2 : Z) :
  0 <= k -> 0 < s -> 0 <= e ->
  0 <= a1 <= a2 -> 0 < d2 <= d1 -> 0 <= r1 <= r2 ->
  0 <= (k * (s * a1 ÷ d1) ÷ 50 + 2 * s) * (s * r1 ÷ 255) ÷ s * e ÷ 10
  <= (k * (s * a2 ÷ d2) ÷ 50 + 2 * s) * (s * r2 ÷ 255) ÷ s * e ÷ 10.
Proof.
  intros Hk Hs He Ha Hd Hr.
  rewrite (Z.quot_div_nonneg (s * a1) d1) by nia.
  rewrite (Z.quot_div_nonneg (s * a2) d2) by nia.
  rewrite (Z.quot_div_nonneg (s * r1) 255) by nia.
  rewrite (Z.quot_div_nonneg (s * r2) 255) by nia.
  assert (Hq1 : 0 <= s * a1 / d1) by (apply Z.div_pos; nia).
  assert (Hq2 : 0 <= s * a2 / d2) by (apply Z.div_pos; nia).
  assert (Hr1 : 0 <= s * r1 / 255) by (apply Z.div_pos; nia).
  assert (Hr2 : 0 <= s * r2 / 255) by (apply Z.div_pos; nia).
  rewrite (Z.quot_div_nonneg (k * (s * a1 / d1)) 50) by nia.
  rewrite (Z.quot_div_nonneg (k * (s * a2 / d2)) 50) by nia.
  assert (Hb1 : 0 <= k * (s * a1 / d1) / 50) by (apply Z.div_pos; nia).
  assert (Hb2 : 0 <= k * (s * a2 / d2) / 50) by (apply Z.div_pos; nia).
  rewrite (Z.quot_div_nonneg
             ((k * (s * a1 / d1) / 50 + 2 * s) * (s * r1 / 255)) s) by nia.
  rewrite (Z.quot_div_nonneg
             ((k * (s * a2 / d2) / 50 + 2 * s) * (s * r2 / 255)) s) by nia.
  pose proof (damage_formula_mono k s a1 a2 d1 d2 r1 r2 Hk Hs Ha Hd Hr)
    as Hmono.
  assert (H0 : 0 <= (k * (s * a1 / d1) / 50 + 2 * s) * (s * r1 / 255) / s)
    by (apply Z.div_pos; nia).
  rewrite !Z.quot_div_nonneg by nia.
  split; [apply Z.div_pos; nia|].
  apply Z.div_le_mono; [lia|]. nia.
Qed.

(** The damage of a hit is least without the same-type bonus, at the
    lowest attack, the highest defence and the lowest roll. *)
Lemma documented_damage_floor
      (lo hi a d attacker_type defender_type _move r : Z) :
  0 <= lo <= a -> 0 < d <= hi -> 217 <= r ->
  0 <= _move < 3 -> 0 <= defender_type < 3 ->
  documented_damage 10 lo hi 3 defender_type _move 217
  <= documented_damage 10 a d attacker_type defender_type _move r.
Proof.
  intros Ha Hd Hr Hm Ht. unfold documented_damage. cbv zeta.
  assert (E3 : (_move =? 3) = false) by (apply Z.eqb_neq; lia).
  rewrite E3.
  change (2 * 10 * 1 ÷ 5 + 2) with 6.
  assert (Hp : 0 <= 6 * documented_move_power _move).
  { assert (C : _move = 0 \/ _move = 1 \/ _move = 2) by lia.
    destruct C as [-> | [-> | ->]]; vm_compute; discriminate. }
  assert (He : 0 <= documented_effectiveness _move defender_type).
  { assert (C : _move = 0 \/ _move = 1 \/ _move = 2) by lia.
    assert (D : defender_type = 0 \/ defender_type = 1 \/ defender_type = 2)
      by lia.
    destruct C as [-> | [-> | ->]], D as [-> | [-> | ->]];
      vm_compute; discriminate. }
  pose proof (raw_formula_mono (6 * documented_move_power _move)
                (documented_effectiveness _move defender_type)
                stats.SCALING_FACTOR lo a hi d 217 r Hp eq_refl He
                ltac:(lia) ltac:(lia) ltac:(lia)) as [H0 Hmono].
  pose proof (raw_formula_mono (6 * documented_move_power _move)
                (documented_effectiveness _move defender_type)
                stats.SCALING_FACTOR a a d d r r Hp eq_refl He
                ltac:(lia) ltac:(lia) ltac:(lia)) as [H1 _].
  destruct (_move =? attacker_type); [|exact Hmono].
  eapply Z.le_trans; [exact Hmono|].
  rewrite (Z.quot_div_nonneg (_ * 15) 10) by lia.
  apply Z.div_le_lower_bound; lia.
Qed.

(** A returning hit between stats of one generator does at least the
    damage of the weakest case of that generator. *)
Lemma attack_floor (lo hi floor : Z)
      (attacker defender defender' : stats.Stats) (_move rng : Z)
      (debug : bool) :
  0 < lo ->
  (forall m t, 0 <= m < 3 -> 0 <= t < 3 ->
               floor <= documented_damage 10 lo hi 3 t m 217) ->
  stats_shape lo hi attacker -> stats_shape lo hi defender ->
  battle.attack attacker defender _move rng debug = Ok defender' ->
  exists damage,
    floor <= damage /\ defender' = stats.decrease_hp defender damage.
Proof.
  intros Hlo Hfloor Sa Sd H.
  pose proof (attack_min_damage _ _ _ _ _ _ H) as (d0 & [Hd0 _] & _).
  apply attack_ok_inv in H.
  destruct H as (ta & td & damage & _ & Htd & Hm & Hr & _ & Hdmg & ->).
  exists damage. split; [|reflexivity].
  destruct Sa as (Hlvl & Hatk & _).
  destruct Sd as (_ & _ & Hdef & _ & _ & _ & t & Hty & Ht).
  rewrite Hty in Htd. cbn [nth_error] in Htd.
  apply (f_equal (fun o => match o with Some x => x | None => 0 end)) in Htd.
  cbn beta iota in Htd. subst td.
  rewrite Hlvl in Hdmg. subst damage.
  eapply Z.le_trans; [apply (Hfloor _move t); lia|].
  apply documented_damage_floor; lia.
Qed.

(** In the two-player arena every hit takes at least [MIN_HIT]. *)
Lemma attack_min_hit (attacker defender defender' : stats.Stats)
      (_move rng : Z) (debug : bool) :
  stats_shape 25 49 attacker -> stats_shape 25 49 defender ->
  battle.attack attacker defender _move rng debug = Ok defender' ->
  exists damage,
    MIN_HIT <= damage /\ defender' = stats.decrease_hp defender damage.
Proof.
  apply attack_floor; [lia|].
  intros m t Hm Ht.
  assert (C : m = 0 \/ m = 1 \/ m = 2) by lia.
  assert (D : t = 0 \/ t = 1 \/ t = 2) by lia.
  destruct C as [-> | [-> | ->]], D as [-> | [-> | ->]];
    vm_compute; discriminate.
Qed.

(** Against the bot every hit takes at least [BOT_MIN_HIT]. *)
Lemma bot_attack_min_hit (attacker defender defender' : stats.Stats)
      (_move rng : Z) (debug : bool) :
  stats_shape 30 59 attacker -> stats_shape 30 59 defender ->
  battle.attack attacker defender _move rng debug = Ok defender' ->
  exists damage,
    BOT_MIN_HIT <= damage /\ defender' = stats.decrease_hp defender damage.
Proof.
  apply attack_floor; [lia|].
  intros m t Hm Ht.
  assert (C : m = 0 \/ m = 1 \/ m = 2) by lia.
  assert (D : t = 0 \/ t = 1 \/ t = 2) by lia.
  destruct C as [-> | [-> | ->]], D as [-> | [-> | ->]];
    vm_compute; discriminate.
Qed.

Section BattleProperties.

Variable blake2b256 : list Z -> list Z.
Variable derive_id : list Z -> Z -> arena_pvp.address.

Import arena_pvp.

Local Abbreviation derive := (arena_pvp.derive blake2b256).
Local Abbreviation hit_rng := (arena_pvp.hit_rng blake2b256).
Local Abbreviation new := (arena_pvp.new blake2b256 derive_id).
Local Abbreviation join := (arena_pvp.join blake2b256).
Local Abbreviation reveal := (arena_pvp.reveal blake2b256).
Local Abbreviation call := (arena_pvp.call blake2b256).
Local Abbreviation exec := (arena_pvp.exec blake2b256).
Local Abbreviation exec_all := (arena_pvp.exec_all blake2b256).
Local Abbreviation commit := arena_pvp.commit.
Local Abbreviation reachable := (arena_pvp.reachable blake2b256 derive_id).

Lemma fresh_player_shape (s : stats.Stats) (who : address) :
  stats_shape 25 49 s ->
  35 * stats.SCALING_FACTOR <= stats.hp s <= 59 * stats.SCALING_FACTOR ->
  player_shape (mkPlayer (stats.hp s) s who None 0) /\
  0 < stats.hp s.
Proof.
  intros Hs Hh. unfold player_shape. cbn [stats starting_hp].
  unfold stats.SCALING_FACTOR in *.
  split; [split; [exact Hs | lia] | lia].
Qed.

Lemma battle_inv_new (ctx : TxContext) (arena : Arena) (events : list Event) :
  new ctx = Ok (arena, events) -> battle_inv arena.
Proof.
  intros H. apply new_ok_inv in H.
  destruct H as (s & Hgen & Hr & Hp2 & Hw & Hp1).
  apply generate_stats_shape in Hgen. destruct Hgen as [Hs Hh].
  destruct (fresh_player_shape s (sender ctx) Hs Hh) as [Hshape Hpos].
  unfold battle_inv. rewrite Hp2, Hp1, Hr, Hw.
  cbn [stats]. split; [lia|]. split; [exact Hshape|].
  split; [reflexivity | exact Hpos].
Qed.

Lemma hit_player_shape (p : Player) (damage : Z)
      (na : option (list Z)) (nr : Z) :
  player_shape p -> 0 <= damage ->
  player_shape (mkPlayer (starting_hp p)
                         (stats.decrease_hp (stats p) damage)
                         (account p) na nr).
Proof.
  intros (Hs & Hh & Hst) Hd. unfold player_shape.
  cbn [stats starting_hp]. rewrite decrease_hp_max.
  split; [now apply decrease_hp_shape|]. split; [lia | exact Hst].
Qed.

Lemma spent_player_shape (p : Player) (na : option (list Z)) (nr : Z) :
  player_shape p ->
  player_shape (mkPlayer (starting_hp p) (stats p) (account p) na nr).
Proof. intros H. exact H. Qed.

Lemma winner_inv_hit (attacker defender : Player) (damage : Z)
      (na na' : option (list Z)) (nr nr' : Z) :
  0 < stats.hp (stats attacker) -> 0 <= stats.hp (stats defender) ->
  let attacker' :=
    mkPlayer (starting_hp attacker) (stats attacker) (account attacker)
             na nr in
  let defender' :=
    mkPlayer (starting_hp defender)
             (stats.decrease_hp (stats defender) damage)
             (account defender) na' nr' in
  let w :=
    if stats.hp (stats.decrease_hp (stats defender) damage) =? 0
    then Some (account attacker) else None in
  winner_inv w attacker' defender' /\ winner_inv w defender' attacker'.
Proof.
  intros Ha Hd. cbv zeta. unfold winner_inv.
  destruct (stats.hp (stats.decrease_hp (stats defender) damage) =? 0) eqn:E;
    [apply Z.eqb_eq in E | apply Z.eqb_neq in E];
    cbn [stats account];
    pose proof (decrease_hp_max (stats defender) damage) as Hmax.
  - split; [left | right]; auto.
  - split; split; lia.
Qed.

Lemma battle_inv_reveal (arena arena' : Arena) (_move : Z) (salt : list Z)
      (ctx : TxContext) (events : list Event) :
  battle_inv arena ->
  reveal arena _move salt ctx = Ok (arena', events) ->
  battle_inv arena'.
Proof.
  intros (Hr & S1 & I2) H. apply reveal_ok_inv in H.
  destruct H as (side & p2 & rng & ds & Hp2 & Hw & _ & _ & _ & _
                 & Hatk & _ & ->).
  rewrite Hp2, Hw in I2. destruct I2 as (S2 & Hacc & Hpos1 & Hpos2).
  apply attack_min_damage in Hatk. destruct Hatk as (damage & Hd & ->).
  assert (Hd0 : 0 <= damage) by (unfold MIN_DAMAGE in Hd; lia).
  unfold battle_inv, revealed.
  cbn [round player_one player_two winner]. rewrite Hw.
  split.
  { match goal with
    | |- context [if ?c then _ else _] => destruct c; lia
    end. }
  destruct side; cbn [attacker_of defender_of].
  - split; [now apply spent_player_shape|].
    split; [now apply hit_player_shape|].
    split; [exact Hacc|].
    apply winner_inv_hit; lia.
  - split; [now apply hit_player_shape|].
    split; [now apply spent_player_shape|].
    split; [exact Hacc|].
    apply winner_inv_hit; lia.
Qed.

Lemma battle_inv_call (arena arena' : Arena) (op : Op) (events : list Event) :
  battle_inv arena ->
  call arena op = Ok (arena', events) ->
  battle_inv arena'.
Proof.
  intros I H. destruct op as [ctx | commitment ctx | _move salt ctx];
    cbn [arena_pvp.call] in H.
  - apply join_ok_inv in H.
    destruct H as (Hne & Hp2 & s & Hgen & ->).
    destruct I as (Hr & S1 & I2). rewrite Hp2 in I2.
    destruct I2 as [Hw Hpos].
    apply generate_stats_shape in Hgen. destruct Hgen as [Hs Hh].
    destruct (fresh_player_shape s (sender ctx) Hs Hh) as [Hshape Hpos2].
    unfold battle_inv. cbn [round player_one player_two winner].
    split; [exact Hr|]. split; [exact S1|]. split; [exact Hshape|].
    split; [exact Hne|]. rewrite Hw. unfold winner_inv. cbn [stats]. auto.
  - apply commit_ok_inv in H.
    destruct H as (_ & p2 & Hp2 & [(_ & _ & ->) | (_ & _ & _ & ->)]);
      destruct I as (Hr & S1 & I2); rewrite Hp2 in I2;
      destruct I2 as (S2 & Hacc & Hwin);
      unfold battle_inv; cbn [round player_one player_two winner];
      (split; [exact Hr|]); (split; [exact S1|]); (split; [exact S2|]);
      (split; [exact Hacc|]); exact Hwin.
  - eapply battle_inv_reveal; eassumption.
Qed.

Lemma reachable_battle_inv (arena : Arena) :
  reachable arena -> battle_inv arena.
Proof.
  induction 1 as [ctx arena events Hnew | arena op arena' events _ IH Hcall].
  - eapply battle_inv_new; eassumption.
  - eapply battle_inv_call; eassumption.
Qed.

Lemma hit_rng_forward (seed : list Z) (path round value : Z) :
  0 <= round ->
  nth_error (derive seed path) (Z.to_nat round) = Some value ->
  hit_rng seed path round = Ok (value mod 38 + 217).
Proof.
  intros Hr Hv. unfold arena_pvp.hit_rng, borrow.
  destruct (round <? 0) eqn:E; [apply Z.ltb_lt in E; lia|].
  rewrite Hv, bind_Ok. change (255 - 217) with 38.
  rewrite rem_u8_ok by lia.
  pose proof (Z.mod_pos_bound value 38).
  rewrite add_u8_ok by lia. reflexivity.
Qed.

(** The converse of [reveal_ok_inv]: what a reveal returns once its checks
    pass and the hit is computed. *)
Lemma reveal_forward (arena : Arena) (_move : Z) (salt : list Z)
      (ctx : TxContext) (side : Side) (p2 : Player) (rng : Z)
      (defender_stats : stats.Stats) :
  player_two arena = Some p2 ->
  winner arena = None ->
  match side with
  | PlayerOne => is_player_one arena (sender ctx) = true
  | PlayerTwo => is_player_one arena (sender ctx) = false /\
                 is_player_two arena (sender ctx) = true
  end ->
  next_attack (attacker_of side arena p2)
  = Some (blake2b256 (_move :: salt)) ->
  next_round (attacker_of side arena p2) = round arena ->
  hit_rng (blake2b256 (_move :: salt)) 2 (round arena) = Ok rng ->
  battle.attack (stats (attacker_of side arena p2))
                (stats (defender_of side arena p2)) _move rng false
  = Ok defender_stats ->
  0 <= round arena + 1 <= 255 ->
  reveal arena _move salt ctx
  = Ok (revealed arena side p2 defender_stats,
        [PlayerReveal (id arena) _move;
         RoundResult (id arena)
                     (stats.hp (stats (attacker_of side arena p2)))
                     (stats.hp defender_stats)]).
Proof.
  intros H2 Hw Hs Hna Hnr Hrng Hatk Hround.
  assert (Heq : bytes_eqb (blake2b256 (_move :: salt))
                          (blake2b256 (_move :: salt)) = true)
    by (now apply bytes_eqb_eq).
  assert (Hadd : #(round arena) +!8 #1 = #(round arena + 1))
    by (apply add_u8_ok; exact Hround).
  unfold arena_pvp.reveal. rewrite H2, Hw.
  cbn [is_some is_none assert bind].
  destruct side; cbn [attacker_of defender_of] in *.
  - rewrite Hs. cbn [bind option_borrow]. rewrite Hna.
    cbn [is_some assert bind option_borrow].
    rewrite Hnr, Z.eqb_refl. cbn [assert bind].
    rewrite Heq. cbn [assert bind]. rewrite Hrng, bind_Ok, Hatk, bind_Ok.
    cbn [next_attack next_round stats account starting_hp].
    rewrite Hadd, bind_Ok. unfold revealed. cbn [attacker_of defender_of].
    destruct (next_attack p2); cbn [is_none andb bind];
      rewrite ?Hadd; cbn [bind];
      try destruct (next_round p2 =? round arena + 1);
      rewrite ?Hadd; cbn [bind]; rewrite ?Hw; reflexivity.
  - destruct Hs as [E1 E2]. rewrite E1, E2. cbn [bind option_borrow].
    rewrite Hna. cbn [is_some assert bind option_borrow].
    rewrite Hnr, Z.eqb_refl. cbn [assert bind].
    rewrite Heq. cbn [assert bind]. rewrite Hrng, bind_Ok, Hatk, bind_Ok.
    cbn [next_attack next_round stats account starting_hp].
    rewrite Hadd, bind_Ok. unfold revealed. cbn [attacker_of defender_of].
    destruct (next_attack (player_one arena)); cbn [is_none andb bind];
      rewrite ?Hadd; cbn [bind];
      try destruct (next_round (player_one arena) =? round arena + 1);
      rewrite ?Hadd; cbn [bind]; rewrite ?Hw; reflexivity.
Qed.

(** *** What a battle keeps *)

(** X1. In every reachable arena both players carry stats as the generator
    left them (level 10, the five non-hp stats in [25,49], one type below
    3); the starting hp lies in [35,59] * SCALING_FACTOR and the hp between
    0 and the starting hp. *)
Theorem reachable_players_keep_generated_stats (arena : Arena) :
  reachable arena ->
  player_shape (player_one arena) /\
  forall p2, player_two arena = Some p2 -> player_shape p2.
Proof.
  intros R. destruct (reachable_battle_inv arena R) as (_ & S1 & I2).
  split; [exact S1|]. intros p2 H2. rewrite H2 in I2. apply I2.
Qed.

(** X2. In every reachable arena the winner is the player left standing:
    no winner is set exactly when both players have positive hp, and a
    winner is the account of a player with positive hp whose opponent has
    hp 0.  The two accounts differ, and nothing is won before the second
    player joins. *)
Theorem winner_is_last_standing (arena : Arena) :
  reachable arena ->
  (player_two arena = None -> winner arena = None) /\
  forall p2,
    player_two arena = Some p2 ->
    account p2 <> account (player_one arena) /\
    (winner arena = None <->
     0 < stats.hp (stats (player_one arena)) /\ 0 < stats.hp (stats p2)) /\
    (forall w,
        winner arena = Some w ->
        (w = account (player_one arena) /\
         0 < stats.hp (stats (player_one arena)) /\
         stats.hp (stats p2) = 0) \/
        (w = account p2 /\ 0 < stats.hp (stats p2) /\
         stats.hp (stats (player_one arena)) = 0)).
Proof.
  intros R. destruct (reachable_battle_inv arena R) as (_ & _ & I2).
  split.
  - intros H2. rewrite H2 in I2. apply I2.
  - intros p2 H2. rewrite H2 in I2. destruct I2 as (_ & Hacc & Hwin).
    split; [exact Hacc|]. unfold winner_inv in Hwin.
    destruct (winner arena) as [w|].
    + split; [split; [discriminate | intros [? ?]; lia]|].
      intros w' Hw. inversion Hw; subst w'. exact Hwin.
    + split; [split; [intros _; exact Hwin | reflexivity]|].
      intros w Hw. discriminate.
Qed.

Lemma same_player_refl (p : Player) : same_player p p.
Proof.
  unfold same_player. split; [reflexivity|]. split; [reflexivity|].
  exists (stats.hp (stats p)). destruct (stats p). reflexivity.
Qed.

Lemma same_player_trans (p q r : Player) :
  same_player p q -> same_player q r -> same_player p r.
Proof.
  intros (H1 & H2 & h & H3) (K1 & K2 & k & K3). unfold same_player.
  split; [congruence|]. split; [congruence|].
  exists k. rewrite K3, H3. reflexivity.
Qed.

Lemma same_player_spent (p : Player) (na : option (list Z)) (nr : Z) :
  same_player p (mkPlayer (starting_hp p) (stats p) (account p) na nr).
Proof.
  unfold same_player. cbn [starting_hp account stats].
  split; [reflexivity|]. split; [reflexivity|].
  exists (stats.hp (stats p)). destruct (stats p). reflexivity.
Qed.

Lemma same_player_hit (p : Player) (damage : Z)
      (na : option (list Z)) (nr : Z) :
  same_player p (mkPlayer (starting_hp p)
                          (stats.decrease_hp (stats p) damage)
                          (account p) na nr).
Proof.
  unfold same_player. cbn [starting_hp account stats].
  split; [reflexivity|]. split; [reflexivity|].
  unfold stats.decrease_hp.
  destruct (stats.hp (stats p) <? damage); eexists; reflexivity.
Qed.

Lemma call_static (arena arena' : Arena) (op : Op) (events : list Event) :
  call arena op = Ok (arena', events) ->
  id arena' = id arena /\ seed arena' = seed arena /\
  same_player (player_one arena) (player_one arena') /\
  forall p2, player_two arena = Some p2 ->
             exists p2', player_two arena' = Some p2' /\ same_player p2 p2'.
Proof.
  intros H. destruct op as [ctx | commitment ctx | _move salt ctx];
    cbn [arena_pvp.call] in H.
  - apply join_ok_inv in H. destruct H as (_ & Hnone & s & _ & ->).
    cbn [id seed player_one player_two].
    split; [reflexivity|]. split; [reflexivity|].
    split; [apply same_player_refl|]. intros p2 H2. congruence.
  - apply commit_ok_inv in H.
    destruct H as (_ & q & Hq & [(_ & _ & ->) | (_ & _ & _ & ->)]);
      cbn [id seed player_one player_two];
      (split; [reflexivity|]); (split; [reflexivity|]);
      (split; [first [apply same_player_refl | apply same_player_spent]|]);
      intros p2 H2; rewrite Hq in H2; inversion H2; subst q;
      eexists; (split; [reflexivity|]);
      first [apply same_player_refl | apply same_player_spent].
  - apply reveal_ok_inv in H.
    destruct H as (side & q & rng & ds & Hq & _ & _ & _ & _ & _
                   & Hatk & _ & ->).
    apply attack_min_damage in Hatk. destruct Hatk as (damage & _ & ->).
    unfold revealed. cbn [id seed player_one player_two].
    split; [reflexivity|]. split; [reflexivity|].
    destruct side; cbn [attacker_of defender_of];
      (split; [first [apply same_player_spent | apply same_player_hit]|]);
      intros p2 H2; rewrite Hq in H2; inversion H2; subst q;
      eexists; (split; [reflexivity|]);
      first [apply same_player_spent | apply same_player_hit].
Qed.

(** X3. No transaction changes the arena's id or seed, a player's account,
    starting hp or any stat other than hp, and a player who has joined
    stays. *)
Theorem transactions_keep_identity (arena : Arena) (ops : list Op) :
  id (exec_all arena ops) = id arena /\
  seed (exec_all arena ops) = seed arena /\
  same_player (player_one arena) (player_one (exec_all arena ops)) /\
  forall p2, player_two arena = Some p2 ->
             exists p2', player_two (exec_all arena ops) = Some p2' /\
                         same_player p2 p2'.
Proof.
  revert arena. induction ops as [|op ops IH]; intros arena.
  - cbn. split; [reflexivity|]. split; [reflexivity|].
    split; [apply same_player_refl|]. intros p2 H2.
    exists p2. split; [exact H2 | apply same_player_refl].
  - unfold arena_pvp.exec_all in *. cbn [fold_left].
    destruct (exec_cases blake2b256 arena op)
      as [(arena' & events & Hc & ->) | (e & _ & ->)]; cbn [fst];
      [|apply IH].
    destruct (call_static arena arena' op events Hc) as (S1 & S2 & S3 & S4).
    destruct (IH arena') as (T1 & T2 & T3 & T4).
    split; [congruence|]. split; [congruence|].
    split; [eapply same_player_trans; eassumption|].
    intros p2 H2. destruct (S4 p2 H2) as (q & Hq & Hsame).
    destruct (T4 q Hq) as (q' & Hq' & Hsame').
    exists q'. split; [exact Hq'|]. eapply same_player_trans; eassumption.
Qed.

(** *** Who can change what *)

Ltac eqb_cases :=
  repeat match goal with
         | H : context [?a =? ?b] |- _ => destruct (Z.eqb_spec a b)
         | |- context [?a =? ?b] => destruct (Z.eqb_spec a b)
         end.

Lemma call_other_keeps_commitment
      (arena arena' : Arena) (op : Op) (events : list Event)
      (who : address) (p : Player) :
  call arena op = Ok (arena', events) ->
  op_sender op <> who ->
  player_of arena who = Some p ->
  exists p', player_of arena' who = Some p' /\
             next_attack p' = next_attack p /\
             next_round p' = next_round p.
Proof.
  intros H Hne Hp.
  destruct op as [ctx | commitment ctx | _move salt ctx];
    cbn [arena_pvp.call op_sender] in H, Hne.
  - apply join_ok_inv in H. destruct H as (_ & Hnone & s & _ & ->).
    unfold arena_pvp.player_of, is_player_one, is_player_two in *.
    cbn [player_one player_two account] in *. rewrite Hnone in Hp.
    eqb_cases; try discriminate.
    exists p. split; [exact Hp | split; reflexivity].
  - apply commit_ok_inv in H.
    destruct H as (_ & q & Hq & [(Hs & _ & ->) | (Hs1 & Hs & _ & ->)]);
      unfold arena_pvp.player_of, is_player_one, is_player_two in *;
      cbn [player_one player_two account committed] in *;
      rewrite Hq in Hp; eqb_cases; try congruence;
      exists p; (split; [exact Hp | split; reflexivity]).
  - apply reveal_ok_inv in H.
    destruct H as (side & q & rng & ds & Hq & _ & Hs & _ & _ & _ & _ & _ & ->).
    unfold arena_pvp.player_of, is_player_one, is_player_two, revealed in *.
    rewrite Hq in *.
    destruct side; cbn [attacker_of defender_of player_one player_two
                        account] in *;
      [|destruct Hs as [Hs1 Hs]]; eqb_cases; try congruence;
      try discriminate; inversion Hp; subst p;
      eexists; (split; [reflexivity|]); split; reflexivity.
Qed.

(** X4. A player's stored commitment and round counter are changed only by
    that player's own transactions: whatever the others send, the record
    of [who] keeps its [next_attack] and [next_round]. *)
Theorem commitment_untouched_by_others
        (ops : list Op) (arena : Arena) (who : address) (p : Player) :
  player_of arena who = Some p ->
  Forall (fun op => op_sender op <> who) ops ->
  exists p', player_of (exec_all arena ops) who = Some p' /\
             next_attack p' = next_attack p /\
             next_round p' = next_round p.
Proof.
  revert arena p. induction ops as [|op ops IH]; intros arena p Hp Hall.
  - exists p. cbn. auto.
  - inversion Hall as [|? ? Hop Hrest]; subst.
    unfold arena_pvp.exec_all in *. cbn [fold_left].
    destruct (exec_cases blake2b256 arena op)
      as [(arena' & events & Hc & ->) | (e & _ & ->)]; cbn [fst].
    + destruct (call_other_keeps_commitment arena arena' op events who p
                  Hc Hop Hp) as (q & Hq & Ha & Hr).
      destruct (IH arena' q Hq Hrest) as (q' & Hq' & Ha' & Hr').
      exists q'. split; [exact Hq'|]. split; congruence.
    + apply IH; assumption.
Qed.

Lemma stranger_rejected (arena : Arena) (p2 : Player) (op : Op) :
  player_two arena = Some p2 ->
  player_of arena (op_sender op) = None ->
  exists e, call arena op = Aborted e.
Proof.
  intros H2 Hp.
  destruct (call arena op) as [[arena' events]|e] eqn:Hc; [|now exists e].
  exfalso.
  destruct op as [ctx | commitment ctx | _move salt ctx];
    cbn [arena_pvp.call op_sender] in Hc, Hp.
  - apply join_ok_inv in Hc. destruct Hc as (_ & Hnone & _). congruence.
  - apply commit_ok_inv in Hc.
    destruct Hc as (_ & q & Hq & [(Hs & _) | (Hs1 & Hs & _)]);
      unfold arena_pvp.player_of, is_player_one, is_player_two in Hp;
      rewrite Hq in Hp; eqb_cases; congruence.
  - apply reveal_ok_inv in Hc.
    destruct Hc as (side & q & rng & ds & Hq & _ & Hs & _).
    destruct (sides_of_reveal arena (sender ctx) side q Hq Hs) as (Hp' & _).
    congruence.
Qed.

(** X5. Once the second player has joined, only the two players can change
    the arena: every transaction whose sender is neither of them aborts,
    so any sequence of such transactions leaves the arena as it is. *)
Theorem strangers_change_nothing
        (ops : list Op) (arena : Arena) (p2 : Player) :
  player_two arena = Some p2 ->
  Forall (fun op => player_of arena (op_sender op) = None) ops ->
  exec_all arena ops = arena /\
  Forall (fun op => exists e, call arena op = Aborted e) ops.
Proof.
  intros H2 Hall. induction Hall as [|op ops Hop Hrest IH].
  - split; [reflexivity | constructor].
  - destruct (stranger_rejected arena p2 op H2 Hop) as (e & He).
    destruct IH as [IH1 IH2].
    split.
    + unfold arena_pvp.exec_all in *. cbn [fold_left].
      rewrite (exec_aborted blake2b256 arena op e He). exact IH1.
    + constructor; [now exists e | exact IH2].
Qed.

(** *** Accepted and rejected reveals *)

Lemma reveal_aborted_after_checks
      (arena : Arena) (_move : Z) (salt : list Z) (ctx : TxContext)
      (side : Side) (p2 : Player) (e : abort_code) :
  player_two arena = Some p2 ->
  winner arena = None ->
  match side with
  | PlayerOne => is_player_one arena (sender ctx) = true
  | PlayerTwo => is_player_one arena (sender ctx) = false /\
                 is_player_two arena (sender ctx) = true
  end ->
  next_attack (attacker_of side arena p2)
  = Some (blake2b256 (_move :: salt)) ->
  next_round (attacker_of side arena p2) = round arena ->
  (hit_rng (blake2b256 (_move :: salt)) 2 (round arena) = Aborted e \/
   exists rng,
     hit_rng (blake2b256 (_move :: salt)) 2 (round arena) = Ok rng /\
     battle.attack (stats (attacker_of side arena p2))
                   (stats (defender_of side arena p2)) _move rng false
     = Aborted e) ->
  reveal arena _move salt ctx = Aborted e.
Proof.
  intros H2 Hw Hs Hna Hnr Hfail.
  assert (Heq : bytes_eqb (blake2b256 (_move :: salt))
                          (blake2b256 (_move :: salt)) = true)
    by (now apply bytes_eqb_eq).
  unfold arena_pvp.reveal. rewrite H2, Hw.
  cbn [is_some is_none assert bind].
  destruct side; cbn [attacker_of defender_of] in *.
  - rewrite Hs. cbn [bind option_borrow]. rewrite Hna.
    cbn [is_some assert bind option_borrow].
    rewrite Hnr, Z.eqb_refl. cbn [assert bind].
    rewrite Heq. cbn [assert bind].
    destruct Hfail as [Hr | (rng & Hr & Ha)]; rewrite Hr; cbn [bind];
      [|rewrite Ha]; reflexivity.
  - destruct Hs as [E1 E2]. rewrite E1, E2. cbn [bind option_borrow].
    rewrite Hna. cbn [is_some assert bind option_borrow].
    rewrite Hnr, Z.eqb_refl. cbn [assert bind].
    rewrite Heq. cbn [assert bind].
    destruct Hfail as [Hr | (rng & Hr & Ha)]; rewrite Hr; cbn [bind];
      [|rewrite Ha]; reflexivity.
Qed.

Lemma side_of_player (arena : Arena) (who : address) (p p2 : Player) :
  player_two arena = Some p2 ->
  player_of arena who = Some p ->
  exists side,
    match side with
    | PlayerOne => is_player_one arena who = true
    | PlayerTwo => is_player_one arena who = false /\
                   is_player_two arena who = true
    end /\
    attacker_of side arena p2 = p.
Proof.
  intros H2 Hp. apply player_of_side in Hp.
  destruct Hp as [(E1 & ->) | (E1 & E2 & E3)].
  - exists PlayerOne. auto.
  - exists PlayerTwo. rewrite H2 in E3. inversion E3. auto.
Qed.

Lemma shapes_of_sides (arena : Arena) (side : Side) (p2 : Player) :
  battle_inv arena -> player_two arena = Some p2 ->
  stats_shape 25 49 (stats (attacker_of side arena p2)) /\
  stats_shape 25 49 (stats (defender_of side arena p2)).
Proof.
  intros (_ & (S1 & _) & I2) H2. rewrite H2 in I2.
  destruct I2 as ((S2 & _) & _).
  destruct side; cbn [attacker_of defender_of]; auto.
Qed.

Lemma reveal_accepts
      (arena : Arena) (_move : Z) (salt : list Z) (ctx : TxContext)
      (p2 p : Player) :
  battle_inv arena ->
  player_two arena = Some p2 ->
  winner arena = None ->
  player_of arena (sender ctx) = Some p ->
  next_attack p = Some (blake2b256 (_move :: salt)) ->
  next_round p = round arena ->
  0 <= _move < 3 ->
  (Z.to_nat (round arena)
   < length (derive (blake2b256 (_move :: salt)) 2))%nat ->
  round arena < 255 ->
  exists side defender_stats,
    reveal arena _move salt ctx
    = Ok (revealed arena side p2 defender_stats,
          [PlayerReveal (id arena) _move;
           RoundResult (id arena)
                       (stats.hp (stats (attacker_of side arena p2)))
                       (stats.hp defender_stats)]) /\
    attacker_of side arena p2 = p /\
    match side with
    | PlayerOne => is_player_one arena (sender ctx) = true
    | PlayerTwo => is_player_one arena (sender ctx) = false /\
                   is_player_two arena (sender ctx) = true
    end.
Proof.
  intros I E2 Hw Hp Hna Hnr Hm Hlen H255.
  destruct (side_of_player arena (sender ctx) p p2 E2 Hp)
    as (side & Hs & Hatt).
  destruct (shapes_of_sides arena side p2 I E2) as [Sa Sd].
  destruct I as (Hr0 & _).
  destruct (nth_error (derive (blake2b256 (_move :: salt)) 2)
                      (Z.to_nat (round arena))) as [value|] eqn:Ev;
    [|apply nth_error_None in Ev; lia].
  pose proof (hit_rng_forward _ 2 _ value Hr0 Ev) as Hrng.
  pose proof (Z.mod_pos_bound value 38).
  destruct (attack_total_shape 25 49 _ _ _move (value mod 38 + 217) false
              ltac:(lia) ltac:(lia) ltac:(lia) Sa Sd Hm ltac:(lia))
    as (ds & Hatk).
  subst p.
  pose proof (reveal_forward arena _move salt ctx side p2 _ ds
                E2 Hw Hs Hna Hnr Hrng Hatk ltac:(lia)) as Hrev.
  exists side, ds. split; [exact Hrev|]. split; [reflexivity | exact Hs].
Qed.

Lemma reveal_wrong_move
      (arena : Arena) (_move : Z) (salt : list Z) (ctx : TxContext)
      (p2 p : Player) :
  player_two arena = Some p2 ->
  winner arena = None ->
  player_of arena (sender ctx) = Some p ->
  next_attack p = Some (blake2b256 (_move :: salt)) ->
  next_round p = round arena ->
  3 <= _move ->
  0 <= round arena ->
  (Z.to_nat (round arena)
   < length (derive (blake2b256 (_move :: salt)) 2))%nat ->
  reveal arena _move salt ctx = Aborted EWrongMove.
Proof.
  intros E2 Hw Hp Hna Hnr Hm Hr0 Hlen.
  destruct (side_of_player arena (sender ctx) p p2 E2 Hp)
    as (side & Hs & Hatt).
  destruct (nth_error (derive (blake2b256 (_move :: salt)) 2)
                      (Z.to_nat (round arena))) as [value|] eqn:Ev;
    [|apply nth_error_None in Ev; lia].
  pose proof (hit_rng_forward _ 2 _ value Hr0 Ev) as Hrng.
  subst p.
  apply (reveal_aborted_after_checks arena _move salt ctx side p2);
    try assumption.
  right. exists (value mod 38 + 217). split; [exact Hrng|].
  unfold battle.attack.
  assert (E : (_move <? 3) = false) by (apply Z.ltb_ge; lia).
  rewrite E. reflexivity.
Qed.

(** *** The length of a battle *)

Lemma open_round_bound (arena : Arena) :
  arena_inv arena -> battle_inv arena -> hits_inv arena ->
  winner arena = None -> round arena <= 24.
Proof.
  intros (_ & A2) (_ & (_ & _ & Hs1) & B2) (_ & H2) Hw.
  destruct (player_two arena) as [p2|]; [|lia].
  destruct A2 as (Hnr & _). destruct B2 as (_ & _ & Hwin).
  rewrite Hw in Hwin. destruct Hwin as [Hpos _]. destruct H2 as [Hh _].
  unfold MIN_HIT, stats.SCALING_FACTOR in *. lia.
Qed.

Lemma hits_inv_new (ctx : TxContext) (arena : Arena) (events : list Event) :
  new ctx = Ok (arena, events) -> hits_inv arena.
Proof.
  intros H. apply new_ok_inv in H.
  destruct H as (s & _ & Hr & Hp2 & _ & Hp1).
  unfold hits_inv. rewrite Hr, Hp2, Hp1. cbn [next_round]. lia.
Qed.

Lemma hits_inv_call (arena arena' : Arena) (op : Op) (events : list Event) :
  arena_inv arena -> battle_inv arena -> hits_inv arena ->
  call arena op = Ok (arena', events) ->
  hits_inv arena'.
Proof.
  intros A B Hh H.
  destruct op as [ctx | commitment ctx | _move salt ctx];
    cbn [arena_pvp.call] in H.
  - apply join_ok_inv in H. destruct H as (_ & Hp2 & s & _ & ->).
    destruct Hh as (Hr & Hh). rewrite Hp2 in Hh.
    destruct B as (_ & (_ & Hhp & _) & _).
    unfold hits_inv. cbn [round player_one player_two next_round stats
                          starting_hp].
    rewrite Hh. unfold MIN_HIT. lia.
  - apply commit_ok_inv in H.
    destruct H as (_ & p2 & Hp2 & [(_ & _ & ->) | (_ & _ & _ & ->)]);
      destruct Hh as (Hr & Hh); rewrite Hp2 in Hh;
      unfold hits_inv;
      cbn [round player_one player_two next_round stats starting_hp
           committed];
      (split; [exact Hr | exact Hh]).
  - pose proof (open_round_bound arena A B Hh) as Hopen.
    apply reveal_ok_inv in H.
    destruct H as (side & p2 & rng & ds & Hp2 & Hw & _ & _ & Hnr & _
                   & Hatk & _ & ->).
    specialize (Hopen Hw).
    destruct (shapes_of_sides arena side p2 B Hp2) as [Sa Sd].
    apply (attack_min_hit _ _ _ _ _ _ Sa Sd) in Hatk.
    destruct Hatk as (damage & Hd & ->).
    destruct Hh as (_ & Hh). rewrite Hp2 in Hh. destruct Hh as [H1 H2].
    unfold hits_inv, revealed. cbn [round player_one player_two].
    split.
    { match goal with
      | |- context [if ?c then _ else _] => destruct c; lia
      end. }
    unfold MIN_HIT in *.
    destruct side; cbn [attacker_of defender_of] in *;
      cbn [next_round stats starting_hp];
      rewrite decrease_hp_max; lia.
Qed.

Lemma reachable_hits_inv (arena : Arena) : reachable arena -> hits_inv arena.
Proof.
  induction 1 as [ctx arena events Hnew | arena op arena' events R IH Hcall].
  - eapply hits_inv_new; eassumption.
  - eapply hits_inv_call; try eassumption.
    + exact (reachable_inv blake2b256 derive_id arena R).
    + exact (reachable_battle_inv arena R).
Qed.

(** While no winner is set the round indexes a byte of every digest. *)
Lemma open_round_index (arena : Arena) (seed : list Z) (path : Z) :
  (forall bytes, length (blake2b256 bytes) = 32%nat) ->
  reachable arena -> winner arena = None ->
  0 <= round arena <= 24 /\
  (Z.to_nat (round arena) < length (derive seed path))%nat.
Proof.
  intros Hlen R Hw.
  pose proof (open_round_bound arena
                (reachable_inv blake2b256 derive_id arena R)
                (reachable_battle_inv arena R)
                (reachable_hits_inv arena R) Hw) as H24.
  destruct (reachable_battle_inv arena R) as (Hr0 & _).
  split; [lia|]. unfold arena_pvp.derive. rewrite Hlen. lia.
Qed.

(** X6. An honest reveal is always accepted: in a reachable arena without
    winner, a player whose stored commitment is the hash of the move byte
    followed by the salt, whose [next_round] is the round, and whose move
    is 0, 1 or 2, gets its reveal through.  With a hash of 32 bytes neither
    the index into the digest nor the arithmetic can fail. *)
Theorem honest_reveal_accepted
        (arena : Arena) (_move : Z) (salt : list Z) (ctx : TxContext)
        (p : Player) :
  (forall bytes, length (blake2b256 bytes) = 32%nat) ->
  reachable arena ->
  is_some (player_two arena) = true ->
  winner arena = None ->
  player_of arena (sender ctx) = Some p ->
  next_attack p = Some (blake2b256 (_move :: salt)) ->
  next_round p = round arena ->
  0 <= _move < 3 ->
  exists arena' events,
    reveal arena _move salt ctx = Ok (arena', events) /\
    exec arena (Reveal _move salt ctx) = (arena', Ok events).
Proof.
  intros Hlen R H2 Hw Hp Hna Hnr Hm.
  destruct (player_two arena) as [p2|] eqn:E2; [|discriminate].
  destruct (open_round_index arena (blake2b256 (_move :: salt)) 2 Hlen R Hw)
    as [H24 Hidx].
  destruct (reveal_accepts arena _move salt ctx p2 p
              (reachable_battle_inv arena R) E2 Hw Hp Hna Hnr Hm Hidx
              ltac:(lia))
    as (side & ds & Hrev & _).
  eexists. eexists. split; [exact Hrev|].
  unfold arena_pvp.exec. cbn [arena_pvp.call]. rewrite Hrev. reflexivity.
Qed.

(** X7. A move index of 3 or more can be committed to but never revealed:
    in a reachable arena, when every check of [reveal] up to the hash
    comparison passes, the reveal aborts with [EWrongMove] and the
    commitment stays in place. *)
Theorem invalid_move_cannot_be_revealed
        (arena : Arena) (_move : Z) (salt : list Z) (ctx : TxContext)
        (p : Player) :
  (forall bytes, length (blake2b256 bytes) = 32%nat) ->
  reachable arena ->
  is_some (player_two arena) = true ->
  winner arena = None ->
  player_of arena (sender ctx) = Some p ->
  next_attack p = Some (blake2b256 (_move :: salt)) ->
  next_round p = round arena ->
  3 <= _move ->
  reveal arena _move salt ctx = Aborted EWrongMove /\
  exec arena (Reveal _move salt ctx) = (arena, Aborted EWrongMove).
Proof.
  intros Hlen R H2 Hw Hp Hna Hnr Hm.
  destruct (player_two arena) as [p2|] eqn:E2; [|discriminate].
  destruct (open_round_index arena (blake2b256 (_move :: salt)) 2 Hlen R Hw)
    as [H24 Hidx].
  assert (Hrev : reveal arena _move salt ctx = Aborted EWrongMove)
    by (apply (reveal_wrong_move arena _move salt ctx p2 p);
        try assumption; lia).
  split; [exact Hrev | now apply exec_aborted].
Qed.

(** X8. The round counter is bounded by the damage.  Every reveal costs
    the opponent at least [MIN_HIT] hp (2.41 of at most 59) and raises the
    sender's [next_round] by one; so in a reachable arena each player's hp
    is at most the starting hp less [MIN_HIT] times the opponent's
    [next_round], the round is at most 24 while no winner is set and it
    never exceeds 25.  This bounds the counter, not the battle: an arena
    can stay without winner for ever ([stalled_forever]). *)
Theorem round_counter_bounded (arena : Arena) :
  reachable arena ->
  0 <= round arena <= 25 /\
  (winner arena = None -> round arena <= 24) /\
  forall p2,
    player_two arena = Some p2 ->
    stats.hp (stats (player_one arena))
    <= Z.max 0 (starting_hp (player_one arena) - MIN_HIT * next_round p2) /\
    stats.hp (stats p2)
    <= Z.max 0 (starting_hp p2 - MIN_HIT * next_round (player_one arena)).
Proof.
  intros R.
  pose proof (reachable_inv blake2b256 derive_id arena R) as A.
  pose proof (reachable_battle_inv arena R) as B.
  pose proof (reachable_hits_inv arena R) as Hh.
  split; [destruct B as (Hr0 & _), Hh as (H25 & _); lia|].
  split; [now apply open_round_bound|].
  intros p2 Hp2. destruct Hh as (_ & Hh). rewrite Hp2 in Hh. exact Hh.
Qed.

(** X9. The outcomes of [commit], in the order the checks are made:
    [EArenaOver] when a winner is set; [EArenaNotReady] before the second
    player joins; [EUnknownSender] for a sender who is neither player;
    [EMoveAlreadySubmitted] while the sender holds a commitment; otherwise
    the commitment, whatever its bytes, is stored in the sender's record
    and nothing else changes. *)
Theorem commit_outcomes
        (arena : Arena) (commitment : list Z) (ctx : TxContext) :
  (forall w, winner arena = Some w ->
             commit arena commitment ctx = Aborted EArenaOver) /\
  (winner arena = None -> player_two arena = None ->
   commit arena commitment ctx = Aborted EArenaNotReady) /\
  (winner arena = None -> is_some (player_two arena) = true ->
   player_of arena (sender ctx) = None ->
   commit arena commitment ctx = Aborted EUnknownSender) /\
  (winner arena = None -> is_some (player_two arena) = true ->
   forall p stored,
     player_of arena (sender ctx) = Some p ->
     next_attack p = Some stored ->
     commit arena commitment ctx = Aborted EMoveAlreadySubmitted) /\
  (winner arena = None -> is_some (player_two arena) = true ->
   forall p,
     player_of arena (sender ctx) = Some p ->
     next_attack p = None ->
     exists arena',
       commit arena commitment ctx
       = Ok (arena', [PlayerCommit (id arena)]) /\
       player_of arena' (sender ctx) = Some (committed p commitment) /\
       opponent_of arena' (sender ctx) = opponent_of arena (sender ctx) /\
       round arena' = round arena /\ winner arena' = None /\
       id arena' = id arena /\ seed arena' = seed arena).
Proof.
  split; [|split; [|split; [|split]]].
  - intros w Hw. eapply commit_over; eassumption.
  - intros Hw H2. unfold arena_pvp.commit. rewrite Hw, H2. reflexivity.
  - intros Hw H2 Hp.
    destruct (player_two arena) as [p2|] eqn:E2; [|discriminate].
    unfold arena_pvp.commit. rewrite Hw, E2.
    cbn [is_some is_none assert bind option_borrow].
    unfold arena_pvp.player_of, is_player_one, is_player_two in Hp.
    rewrite E2 in Hp.
    destruct (sender ctx =? account (player_one arena)); [discriminate|].
    destruct (sender ctx =? account p2); [discriminate|]. reflexivity.
  - intros Hw H2 p stored Hp Hs.
    destruct (player_two arena) as [p2|] eqn:E2; [|discriminate].
    unfold arena_pvp.commit. rewrite Hw, E2.
    cbn [is_some is_none assert bind option_borrow].
    apply player_of_side in Hp.
    destruct Hp as [(E1 & ->) | (E1 & E3 & E4)].
    + unfold is_player_one in E1. rewrite E1, Hs. reflexivity.
    + unfold is_player_one in E1. unfold is_player_two in E3.
      rewrite E2 in E3, E4. inversion E4; subst p2.
      rewrite E1, E3, Hs. reflexivity.
  - intros Hw H2 p Hp Hn.
    destruct (player_two arena) as [p2|] eqn:E2; [|discriminate].
    unfold arena_pvp.commit. rewrite Hw, E2.
    cbn [is_some is_none assert bind option_borrow].
    apply player_of_side in Hp.
    destruct Hp as [(E1 & ->) | (E1 & E3 & E4)].
    + unfold is_player_one in E1. rewrite E1, Hn.
      cbn [is_none assert bind]. eexists. split; [reflexivity|].
      unfold arena_pvp.player_of, arena_pvp.opponent_of, is_player_one.
      cbn [player_one player_two account round winner id seed].
      rewrite E1, E2. auto 10.
    + unfold is_player_one in E1. unfold is_player_two in E3.
      rewrite E2 in E3, E4. inversion E4; subst p2.
      rewrite E1, E3, Hn. cbn [is_none assert bind].
      eexists. split; [reflexivity|].
      unfold arena_pvp.player_of, arena_pvp.opponent_of, is_player_one,
        is_player_two.
      cbn [player_one player_two account round winner id seed committed].
      rewrite E1, E2, E3. auto 10.
Qed.

(** X10. [join] is accepted exactly once: while no second player is set,
    any sender other than the first player joins, provided the derived
    seed has the seven bytes the generator reads.  The stats of the second
    player depend on the arena's seed only, not on who joins; the new
    record has no commitment, [next_round] 0 and starts at full hp. *)
Theorem join_accepted (arena : Arena) (ctx : TxContext) :
  player_two arena = None ->
  sender ctx <> account (player_one arena) ->
  (7 <= length (derive (seed arena) 1))%nat ->
  exists s,
    generate_stats (derive (seed arena) 1) = Ok s /\
    stats_shape 25 49 s /\
    join arena ctx
    = Ok (mkArena (id arena) (seed arena) (round arena) (player_one arena)
                  (Some (mkPlayer (stats.hp s) s (sender ctx) None 0))
                  (winner arena),
          [PlayerJoined (id arena)]).
Proof.
  intros H2 Hne Hlen.
  destruct (seed_split _ Hlen)
    as (b0 & b1 & b2 & b3 & b4 & b5 & b6 & rest & Hseed).
  exists (generated b0 b1 b2 b3 b4 b5 b6).
  assert (Hgen : generate_stats (derive (seed arena) 1)
                 = Ok (generated b0 b1 b2 b3 b4 b5 b6))
    by (rewrite Hseed; apply generate_stats_total).
  split; [exact Hgen|]. split; [apply generated_shape|].
  unfold arena_pvp.join.
  assert (E : (sender ctx =? account (player_one arena)) = false)
    by (now apply Z.eqb_neq).
  rewrite E. cbn [negb assert bind]. rewrite Hgen, H2. reflexivity.
Qed.

Lemma reveal_without_commitment
      (arena : Arena) (_move : Z) (salt : list Z) (ctx : TxContext)
      (p2 p : Player) :
  player_two arena = Some p2 -> winner arena = None ->
  player_of arena (sender ctx) = Some p ->
  next_attack p = None ->
  reveal arena _move salt ctx = Aborted EPlayerOneNotReady.
Proof.
  intros H2 Hw Hp Hn. apply player_of_side in Hp.
  unfold arena_pvp.reveal. rewrite H2, Hw.
  cbn [is_some is_none assert bind].
  destruct Hp as [(E1 & ->) | (E1 & E2 & E3)].
  - rewrite E1. cbn [bind option_borrow]. rewrite Hn. reflexivity.
  - rewrite E1, E2. cbn [bind option_borrow].
    rewrite H2 in E3. inversion E3; subst p. rewrite Hn. reflexivity.
Qed.

Lemma revealed_attacker (arena : Arena) (who : address) (side : Side)
      (p2 : Player) (ds : stats.Stats) :
  player_two arena = Some p2 ->
  match side with
  | PlayerOne => is_player_one arena who = true
  | PlayerTwo => is_player_one arena who = false /\
                 is_player_two arena who = true
  end ->
  player_of (revealed arena side p2 ds) who
  = Some (mkPlayer (starting_hp (attacker_of side arena p2))
                   (stats (attacker_of side arena p2))
                   (account (attacker_of side arena p2))
                   None (round arena + 1)).
Proof.
  intros H2 Hs.
  unfold arena_pvp.player_of, is_player_one, is_player_two, revealed in *.
  destruct side; cbn [attacker_of defender_of player_one player_two account].
  - rewrite Hs. reflexivity.
  - destruct Hs as [E1 E2]. rewrite H2 in E2. rewrite E1, E2. reflexivity.
Qed.

(** X11. A reveal consumes the commitment: after a successful reveal the
    sender's record holds no commitment and has [next_round] one above the
    old round, its stats are untouched, and a further reveal by the same
    sender aborts, with [EPlayerOneNotReady] while no winner is set and
    with [EArenaOver] afterwards, until the sender commits again. *)
Theorem reveal_consumes_commitment
        (arena : Arena) (_move : Z) (salt : list Z) (ctx : TxContext)
        (arena' : Arena) (events : list Event) :
  reveal arena _move salt ctx = Ok (arena', events) ->
  exists p p',
    player_of arena (sender ctx) = Some p /\
    player_of arena' (sender ctx) = Some p' /\
    next_attack p' = None /\
    next_round p' = round arena + 1 /\
    stats p' = stats p /\
    forall _move' salt',
      reveal arena' _move' salt' ctx
      = Aborted (if is_some (winner arena') then EArenaOver
                 else EPlayerOneNotReady).
Proof.
  intros H. apply reveal_ok_inv in H.
  destruct H as (side & p2 & rng & ds & Hp2 & _ & Hs & _ & _ & _ & _ & _ & ->).
  destruct (sides_of_reveal arena (sender ctx) side p2 Hp2 Hs) as (Hp & _).
  pose proof (revealed_attacker arena (sender ctx) side p2 ds Hp2 Hs) as Hp'.
  eexists. eexists. split; [exact Hp|]. split; [exact Hp'|].
  cbn [next_attack next_round stats].
  split; [reflexivity|]. split; [reflexivity|]. split; [reflexivity|].
  intros _move' salt'.
  assert (H2' : exists q, player_two (revealed arena side p2 ds) = Some q)
    by (unfold revealed; cbn [player_two]; eexists; reflexivity).
  destruct H2' as (q & Hq).
  destruct (winner (revealed arena side p2 ds)) as [w|] eqn:Ew;
    cbn [is_some].
  - eapply reveal_over; eassumption.
  - eapply reveal_without_commitment; try eassumption. reflexivity.
Qed.

(** X12. What a successful reveal does to the defender and what it
    reports: the defender loses at least [MIN_DAMAGE] hp, saturating at 0,
    and keeps every other stat; the events are [PlayerReveal] with the move
    and [RoundResult] with the attacker's hp, which the reveal does not
    change, and the defender's hp after the hit. *)
Theorem reveal_hits_the_defender
        (arena : Arena) (_move : Z) (salt : list Z) (ctx : TxContext)
        (arena' : Arena) (events : list Event) :
  reveal arena _move salt ctx = Ok (arena', events) ->
  exists attacker defender defender' damage,
    player_of arena (sender ctx) = Some attacker /\
    opponent_of arena (sender ctx) = Some defender /\
    opponent_of arena' (sender ctx) = Some defender' /\
    MIN_DAMAGE <= damage /\
    stats defender' = stats.decrease_hp (stats defender) damage /\
    stats.hp (stats defender')
    = Z.max 0 (stats.hp (stats defender) - damage) /\
    events = [PlayerReveal (id arena) _move;
              RoundResult (id arena) (stats.hp (stats attacker))
                          (stats.hp (stats defender'))].
Proof.
  intros H. pose proof H as H0. apply reveal_ok_inv in H.
  destruct H as (side & p2 & rng & ds & Hp2 & Hw & Hs & Hna & Hnr & Hrng
                 & Hatk & Hround & ->).
  pose proof (reveal_forward arena _move salt ctx side p2 rng ds
                Hp2 Hw Hs Hna Hnr Hrng Hatk Hround) as Hf.
  rewrite Hf in H0. apply Ok_inj in H0.
  assert (Hev : events
                = [PlayerReveal (id arena) _move;
                   RoundResult (id arena)
                     (stats.hp (stats (attacker_of side arena p2)))
                     (stats.hp ds)])
    by (inversion H0; reflexivity).
  destruct (sides_of_reveal arena (sender ctx) side p2 Hp2 Hs)
    as (Hp & Ho & _).
  pose proof (revealed_sides arena (sender ctx) side p2 ds Hp2 Hs) as Ho'.
  apply attack_min_damage in Hatk. destruct Hatk as (damage & Hd & Hds).
  eexists. eexists. eexists. exists damage.
  split; [exact Hp|]. split; [exact Ho|]. split; [exact Ho'|].
  cbn [stats]. split; [apply Hd|]. split; [exact Hds|].
  split; [rewrite Hds; apply decrease_hp_max | exact Hev].
Qed.

(** X13. The outcome table of [reveal] in a reachable arena, each outcome
    from its condition on the state, in the order the checks are made:
    [EArenaNotReady] before the second player joins; [EArenaOver] once a
    winner is set; [EUnknownSender] for a sender who is neither player;
    [EPlayerOneNotReady] for a player without commitment;
    [EMoveAlreadySubmitted] when the player's [next_round] is not the
    round; [EInvalidCommitment] when the hash of move and salt is not the
    stored commitment; [EWrongMove] for a move of 3 or more; and for a
    move 0, 1 or 2 the reveal returns.  The conditions exclude one another
    and cover every move that is a byte, so with a hash of 32 bytes the
    reveal never aborts on the arithmetic or on an index. *)
Theorem reveal_outcomes
        (arena : Arena) (_move : Z) (salt : list Z) (ctx : TxContext) :
  (forall bytes, length (blake2b256 bytes) = 32%nat) ->
  reachable arena ->
  (player_two arena = None ->
   reveal arena _move salt ctx = Aborted EArenaNotReady) /\
  (is_some (player_two arena) = true ->
   forall w, winner arena = Some w ->
   reveal arena _move salt ctx = Aborted EArenaOver) /\
  (is_some (player_two arena) = true -> winner arena = None ->
   player_of arena (sender ctx) = None ->
   reveal arena _move salt ctx = Aborted EUnknownSender) /\
  (is_some (player_two arena) = true -> winner arena = None ->
   forall p,
     player_of arena (sender ctx) = Some p ->
     next_attack p = None ->
     reveal arena _move salt ctx = Aborted EPlayerOneNotReady) /\
  (is_some (player_two arena) = true -> winner arena = None ->
   forall p stored,
     player_of arena (sender ctx) = Some p ->
     next_attack p = Some stored ->
     next_round p <> round arena ->
     reveal arena _move salt ctx = Aborted EMoveAlreadySubmitted) /\
  (is_some (player_two arena) = true -> winner arena = None ->
   forall p stored,
     player_of arena (sender ctx) = Some p ->
     next_attack p = Some stored ->
     next_round p = round arena ->
     blake2b256 (_move :: salt) <> stored ->
     reveal arena _move salt ctx = Aborted EInvalidCommitment) /\
  (is_some (player_two arena) = true -> winner arena = None ->
   forall p,
     player_of arena (sender ctx) = Some p ->
     next_attack p = Some (blake2b256 (_move :: salt)) ->
     next_round p = round arena ->
     3 <= _move ->
     reveal arena _move salt ctx = Aborted EWrongMove) /\
  (is_some (player_two arena) = true -> winner arena = None ->
   forall p,
     player_of arena (sender ctx) = Some p ->
     next_attack p = Some (blake2b256 (_move :: salt)) ->
     next_round p = round arena ->
     0 <= _move < 3 ->
     exists arena' events,
       reveal arena _move salt ctx = Ok (arena', events)).
Proof.
  intros Hlen R.
  split; [now apply reveal_not_ready|].
  split.
  { intros H2 w Hw.
    destruct (player_two arena) as [p2|] eqn:E2; [|discriminate].
    eapply reveal_over; eassumption. }
  split.
  { intros H2 Hw Hp.
    destruct (player_two arena) as [p2|] eqn:E2; [|discriminate].
    unfold arena_pvp.reveal. rewrite E2, Hw.
    cbn [is_some is_none assert bind].
    unfold arena_pvp.player_of in Hp.
    destruct (is_player_one arena (sender ctx)); [discriminate|].
    destruct (is_player_two arena (sender ctx)); [congruence|].
    reflexivity. }
  split.
  { intros H2 Hw p Hp Hna.
    destruct (player_two arena) as [p2|] eqn:E2; [|discriminate].
    eapply reveal_without_commitment; eassumption. }
  split.
  { intros H2 Hw p stored Hp Hna Hnr.
    destruct (player_two arena) as [p2|] eqn:E2; [|discriminate].
    now apply (reveal_checks blake2b256 arena _move salt ctx p2 p stored
                 E2 Hw Hp Hna). }
  split.
  { intros H2 Hw p stored Hp Hna Hnr Hne.
    destruct (player_two arena) as [p2|] eqn:E2; [|discriminate].
    now apply (reveal_checks blake2b256 arena _move salt ctx p2 p stored
                 E2 Hw Hp Hna). }
  split.
  { intros H2 Hw p Hp Hna Hnr Hm.
    destruct (player_two arena) as [p2|] eqn:E2; [|discriminate].
    destruct (open_round_index arena (blake2b256 (_move :: salt)) 2
                Hlen R Hw) as [H24 Hidx].
    apply (reveal_wrong_move arena _move salt ctx p2 p);
      try assumption; lia. }
  intros H2 Hw p Hp Hna Hnr Hm.
  destruct (player_two arena) as [p2|] eqn:E2; [|discriminate].
  destruct (open_round_index arena (blake2b256 (_move :: salt)) 2 Hlen R Hw)
    as [H24 Hidx].
  destruct (reveal_accepts arena _move salt ctx p2 p
              (reachable_battle_inv arena R) E2 Hw Hp Hna Hnr Hm Hidx
              ltac:(lia))
    as (side & ds & Hrev & _).
  eexists. eexists. exact Hrev.
Qed.

(** X14. The client's round trip: in a reachable arena without winner, a
    player who holds no commitment and has not yet played the round sends
    the client's [commit] for a move 0, 1 or 2 and then the client's
    [reveal] of the same move; with a hash of 32 bytes both transactions
    are accepted, and the reveal reports the move and leaves the player
    without commitment, one round ahead. *)
Theorem client_commit_then_reveal
        (arena : Arena) (move : Z) (ctx : TxContext) (p : Player) :
  (forall bytes, length (blake2b256 bytes) = 32%nat) ->
  reachable arena ->
  is_some (player_two arena) = true ->
  winner arena = None ->
  player_of arena (sender ctx) = Some p ->
  next_attack p = None ->
  next_round p = round arena ->
  0 <= move < 3 ->
  exists arena1 arena2 events p',
    pvp_tx.commit blake2b256 arena move ctx
    = Ok (arena1, [PlayerCommit (id arena)]) /\
    pvp_tx.reveal blake2b256 arena1 move ctx
    = Ok (arena2, PlayerReveal (id arena) move :: events) /\
    player_of arena2 (sender ctx) = Some p' /\
    next_attack p' = None /\
    next_round p' = round arena + 1.
Proof.
  intros Hlen R H2 Hw Hp Hn Hnr Hm.
  destruct (player_two arena) as [p2|] eqn:E2; [|discriminate].
  unfold pvp_tx.commit, pvp_tx.reveal.
  rewrite (Z.mod_small move 256) by lia.
  set (hash := blake2b256 (move :: pvp_tx.salt)).
  destruct (commit_accepted arena hash ctx p2 p E2 Hw Hp Hn)
    as (arena1 & Hc & Hp1 & Hr1 & Hw1 & H21).
  assert (R1 : reachable arena1).
  { pose proof (reachable_exec blake2b256 derive_id arena (Commit hash ctx) R)
      as R1.
    unfold arena_pvp.exec in R1. cbn [arena_pvp.call] in R1.
    rewrite Hc in R1. exact R1. }
  assert (Hid : id arena1 = id arena).
  { destruct (call_static arena arena1 (Commit hash ctx)
                [PlayerCommit (id arena)] Hc) as (Hid & _).
    exact Hid. }
  pose proof (reachable_battle_inv arena1 R1) as I.
  destruct (player_two arena1) as [p21|] eqn:E21; [|discriminate].
  destruct (side_of_player arena1 (sender ctx) _ p21 E21 Hp1)
    as (side & Hs & Hatt).
  destruct (shapes_of_sides arena1 side p21 I E21) as [Sa Sd].
  destruct I as (Hr0 & _).
  destruct (open_round_index arena1 hash 2 Hlen R1 Hw1) as [H24 Hidx].
  destruct (nth_error (derive hash 2) (Z.to_nat (round arena1)))
    as [value|] eqn:Ev;
    [|apply nth_error_None in Ev; lia].
  pose proof (hit_rng_forward _ 2 _ value Hr0 Ev) as Hrng.
  pose proof (Z.mod_pos_bound value 38).
  destruct (attack_total_shape 25 49 _ _ move (value mod 38 + 217) false
              ltac:(lia) ltac:(lia) ltac:(lia) Sa Sd Hm ltac:(lia))
    as (ds & Hatk).
  assert (Hna : next_attack (attacker_of side arena1 p21) = Some hash)
    by (rewrite Hatt; reflexivity).
  assert (Hnr1 : next_round (attacker_of side arena1 p21) = round arena1)
    by (rewrite Hatt; cbn [committed next_round]; lia).
  pose proof (reveal_forward arena1 move pvp_tx.salt ctx side p21 _ ds
                E21 Hw1 Hs Hna Hnr1 Hrng Hatk ltac:(lia)) as Hrev.
  rewrite Hid in Hrev. clear Hatt Hna Hnr1 Hrng Hatk Sa Sd.
  destruct side; cbn [attacker_of defender_of] in *;
    exists arena1; eexists; eexists; eexists;
    (split; [exact Hc|]); (split; [exact Hrev|]);
    unfold revealed, arena_pvp.player_of, is_player_one, is_player_two;
    cbn [attacker_of defender_of player_one player_two account].
  - unfold is_player_one in Hs. rewrite Hs.
    split; [reflexivity|]. cbn [next_attack next_round].
    split; [reflexivity|lia].
  - destruct Hs as [Hs1 Hs2]. unfold is_player_one in Hs1.
    unfold is_player_two in Hs2. rewrite E21 in Hs2.
    rewrite Hs1, Hs2.
    split; [reflexivity|]. cbn [next_attack next_round].
    split; [reflexivity|lia].
Qed.

(** C1. The reveal that completes the pair of a round does not always
    advance the round.  In a reachable arena without winner an honest
    reveal (stored commitment matching, [next_round] equal to the round,
    move 0, 1 or 2) returns, clears the sender's commitment, sets the
    sender's [next_round] to the round plus one and leaves the defender's
    commitment and [next_round] alone; the round grows by one exactly when
    the defender holds no commitment and has [next_round] equal to the old
    round plus one, and stays otherwise.  So a reveal by only one player
    leaves the round unchanged; but so does the second reveal of the pair
    when the defender, who has revealed, already holds a commitment for
    the next round: both players have then revealed for the round, the
    round keeps its value whatever is sent afterwards, and no winner is
    ever set if none is set by this reveal. *)
Theorem last_reveal_may_leave_round
        (arena : Arena) (_move : Z) (salt : list Z) (ctx : TxContext)
        (attacker defender : Player) :
  (forall bytes, length (blake2b256 bytes) = 32%nat) ->
  reachable arena ->
  winner arena = None ->
  player_of arena (sender ctx) = Some attacker ->
  opponent_of arena (sender ctx) = Some defender ->
  next_attack attacker = Some (blake2b256 (_move :: salt)) ->
  next_round attacker = round arena ->
  0 <= _move < 3 ->
  exists arena' events attacker' defender',
    reveal arena _move salt ctx = Ok (arena', events) /\
    player_of arena' (sender ctx) = Some attacker' /\
    opponent_of arena' (sender ctx) = Some defender' /\
    next_attack attacker' = None /\
    next_round attacker' = round arena + 1 /\
    next_attack defender' = next_attack defender /\
    next_round defender' = next_round defender /\
    (round arena' = round arena + 1 <->
     next_attack defender' = None /\
     next_round defender' = round arena + 1) /\
    (round arena' = round arena + 1 \/ round arena' = round arena) /\
    (next_round defender = round arena -> round arena' = round arena) /\
    (next_round defender = round arena + 1 ->
     is_some (next_attack defender) = true ->
     round arena' = round arena /\
     stalled arena' (round arena) /\
     forall ops,
       round (exec_all arena' ops) = round arena /\
       winner (exec_all arena' ops) = winner arena').
Proof.
  intros Hlen R Hw Hp Ho Hna Hnr Hm.
  assert (E2 : exists p2, player_two arena = Some p2).
  { unfold arena_pvp.opponent_of, is_player_two in Ho.
    destruct (player_two arena) as [p2|]; [now exists p2|].
    destruct (is_player_one arena (sender ctx)); discriminate. }
  destruct E2 as (p2 & E2).
  destruct (open_round_index arena (blake2b256 (_move :: salt)) 2 Hlen R Hw)
    as [H24 Hidx].
  destruct (reveal_accepts arena _move salt ctx p2 attacker
              (reachable_battle_inv arena R) E2 Hw Hp Hna Hnr Hm Hidx
              ltac:(lia))
    as (side & ds & Hrev & Hatt & Hs).
  destruct (sides_of_reveal arena (sender ctx) side p2 E2 Hs)
    as (_ & Ho' & _).
  rewrite Ho in Ho'. inversion Ho' as [Hd]. clear Ho'. subst defender.
  pose proof (revealed_attacker arena (sender ctx) side p2 ds E2 Hs) as Hpa.
  pose proof (revealed_sides arena (sender ctx) side p2 ds E2 Hs) as Hpd.
  rewrite Hatt in Hpa.
  destruct (reveal_round_step blake2b256 arena _move salt ctx _ _ Hrev)
    as (d0 & d1 & Hd0 & Hd1 & Hiff & Hstep & Hone).
  rewrite Ho in Hd0. inversion Hd0; subst d0; clear Hd0.
  rewrite Hpd in Hd1. inversion Hd1; subst d1; clear Hd1.
  cbn [next_attack next_round] in Hiff.
  eexists. eexists. eexists. eexists.
  split; [exact Hrev|]. split; [exact Hpa|]. split; [exact Hpd|].
  cbn [next_attack next_round].
  split; [reflexivity|]. split; [reflexivity|].
  split; [reflexivity|]. split; [reflexivity|].
  split; [exact Hiff|]. split; [exact Hstep|]. split; [exact Hone|].
  intros Hdr Hdc.
  assert (Hsame : round (revealed arena side p2 ds) = round arena).
  { destruct Hstep as [Hup | Hsame]; [|exact Hsame].
    apply Hiff in Hup. destruct Hup as [Hnone _].
    rewrite Hnone in Hdc. discriminate. }
  assert (S : stalled (revealed arena side p2 ds) (round arena)).
  { split; [exact Hsame|].
    clear - Hdr.
    unfold revealed. cbn [player_one player_two].
    destruct side; cbn [attacker_of defender_of next_round] in *.
    - split; [reflexivity|]. eexists. split; [reflexivity | exact Hdr].
    - split; [exact Hdr|]. eexists. split; reflexivity. }
  split; [exact Hsame|]. split; [exact S|].
  intros ops. split.
  - exact (proj1 (stalled_forever blake2b256 ops _ _ S)).
  - exact (stalled_forever_winner blake2b256 ops _ _ S).
Qed.

End BattleProperties.

(** * Further properties of the stats and of the damage formula *)

(** X15. [stats::new] on byte arguments: a level above 100 is rejected with
    [EIncorrectLevel]; otherwise the stats are returned with the hp scaled
    by SCALING_FACTOR, which cannot overflow for a byte. *)
Theorem stats_new_outcomes
        (hp attack defence special_attack special_defence speed level : Z)
        (types : list Z) :
  0 <= hp <= 255 ->
  (level <= 100 ->
   stats.new hp attack defence special_attack special_defence speed level
             types
   = Ok (stats.mkStats (hp * stats.SCALING_FACTOR) attack defence
                       special_attack special_defence speed level types)) /\
  (100 < level ->
   stats.new hp attack defence special_attack special_defence speed level
             types
   = Aborted EIncorrectLevel).
Proof.
  intros Hhp. unfold stats.new. split; intros Hl.
  - assert (E : (level <=? 100) = true) by (apply Z.leb_le; lia).
    rewrite E. cbn [assert bind].
    rewrite mul_u64_ok
      by (unfold stats.SCALING_FACTOR, MAX_U64; lia).
    reflexivity.
  - assert (E : (level <=? 100) = false) by (apply Z.leb_gt; lia).
    rewrite E. reflexivity.
Qed.

(** X16. [stats::level_up] raises the level by one and touches nothing
    else; it aborts on the arithmetic only at level 255.  It does not keep
    the bound [stats::new] enforces: from level 100 it returns stats of
    level 101, which [stats::new] rejects. *)
Theorem level_up_outcomes (stat : stats.Stats) :
  0 <= stats.level stat ->
  (stats.level stat < 255 ->
   stats.level_up stat
   = Ok (stats.mkStats (stats.hp stat) (stats.attack stat)
           (stats.defence stat) (stats.special_attack stat)
           (stats.special_defence stat) (stats.speed stat)
           (stats.level stat + 1) (stats.types stat))) /\
  (255 <= stats.level stat ->
   stats.level_up stat = Aborted ARITHMETIC_ERROR) /\
  (stats.level stat = 100 ->
   exists stat',
     stats.level_up stat = Ok stat' /\
     forall hp,
       stats.new hp (stats.attack stat') (stats.defence stat')
                 (stats.special_attack stat') (stats.special_defence stat')
                 (stats.speed stat') (stats.level stat') (stats.types stat')
       = Aborted EIncorrectLevel).
Proof.
  intros Hl. unfold stats.level_up. split; [|split].
  - intros H. rewrite add_u8_ok by lia. reflexivity.
  - intros H. unfold lift2, add_u8, checked, MAX_U8. cbn [bind].
    assert (E : (stats.level stat + 1 <=? 255) = false)
      by (apply Z.leb_gt; lia).
    rewrite E, andb_false_r. reflexivity.
  - intros H. rewrite add_u8_ok by lia. eexists. split; [reflexivity|].
    intros hp. cbn [stats.level stats.attack stats.defence
                    stats.special_attack stats.special_defence stats.speed
                    stats.types].
    unfold stats.new. rewrite H. reflexivity.
Qed.

(** X17. The input checks of [physical_damage] and [special_damage]: a
    random value outside [217,255] aborts with [EIncorrectRandomValue]
    whatever the move power; with a random value in range, a move power of
    0 aborts with [EIncorrectMovePower]. *)
Theorem damage_input_checks
        (attacker defender : stats.Stats) (move_power random : Z) :
  (random < 217 \/ 255 < random ->
   pokemon_v1.physical_damage attacker defender move_power random
   = Aborted EIncorrectRandomValue /\
   pokemon_v1.special_damage attacker defender move_power random
   = Aborted EIncorrectRandomValue) /\
  (217 <= random <= 255 -> move_power <= 0 ->
   pokemon_v1.physical_damage attacker defender move_power random
   = Aborted EIncorrectMovePower /\
   pokemon_v1.special_damage attacker defender move_power random
   = Aborted EIncorrectMovePower).
Proof.
  unfold pokemon_v1.physical_damage, pokemon_v1.special_damage.
  split.
  - intros Hr.
    assert (E : ((217 <=? random) && (random <=? 255)) = false).
    { apply andb_false_iff. destruct Hr; [left; apply Z.leb_gt
                                        | right; apply Z.leb_gt]; lia. }
    rewrite E. split; reflexivity.
  - intros Hr Hp.
    assert (E : ((217 <=? random) && (random <=? 255)) = true).
    { apply andb_true_iff. split; apply Z.leb_le; lia. }
    assert (E' : (0 <? move_power) = false) by (apply Z.ltb_ge; lia).
    rewrite E, E'. split; reflexivity.
Qed.

(** X18. For byte stats with level at most 100, an attack stat at most
    five times the opposing defence stat and a move power up to 80, both
    damage functions return, without overflow, a value of at least
    [MIN_RAW_DAMAGE] (1.7 hp). *)
Theorem damage_returns_within_bounds
        (attacker defender : stats.Stats) (move_power random : Z) :
  0 <= stats.level attacker <= 100 ->
  0 < move_power <= 80 -> 217 <= random <= 255 ->
  (0 <= stats.attack attacker <= 255 ->
   0 < stats.defence defender ->
   stats.attack attacker <= 5 * stats.defence defender ->
   exists d,
     pokemon_v1.physical_damage attacker defender move_power random = Ok d /\
     MIN_RAW_DAMAGE <= d <= 40000000000) /\
  (0 <= stats.special_attack attacker <= 255 ->
   0 < stats.special_defence defender ->
   stats.special_attack attacker <= 5 * stats.special_defence defender ->
   exists d,
     pokemon_v1.special_damage attacker defender move_power random = Ok d /\
     MIN_RAW_DAMAGE <= d <= 40000000000).
Proof.
  intros Hl Hp Hr.
  assert (E : ((217 <=? random) && (random <=? 255)) = true).
  { apply andb_true_iff. split; apply Z.leb_le; lia. }
  assert (E' : (0 <? move_power) = true) by (apply Z.ltb_lt; lia).
  unfold pokemon_v1.physical_damage, pokemon_v1.special_damage.
  rewrite E, E'. cbn [assert bind].
  split; intros Ha Hd Hratio.
  - destruct (damage_total_ratio _ _ _ _ _ Hl Ha Hd Hratio Hp Hr)
      as (d & Hdmg & Hrange).
    exists d. split; [exact Hdmg|].
    pose proof (damage_min _ _ _ _ _ _ Hdmg (proj1 Hr)). lia.
  - destruct (damage_total_ratio _ _ _ _ _ Hl Ha Hd Hratio Hp Hr)
      as (d & Hdmg & Hrange).
    exists d. split; [exact Hdmg|].
    pose proof (damage_min _ _ _ _ _ _ Hdmg (proj1 Hr)). lia.
Qed.

(** X19. The damage formula is monotone: when both computations return,
    more attack, less defence and a higher random roll never give less
    damage. *)
Theorem damage_is_monotone
        (level a1 a2 d1 d2 move_power r1 r2 x1 x2 : Z) :
  pokemon_v1.damage level a1 d1 move_power r1 stats.scaling = Ok x1 ->
  pokemon_v1.damage level a2 d2 move_power r2 stats.scaling = Ok x2 ->
  a1 <= a2 -> 0 < d2 <= d1 -> 0 <= r1 <= r2 ->
  x1 <= x2.
Proof.
  intros H1 H2 Ha Hd Hr.
  unfold pokemon_v1.damage in H1, H2. inv_M.
  unfold stats.scaling, stats.SCALING_FACTOR in *.
  rewrite ?Z.mul_1_r in *.
  apply damage_formula_mono; lia.
Qed.

(** * Further properties of [battle::attack] *)

(** X20. A hit that returns lowers the defender's hp by at least
    [MIN_DAMAGE] (0.85 hp), saturating at 0, and leaves every other stat of
    the defender as it was; a defender with positive hp always loses hp. *)
Theorem attack_effect
        (attacker defender defender' : stats.Stats) (_move rng : Z)
        (debug : bool) :
  battle.attack attacker defender _move rng debug = Ok defender' ->
  exists damage,
    MIN_DAMAGE <= damage /\
    defender'
    = stats.set_hp defender (Z.max 0 (stats.hp defender - damage)) /\
    (0 < stats.hp defender -> stats.hp defender' < stats.hp defender).
Proof.
  intros H. apply attack_min_damage in H.
  destruct H as (damage & Hd & ->).
  exists damage. split; [apply Hd|]. split.
  - unfold stats.decrease_hp.
    destruct (stats.hp defender <? damage) eqn:E;
      [apply Z.ltb_lt in E | apply Z.ltb_ge in E]; f_equal; lia.
  - intros Hpos. rewrite decrease_hp_max. unfold MIN_DAMAGE in Hd. lia.
Qed.

Lemma bind_ext {A B : Type} (m : M A) (k1 k2 : A -> M B) :
  (forall a, m = Ok a -> k1 a = k2 a) -> bind m k1 = bind m k2.
Proof. intros H. destruct m as [a|e]; [now apply H | reflexivity]. Qed.

(** X21. The [debug] flag of [battle::attack] only prints: the values it
    computes for printing cannot abort unless the attack itself does, so
    the call returns or aborts alike with and without it. *)
Theorem debug_flag_is_inert
        (attacker defender : stats.Stats) (_move rng : Z) :
  battle.attack attacker defender _move rng true
  = battle.attack attacker defender _move rng false.
Proof.
  unfold battle.attack.
  apply bind_ext. intros u Hmove.
  apply assert_ok_inv, Z.ltb_lt in Hmove.
  apply bind_ext. intros attacker_type _.
  apply bind_ext. intros defender_type _.
  apply bind_ext. intros move_power Hpow.
  apply bind_ext. intros raw Hraw.
  apply bind_ext. intros row Hrow.
  apply bind_ext. intros effectiveness Heff.
  apply borrow_ok_inv in Hpow, Hrow, Heff.
  destruct Hpow as [Hm0 _], Hrow as [_ Hrow], Heff as [_ Heff].
  pose proof (effectiveness_min _move defender_type effectiveness row
                (conj Hm0 Hmove) Hrow Heff) as He.
  assert (Hrange : 0 <= raw <= MAX_U64).
  { unfold pokemon_v1.physical_damage in Hraw.
    apply bind_ok_inv in Hraw. destruct Hraw as (u1 & _ & Hraw).
    apply bind_ok_inv in Hraw. destruct Hraw as (u2 & _ & Hraw).
    apply damage_ok_inv in Hraw; [apply Hraw | reflexivity]. }
  rewrite (div_u64_ok raw 1000000000) by lia. rewrite !bind_Ok.
  unfold battle.EFF_SCALING.
  destruct (Z_le_gt_dec (raw * effectiveness) MAX_U64) as [Hin|Hover].
  - rewrite (mul_div_u64_ok raw effectiveness 10) by lia.
    assert (Hq : 0 <= raw * effectiveness / 10 <= MAX_U64).
    { split; [apply Z.div_pos; lia|].
      apply Z.le_trans with (raw * effectiveness); [|lia].
      apply Z.div_le_upper_bound; lia. }
    rewrite div_u64_ok by lia. reflexivity.
  - assert (Hab : #raw *! #effectiveness = Aborted ARITHMETIC_ERROR).
    { unfold lift2, mul_u64, checked. cbn [bind].
      assert (E : (raw * effectiveness <=? MAX_U64) = false)
        by (apply Z.leb_gt; lia).
      rewrite E, andb_false_r. reflexivity. }
    rewrite Hab. reflexivity.
Qed.

(** X22. What [battle::attack] rejects before any damage is computed: a
    move index of 3 or more with [EWrongMove]; and, for a valid move, an
    attacker or a defender without a type with the out-of-bounds abort of
    [vector::borrow]. *)
Theorem attack_rejects
        (attacker defender : stats.Stats) (_move rng : Z) (debug : bool) :
  (3 <= _move ->
   battle.attack attacker defender _move rng debug = Aborted EWrongMove) /\
  (_move < 3 ->
   stats.types attacker = [] \/ stats.types defender = [] ->
   battle.attack attacker defender _move rng debug
   = Aborted EINDEX_OUT_OF_BOUNDS).
Proof.
  unfold battle.attack. split.
  - intros H. assert (E : (_move <? 3) = false) by (apply Z.ltb_ge; lia).
    rewrite E. reflexivity.
  - intros H Ht. assert (E : (_move <? 3) = true) by (apply Z.ltb_lt; lia).
    rewrite E. cbn [assert bind].
    destruct (stats.types attacker) as [|ta rest] eqn:Ea; [reflexivity|].
    destruct Ht as [Ht | Ht]; [discriminate|]. rewrite Ht. reflexivity.
Qed.

(** * The battle against the bot *)

Lemma bot_smoothed_range (b : Z) : 30 <= (b mod 60 + 60) / 2 <= 59.
Proof.
  pose proof (Z.mod_pos_bound b 60).
  split.
  - apply Z.div_le_lower_bound; lia.
  - assert (H60 : (b mod 60 + 60) / 2 < 60)
      by (apply Z.div_lt_upper_bound; lia).
    lia.
Qed.

Lemma bot_smooth_ok (b : Z) : arena.smooth b = Ok ((b mod 60 + 60) / 2).
Proof.
  unfold arena.smooth.
  pose proof (Z.mod_pos_bound b 60).
  pose proof (bot_smoothed_range b) as Hr.
  rewrite rem_u8_ok by lia.
  rewrite add_u8_ok by lia.
  rewrite div_u8_ok by lia.
  rewrite bind_Ok.
  destruct ((b mod 60 + 60) / 2 =? 0) eqn:E; [apply Z.eqb_eq in E; lia|].
  reflexivity.
Qed.

Lemma bot_generate_stats_total (b0 b1 b2 b3 b4 b5 b6 : Z) (rest : list Z) :
  arena.generate_stats (b0 :: b1 :: b2 :: b3 :: b4 :: b5 :: b6 :: rest)
  = Ok (stats.mkStats ((10 + (b0 mod 60 + 60) / 2) * stats.SCALING_FACTOR)
          ((b1 mod 60 + 60) / 2) ((b2 mod 60 + 60) / 2)
          ((b3 mod 60 + 60) / 2) ((b4 mod 60 + 60) / 2)
          ((b5 mod 60 + 60) / 2) 10 [b6 mod 3]).
Proof.
  unfold arena.generate_stats.
  repeat match goal with
         | |- context [borrow ?v ?i] =>
             change (borrow v i) with (Ok (nth (Z.to_nat i) v 0));
             cbv beta iota delta [nth Z.to_nat Pos.to_nat Pos.iter_op
                                  Init.Nat.add]
         end.
  rewrite !bind_Ok, !bot_smooth_ok, !bind_Ok.
  pose proof (bot_smoothed_range b0).
  rewrite add_u8_ok by lia. rewrite bind_Ok.
  repeat rewrite ?bot_smooth_ok, ?bind_Ok.
  rewrite rem_u8_ok by lia. rewrite bind_Ok.
  unfold stats.new. change (10 <=? 100) with true. unfold assert.
  rewrite bind_Ok.
  rewrite mul_u64_ok by (unfold stats.SCALING_FACTOR, MAX_U64; lia).
  reflexivity.
Qed.

Lemma bot_generate_stats_ok_inv (seed : list Z) (s : stats.Stats) :
  arena.generate_stats seed = Ok s ->
  (7 <= length seed)%nat /\
  stats_shape 30 59 s /\
  40 * stats.SCALING_FACTOR <= stats.hp s <= 69 * stats.SCALING_FACTOR.
Proof.
  intros H.
  destruct seed as [|b0 [|b1 [|b2 [|b3 [|b4 [|b5 [|b6 rest]]]]]]];
    try (unfold arena.generate_stats in H;
         repeat (apply bind_ok_inv in H; destruct H as (? & ? & H));
         repeat match goal with
                | K : borrow _ _ = Ok _ |- _ =>
                    apply borrow_ok_inv in K; destruct K as [_ K];
                    cbn in K; try discriminate K
                end; fail).
  rewrite bot_generate_stats_total in H. apply Ok_inj in H. subst s.
  pose proof (bot_smoothed_range b0). pose proof (bot_smoothed_range b1).
  pose proof (bot_smoothed_range b2). pose proof (bot_smoothed_range b3).
  pose proof (bot_smoothed_range b4). pose proof (bot_smoothed_range b5).
  pose proof (Z.mod_pos_bound b6 3).
  split; [cbn; lia|].
  unfold stats_shape.
  cbn [stats.hp stats.attack stats.defence stats.special_attack
       stats.special_defence stats.speed stats.level stats.types].
  unfold stats.SCALING_FACTOR.
  repeat split; try lia. exists (b6 mod 3). split; [reflexivity | lia].
Qed.

(** X23. The generator of the battle against the bot smooths with 60 where
    the two-player arena uses 50: the value before the comparison,
    ((b mod 60) + 60) / 2, lies in [30,59], the branch returning 10 is never
    taken, and the generated stats have level 10, non-hp stats in [30,59],
    one type below 3 and an hp in [40,69] * SCALING_FACTOR.  The generator
    returns exactly on seeds of at least seven bytes. *)
Theorem bot_generate_stats_contract (b : Z) (seed : list Z) :
  (arena.smooth b = Ok ((b mod 60 + 60) / 2) /\
   30 <= (b mod 60 + 60) / 2 <= 59) /\
  ((7 <= length seed)%nat ->
   exists s,
     arena.generate_stats seed = Ok s /\
     stats_shape 30 59 s /\
     40 * stats.SCALING_FACTOR <= stats.hp s <= 69 * stats.SCALING_FACTOR) /\
  ((length seed < 7)%nat ->
   arena.generate_stats seed = Aborted EINDEX_OUT_OF_BOUNDS).
Proof.
  split; [split; [apply bot_smooth_ok | apply bot_smoothed_range]|].
  split.
  - intros Hlen.
    destruct (seed_split seed Hlen)
      as (b0 & b1 & b2 & b3 & b4 & b5 & b6 & rest & ->).
    eexists. split; [apply bot_generate_stats_total|].
    apply (bot_generate_stats_ok_inv _ _ (bot_generate_stats_total
                                            b0 b1 b2 b3 b4 b5 b6 rest)).
  - intros Hlen.
    destruct (arena.generate_stats seed) as [s|e] eqn:E.
    + apply bot_generate_stats_ok_inv in E. lia.
    + revert E. unfold arena.generate_stats.
      destruct seed as [|b0 [|b1 [|b2 [|b3 [|b4 [|b5 [|b6 rest]]]]]]];
        cbn [length] in Hlen; try lia;
        repeat match goal with
               | |- context [borrow (?x :: ?v) ?i] =>
                   change (borrow (x :: v) i)
                     with (Ok (nth (Z.to_nat i) (x :: v) 0));
                   cbv beta iota delta [nth Z.to_nat Pos.to_nat Pos.iter_op
                                        Init.Nat.add]
               | |- context [@borrow Z [] ?i] =>
                   change (@borrow Z [] i)
                     with (@Aborted Z EINDEX_OUT_OF_BOUNDS)
               end;
        repeat rewrite ?bind_Ok, ?bot_smooth_ok;
        try (pose proof (bot_smoothed_range b0);
             rewrite add_u8_ok by lia);
        repeat rewrite ?bind_Ok, ?bot_smooth_ok;
        cbn [bind]; intros E; inversion E; reflexivity.
Qed.

Section BotProperties.

Variable blake2b256 : list Z -> list Z.
Variable derive_id : list Z -> Z -> arena_pvp.address.

Local Abbreviation bot_attack := (arena.attack blake2b256).
Local Abbreviation bot_hit_rng := (arena.hit_rng blake2b256).
Local Abbreviation bot_derive := (arena.derive blake2b256).
Local Abbreviation bot_exec := (arena.exec blake2b256).
Local Abbreviation bot_exec_all := (arena.exec_all blake2b256).
Local Abbreviation bot_new := (arena.new blake2b256 derive_id).
Local Abbreviation bot_reachable := (arena.reachable blake2b256 derive_id).

Lemma bot_hit_rng_ok_inv (seed : list Z) (path round rng : Z) :
  bot_hit_rng seed path round = Ok rng ->
  exists value,
    0 <= round /\
    nth_error (bot_derive seed path) (Z.to_nat round) = Some value /\
    rng = value mod 38 + 217 /\ 217 <= rng <= 254.
Proof. exact (hit_rng_ok_inv blake2b256 seed path round rng). Qed.

Lemma bot_hit_rng_forward (seed : list Z) (path round value : Z) :
  0 <= round ->
  nth_error (bot_derive seed path) (Z.to_nat round) = Some value ->
  bot_hit_rng seed path round = Ok (value mod 38 + 217).
Proof. exact (hit_rng_forward blake2b256 seed path round value). Qed.

(** What a returning attack computed. *)
Lemma bot_attack_returned_inv (a a' : arena.Arena) (_move : Z)
      (events : list arena.Event) :
  bot_attack a _move = arena.Returned (a', events) ->
  arena.is_over a = false /\
  exists player_rng bot_rng r bot_stats' player_stats',
    bot_hit_rng (arena.seed a) 3 (arena.round a) = Ok player_rng /\
    bot_hit_rng (arena.seed a) 4 (arena.round a) = Ok bot_rng /\
    bot_hit_rng (arena.seed a) 5 (arena.round a) = Ok r /\
    battle.attack (arena.player_stats a) (arena.bot_stats a) _move
                  player_rng false = Ok bot_stats' /\
    battle.attack bot_stats' (arena.player_stats a) (r mod 3) bot_rng false
    = Ok player_stats' /\
    0 <= arena.round a + 1 <= 255 /\
    a' = arena.mkArena (arena.id a) (arena.seed a) (arena.round a + 1)
           bot_stats' player_stats'
           ((stats.hp player_stats' =? 0) || (stats.hp bot_stats' =? 0)) /\
    events = [arena.ArenaHit (arena.id a) (stats.hp bot_stats')
                             (stats.hp player_stats')].
Proof.
  unfold arena.attack. intros H.
  destruct (arena.is_over a) eqn:Eover; cbn [Bool.eqb negb] in H;
    [discriminate|].
  split; [reflexivity|].
  match type of H with
  | arena.of_M ?m = _ => destruct m as [[x ev]|e] eqn:Em
  end; cbn [arena.of_M] in H; [|discriminate].
  inversion H; subst x ev; clear H.
  apply bind_ok_inv in Em. destruct Em as (player_rng & Hp & Em).
  apply bind_ok_inv in Em. destruct Em as (bot_rng & Hb & Em).
  apply bind_ok_inv in Em. destruct Em as (bot_move & Hm & Em).
  apply bind_ok_inv in Em. destruct Em as (bs & Ha1 & Em).
  apply bind_ok_inv in Em. destruct Em as (ps & Ha2 & Em).
  apply bind_ok_inv in Em. destruct Em as (round' & Hr & Em).
  apply bind_ok_inv in Hm. destruct Hm as (r & Hr5 & Hm).
  pose proof (bot_hit_rng_ok_inv _ _ _ _ Hr5) as (v & _ & _ & _ & Hrange).
  rewrite rem_u8_ok in Hm by lia. apply Ok_inj in Hm. subst bot_move.
  apply lift2_ok_inv in Hr. destruct Hr as (x & y & Hx & Hy & Hr).
  apply Ok_inj in Hx, Hy. subst x y.
  apply checked_ok_inv in Hr. destruct Hr as [-> Hround].
  exists player_rng, bot_rng, r, bs, ps.
  apply Ok_inj in Em.
  repeat (split; [assumption|]).
  assert (Hover : (if (stats.hp ps =? 0) || (stats.hp bs =? 0)
                   then true else false)
                  = (stats.hp ps =? 0) || (stats.hp bs =? 0))
    by (destruct ((stats.hp ps =? 0) || (stats.hp bs =? 0)); reflexivity).
  rewrite Hover in Em. inversion Em. split; reflexivity.
Qed.

(** X24. What an attack against the bot does when it returns: the arena was
    not over; the player's move is 0, 1 or 2; the bot is hit first and
    then hits back with its hp already lowered, even when that hp is 0;
    each side loses at least [MIN_DAMAGE] hp, saturating at 0, and keeps
    its other stats; the round grows by one; the arena is over afterwards
    exactly when one of the two hp is 0; the event carries both hp. *)
Theorem bot_attack_outcome (a a' : arena.Arena) (_move : Z)
        (events : list arena.Event) :
  bot_attack a _move = arena.Returned (a', events) ->
  arena.is_over a = false /\
  0 <= _move < 3 /\
  arena.id a' = arena.id a /\ arena.seed a' = arena.seed a /\
  arena.round a' = arena.round a + 1 /\
  (exists damage,
      MIN_DAMAGE <= damage /\
      arena.bot_stats a' = stats.decrease_hp (arena.bot_stats a) damage) /\
  (exists damage,
      MIN_DAMAGE <= damage /\
      arena.player_stats a'
      = stats.decrease_hp (arena.player_stats a) damage) /\
  (arena.is_over a' = true <->
   stats.hp (arena.player_stats a') = 0 \/
   stats.hp (arena.bot_stats a') = 0) /\
  events = [arena.ArenaHit (arena.id a) (stats.hp (arena.bot_stats a'))
                           (stats.hp (arena.player_stats a'))].
Proof.
  intros H. apply bot_attack_returned_inv in H.
  destruct H as (Hover & prng & brng & r & bs & ps & _ & _ & _ & Ha1 & Ha2
                 & _ & -> & ->).
  cbn [arena.id arena.seed arena.round arena.bot_stats arena.player_stats
       arena.is_over].
  split; [exact Hover|].
  split.
  { destruct (attack_ok_inv _ _ _ _ _ _ Ha1)
      as (ta & td & dmg & _ & _ & Hm & _). lia. }
  split; [reflexivity|]. split; [reflexivity|]. split; [reflexivity|].
  apply attack_min_damage in Ha1, Ha2.
  destruct Ha1 as (d1 & Hd1 & Hbs), Ha2 as (d2 & Hd2 & Hps).
  split; [exists d1; split; [apply Hd1 | exact Hbs]|].
  split; [exists d2; split; [apply Hd2 | exact Hps]|].
  split; [|reflexivity].
  rewrite orb_true_iff, !Z.eqb_eq. reflexivity.
Qed.

Lemma bot_inv_new (ctx : arena_pvp.TxContext) (a : arena.Arena)
      (events : list arena.Event) :
  bot_new ctx = Ok (a, events) -> bot_inv a.
Proof.
  unfold arena.new, arena.new_, arena_pvp.fresh_object_address.
  intros H.
  apply bind_ok_inv in H. destruct H as (ps & Hps & H).
  apply bind_ok_inv in H. destruct H as (bs & Hbs & H).
  apply Ok_inj in H. inversion H; subst a events; clear H.
  apply bot_generate_stats_ok_inv in Hps, Hbs.
  destruct Hps as (_ & Sp & Hp), Hbs as (_ & Sb & Hb).
  unfold bot_inv.
  cbn [arena.round arena.player_stats arena.bot_stats arena.is_over].
  unfold stats.SCALING_FACTOR in *.
  split; [lia|]. split; [exact Sp|]. split; [exact Sb|].
  split; [lia|]. split; [lia|].
  split; [discriminate | lia].
Qed.

Lemma bot_inv_attack (a a' : arena.Arena) (_move : Z)
      (events : list arena.Event) :
  bot_inv a ->
  bot_attack a _move = arena.Returned (a', events) ->
  bot_inv a'.
Proof.
  intros (Hr & Sp & Sb & Hp & Hb & _) H.
  apply bot_attack_returned_inv in H.
  destruct H as (_ & prng & brng & r & bs & ps & _ & _ & _ & Ha1 & Ha2
                 & _ & -> & _).
  apply attack_min_damage in Ha1, Ha2.
  destruct Ha1 as (d1 & Hd1 & ->), Ha2 as (d2 & Hd2 & ->).
  unfold MIN_DAMAGE in *. unfold bot_inv.
  cbn [arena.round arena.bot_stats arena.player_stats arena.is_over].
  split; [lia|].
  split; [now apply decrease_hp_shape|].
  split; [now apply decrease_hp_shape|].
  rewrite orb_true_iff, !Z.eqb_eq, !decrease_hp_max.
  split; [lia|]. split; [lia|]. reflexivity.
Qed.

Lemma bot_reachable_inv (a : arena.Arena) : bot_reachable a -> bot_inv a.
Proof.
  induction 1 as [ctx a events Hnew | a m a' events _ IH Hatk].
  - eapply bot_inv_new; eassumption.
  - eapply bot_inv_attack; eassumption.
Qed.

(** X25. In every arena of the battle against the bot reached from [new],
    [is_over] is set exactly when the player's or the bot's hp is 0, and
    both keep generated stats.  An arena that is over is final: every
    attack aborts with code 666 and no sequence of attacks changes it. *)
Theorem bot_arena_over_is_final (a : arena.Arena) :
  bot_reachable a ->
  (arena.is_over a = true <->
   stats.hp (arena.player_stats a) = 0 \/
   stats.hp (arena.bot_stats a) = 0) /\
  stats_shape 30 59 (arena.player_stats a) /\
  stats_shape 30 59 (arena.bot_stats a) /\
  (arena.is_over a = true ->
   (forall _move, bot_attack a _move = arena.Code 666) /\
   forall moves, bot_exec_all a moves = a).
Proof.
  intros R. destruct (bot_reachable_inv a R) as (_ & Sp & Sb & _ & _ & Hover).
  split; [exact Hover|]. split; [exact Sp|]. split; [exact Sb|].
  intros Ho.
  assert (Hcode : forall _move, bot_attack a _move = arena.Code 666).
  { intros _move. unfold arena.attack. rewrite Ho. reflexivity. }
  split; [exact Hcode|].
  intros moves. induction moves as [|m moves IH]; [reflexivity|].
  unfold arena.exec_all in *. cbn [fold_left].
  unfold arena.exec at 2. rewrite Hcode. exact IH.
Qed.

Lemma bot_index (seed : list Z) (path round : Z) :
  (forall bytes, length (blake2b256 bytes) = 32%nat) ->
  0 <= round < 32 ->
  exists value,
    nth_error (bot_derive seed path) (Z.to_nat round) = Some value.
Proof.
  intros Hlen Hr.
  destruct (nth_error (bot_derive seed path) (Z.to_nat round)) as [v|] eqn:E;
    [now exists v|].
  apply nth_error_None in E. unfold arena.derive in E. rewrite Hlen in E. lia.
Qed.

Lemma bot_open_round_bound (a : arena.Arena) :
  bot_inv a -> bot_hits_inv a -> arena.is_over a = false ->
  arena.round a <= 28.
Proof.
  intros (_ & _ & _ & Hp & Hb & Hover) (_ & H1 & H2) Ho.
  assert (Hpos : 0 < stats.hp (arena.player_stats a)).
  { destruct (Z.eq_dec (stats.hp (arena.player_stats a)) 0) as [E|E];
      [|lia].
    assert (arena.is_over a = true) by (apply Hover; now left).
    congruence. }
  unfold BOT_MIN_HIT, stats.SCALING_FACTOR in *. lia.
Qed.

Lemma bot_hits_inv_new (ctx : arena_pvp.TxContext) (a : arena.Arena)
      (events : list arena.Event) :
  bot_new ctx = Ok (a, events) -> bot_hits_inv a.
Proof.
  intros H. pose proof (bot_inv_new ctx a events H) as (_ & _ & _ & Hp & Hb & _).
  unfold arena.new, arena.new_, arena_pvp.fresh_object_address in H.
  apply bind_ok_inv in H. destruct H as (ps & _ & H).
  apply bind_ok_inv in H. destruct H as (bs & _ & H).
  apply Ok_inj in H. inversion H; subst a events; clear H.
  unfold bot_hits_inv in *.
  cbn [arena.round arena.player_stats arena.bot_stats] in *.
  unfold BOT_MIN_HIT, stats.SCALING_FACTOR in *. lia.
Qed.

Lemma bot_hits_inv_attack (a a' : arena.Arena) (_move : Z)
      (events : list arena.Event) :
  bot_inv a -> bot_hits_inv a ->
  bot_attack a _move = arena.Returned (a', events) ->
  bot_hits_inv a'.
Proof.
  intros I Hh H.
  apply bot_attack_returned_inv in H.
  destruct H as (Ho & prng & brng & r & bs & ps & _ & _ & _ & Ha1 & Ha2
                 & _ & -> & _).
  pose proof (bot_open_round_bound a I Hh Ho) as H28.
  destruct I as (Hr0 & Sp & Sb & _).
  apply (bot_attack_min_hit _ _ _ _ _ _ Sp Sb) in Ha1.
  destruct Ha1 as (d1 & Hd1 & ->).
  apply (bot_attack_min_hit _ _ _ _ _ _
           (decrease_hp_shape 30 59 _ d1 Sb) Sp) in Ha2.
  destruct Ha2 as (d2 & Hd2 & ->).
  destruct Hh as (_ & H1 & H2).
  unfold bot_hits_inv.
  cbn [arena.round arena.player_stats arena.bot_stats].
  rewrite !decrease_hp_max.
  unfold BOT_MIN_HIT, stats.SCALING_FACTOR in *. lia.
Qed.

Lemma bot_reachable_hits_inv (a : arena.Arena) :
  bot_reachable a -> bot_hits_inv a.
Proof.
  induction 1 as [ctx a events Hnew | a m a' events R IH Hatk].
  - eapply bot_hits_inv_new; eassumption.
  - eapply bot_hits_inv_attack; try eassumption.
    now apply bot_reachable_inv.
Qed.

(** X26. A battle against the bot is over after at most 29 attacks: every
    attack costs both sides at least [BOT_MIN_HIT] hp (2.40 of at most 69).
    With a hash of 32 bytes an attack on an arena that is not over never
    fails on the index into the digest or on the arithmetic: a move 0, 1
    or 2 is accepted and a move of 3 or more aborts with [EWrongMove]. *)
Theorem bot_attack_accepted (a : arena.Arena) (_move : Z) :
  (forall bytes, length (blake2b256 bytes) = 32%nat) ->
  bot_reachable a ->
  0 <= arena.round a <= 29 /\
  (arena.is_over a = false -> arena.round a <= 28) /\
  (arena.is_over a = false -> 0 <= _move < 3 ->
   exists a' events, bot_attack a _move = arena.Returned (a', events)) /\
  (arena.is_over a = false -> 3 <= _move ->
   bot_attack a _move = arena.Raised EWrongMove).
Proof.
  intros Hlen R.
  pose proof (bot_reachable_inv a R) as I.
  pose proof (bot_reachable_hits_inv a R) as Hh.
  pose proof (bot_open_round_bound a I Hh) as H28.
  destruct I as (Hr0 & Sp & Sb & _).
  split; [destruct Hh as (H29 & _); lia|].
  split; [exact H28|].
  split.
  - intros Ho Hm. specialize (H28 Ho).
    destruct (bot_index (arena.seed a) 3 (arena.round a) Hlen ltac:(lia))
      as (v3 & H3).
    destruct (bot_index (arena.seed a) 4 (arena.round a) Hlen ltac:(lia))
      as (v4 & H4).
    destruct (bot_index (arena.seed a) 5 (arena.round a) Hlen ltac:(lia))
      as (v5 & H5).
    pose proof (Z.mod_pos_bound v3 38). pose proof (Z.mod_pos_bound v4 38).
    pose proof (Z.mod_pos_bound v5 38).
    pose proof (Z.mod_pos_bound (v5 mod 38 + 217) 3).
    destruct (attack_total_shape 30 59 (arena.player_stats a)
                (arena.bot_stats a) _move (v3 mod 38 + 217) false
                ltac:(lia) ltac:(lia) ltac:(lia) Sp Sb Hm ltac:(lia))
      as (bs & Ha1).
    assert (Sb' : stats_shape 30 59 bs).
    { apply attack_min_damage in Ha1 as (d & _ & ->).
      now apply decrease_hp_shape. }
    destruct (attack_total_shape 30 59 bs (arena.player_stats a)
                ((v5 mod 38 + 217) mod 3) (v4 mod 38 + 217) false
                ltac:(lia) ltac:(lia) ltac:(lia) Sb' Sp ltac:(lia)
                ltac:(lia))
      as (ps & Ha2).
    unfold arena.attack. rewrite Ho. cbn [Bool.eqb negb].
    rewrite (bot_hit_rng_forward _ 3 _ v3 Hr0 H3), bind_Ok.
    rewrite (bot_hit_rng_forward _ 4 _ v4 Hr0 H4), bind_Ok.
    rewrite (bot_hit_rng_forward _ 5 _ v5 Hr0 H5), bind_Ok.
    rewrite rem_u8_ok by lia. rewrite bind_Ok.
    rewrite Ha1, bind_Ok, Ha2, bind_Ok.
    rewrite add_u8_ok by lia. rewrite bind_Ok.
    cbn [arena.of_M]. eexists. eexists. reflexivity.
  - intros Ho Hm. specialize (H28 Ho).
    destruct (bot_index (arena.seed a) 3 (arena.round a) Hlen ltac:(lia))
      as (v3 & H3).
    destruct (bot_index (arena.seed a) 4 (arena.round a) Hlen ltac:(lia))
      as (v4 & H4).
    destruct (bot_index (arena.seed a) 5 (arena.round a) Hlen ltac:(lia))
      as (v5 & H5).
    pose proof (Z.mod_pos_bound v5 38).
    unfold arena.attack. rewrite Ho. cbn [Bool.eqb negb].
    rewrite (bot_hit_rng_forward _ 3 _ v3 Hr0 H3), bind_Ok.
    rewrite (bot_hit_rng_forward _ 4 _ v4 Hr0 H4), bind_Ok.
    rewrite (bot_hit_rng_forward _ 5 _ v5 Hr0 H5), bind_Ok.
    rewrite rem_u8_ok by lia. rewrite bind_Ok.
    unfold battle.attack.
    assert (E : (_move <? 3) = false) by (apply Z.ltb_ge; lia).
    rewrite E. reflexivity.
Qed.

End BotProperties.

(** * The further properties on the sample battles *)

Lemma sample_hash_length (bytes : list Z) :
  length (sample_hash bytes) = 32%nat.
Proof. unfold sample_hash. now rewrite length_map, length_seq. Qed.

Lemma sample_bot_arena_new :
  arena.new sample_hash sample_derive_id (ctx_of ALICE)
  = Ok (sample_bot_arena,
        [arena.ArenaCreated 4097 (arena.bot_stats sample_bot_arena)
                            (arena.player_stats sample_bot_arena)]).
Proof. reflexivity. Qed.

Lemma bot_play_reachable (moves : list Z) :
  arena.reachable sample_hash sample_derive_id (bot_play moves).
Proof.
  unfold bot_play, arena.exec_all.
  assert (R : arena.reachable sample_hash sample_derive_id sample_bot_arena)
    by exact (arena.reachable_new _ _ _ _ _ sample_bot_arena_new).
  revert R. generalize sample_bot_arena.
  induction moves as [|m moves IH]; intros a R; [exact R|].
  cbn [fold_left]. apply IH. unfold arena.exec.
  destruct (arena.attack sample_hash a m) as [[a' events]| |] eqn:E;
    try exact R.
  eapply arena.reachable_attack; eassumption.
Qed.

Lemma reachable_players_keep_generated_stats_witness :
  arena_pvp.reachable sample_hash sample_derive_id finished /\
  player_shape (arena_pvp.player_one finished) /\
  forall p2, arena_pvp.player_two finished = Some p2 -> player_shape p2.
Proof.
  split; [apply play_reachable|].
  exact (reachable_players_keep_generated_stats sample_hash sample_derive_id
           finished (play_reachable _)).
Defined.

Lemma winner_is_last_standing_witness :
  arena_pvp.reachable sample_hash sample_derive_id finished /\
  arena_pvp.winner finished = Some BOB /\
  exists p2,
    arena_pvp.player_two finished = Some p2 /\
    arena_pvp.account p2 = BOB /\
    0 < stats.hp (arena_pvp.stats p2) /\
    stats.hp (arena_pvp.stats (arena_pvp.player_one finished)) = 0.
Proof.
  assert (W : arena_pvp.winner finished = Some BOB)
    by (vm_compute; reflexivity).
  assert (A : arena_pvp.account (arena_pvp.player_one finished) = ALICE)
    by (vm_compute; reflexivity).
  assert (E : exists p2, arena_pvp.player_two finished = Some p2 /\
                         arena_pvp.account p2 = BOB)
    by (vm_compute; eexists; split; reflexivity).
  destruct E as (p2 & E & B).
  split; [apply play_reachable|]. split; [exact W|].
  exists p2. split; [exact E|]. split; [exact B|].
  destruct (winner_is_last_standing sample_hash sample_derive_id finished
              (play_reachable _)) as [_ H].
  destruct (H p2 E) as (_ & _ & Hw).
  destruct (Hw BOB W) as [(Hb & _) | (_ & H1 & H2)].
  - rewrite A in Hb. discriminate Hb.
  - split; [exact H1 | exact H2].
Defined.

Lemma commitment_untouched_by_others_witness :
  exists p',
    arena_pvp.player_of
      (arena_pvp.exec_all sample_hash alice_committed
         [commit_by BOB 2; reveal_by BOB 2; reveal_by CAROL 0])
      ALICE = Some p' /\
    arena_pvp.next_attack p' = Some (hashed_move 0) /\
    arena_pvp.next_round p' = 0.
Proof.
  assert (Hp : arena_pvp.player_of alice_committed ALICE
               = Some (arena_pvp.player_one alice_committed))
    by (vm_compute; reflexivity).
  assert (Hops : Forall (fun op => op_sender op <> ALICE)
                        [commit_by BOB 2; reveal_by BOB 2; reveal_by CAROL 0])
    by (repeat constructor; intros H; vm_compute in H; discriminate H).
  assert (Hna : arena_pvp.next_attack (arena_pvp.player_one alice_committed)
                = Some (hashed_move 0)) by (vm_compute; reflexivity).
  assert (Hnr : arena_pvp.next_round (arena_pvp.player_one alice_committed)
                = 0) by (vm_compute; reflexivity).
  destruct (commitment_untouched_by_others sample_hash _ alice_committed
              ALICE _ Hp Hops) as (p' & H1 & H2 & H3).
  exists p'. split; [exact H1|]. split; congruence.
Defined.

Lemma strangers_change_nothing_witness :
  arena_pvp.exec_all sample_hash joined
    [commit_by CAROL 0; reveal_by CAROL 0; arena_pvp.Join (ctx_of CAROL)]
  = joined.
Proof.
  assert (E : exists p2, arena_pvp.player_two joined = Some p2)
    by (vm_compute; eexists; reflexivity).
  destruct E as (p2 & E).
  assert (Hops : Forall (fun op => arena_pvp.player_of joined (op_sender op)
                                   = None)
                   [commit_by CAROL 0; reveal_by CAROL 0;
                    arena_pvp.Join (ctx_of CAROL)])
    by (repeat constructor; vm_compute; reflexivity).
  exact (proj1 (strangers_change_nothing sample_hash _ joined p2 E Hops)).
Defined.

Lemma honest_reveal_accepted_witness :
  exists arena' events,
    arena_pvp.reveal sample_hash both_committed 2 SALT (ctx_of BOB)
    = Ok (arena', events) /\
    arena_pvp.exec sample_hash both_committed
                   (arena_pvp.Reveal 2 SALT (ctx_of BOB))
    = (arena', Ok events).
Proof.
  assert (H2 : is_some (arena_pvp.player_two both_committed) = true)
    by (vm_compute; reflexivity).
  assert (Hw : arena_pvp.winner both_committed = None)
    by (vm_compute; reflexivity).
  assert (E : exists p,
             arena_pvp.player_of both_committed
                                 (arena_pvp.sender (ctx_of BOB)) = Some p /\
             arena_pvp.next_attack p = Some (sample_hash (2 :: SALT)) /\
             arena_pvp.next_round p = arena_pvp.round both_committed)
    by (vm_compute; eexists; repeat split; reflexivity).
  destruct E as (p & Hp & Hna & Hnr).
  exact (honest_reveal_accepted sample_hash sample_derive_id both_committed
           2 SALT (ctx_of BOB) p sample_hash_length (play_reachable _)
           H2 Hw Hp Hna Hnr ltac:(lia)).
Defined.

Lemma invalid_move_cannot_be_revealed_witness :
  arena_pvp.reveal sample_hash alice_wrong 7 SALT (ctx_of ALICE)
  = Aborted EWrongMove /\
  arena_pvp.exec sample_hash alice_wrong
                 (arena_pvp.Reveal 7 SALT (ctx_of ALICE))
  = (alice_wrong, Aborted EWrongMove).
Proof.
  assert (H2 : is_some (arena_pvp.player_two alice_wrong) = true)
    by (vm_compute; reflexivity).
  assert (Hw : arena_pvp.winner alice_wrong = None)
    by (vm_compute; reflexivity).
  assert (E : exists p,
             arena_pvp.player_of alice_wrong
                                 (arena_pvp.sender (ctx_of ALICE)) = Some p /\
             arena_pvp.next_attack p = Some (sample_hash (7 :: SALT)) /\
             arena_pvp.next_round p = arena_pvp.round alice_wrong)
    by (vm_compute; eexists; repeat split; reflexivity).
  destruct E as (p & Hp & Hna & Hnr).
  exact (invalid_move_cannot_be_revealed sample_hash sample_derive_id
           alice_wrong 7 SALT (ctx_of ALICE) p sample_hash_length
           (play_reachable _) H2 Hw Hp Hna Hnr ltac:(lia)).
Defined.

Lemma round_counter_bounded_witness :
  arena_pvp.reachable sample_hash sample_derive_id finished /\
  0 <= arena_pvp.round finished <= 25 /\
  forall p2,
    arena_pvp.player_two finished = Some p2 ->
    stats.hp (arena_pvp.stats (arena_pvp.player_one finished))
    <= Z.max 0 (arena_pvp.starting_hp (arena_pvp.player_one finished)
                - MIN_HIT * arena_pvp.next_round p2) /\
    stats.hp (arena_pvp.stats p2)
    <= Z.max 0 (arena_pvp.starting_hp p2
                - MIN_HIT
                  * arena_pvp.next_round (arena_pvp.player_one finished)).
Proof.
  split; [apply play_reachable|].
  destruct (round_counter_bounded sample_hash sample_derive_id
              finished (play_reachable _)) as (Hr & _ & Hh).
  split; [exact Hr | exact Hh].
Defined.

Lemma commit_outcomes_witness :
  (exists arena',
      arena_pvp.commit joined (hashed_move 0) (ctx_of ALICE)
      = Ok (arena', [arena_pvp.PlayerCommit (arena_pvp.id joined)]) /\
      arena_pvp.round arena' = arena_pvp.round joined) /\
  arena_pvp.commit alice_committed (hashed_move 1) (ctx_of ALICE)
  = Aborted EMoveAlreadySubmitted /\
  arena_pvp.commit joined (hashed_move 0) (ctx_of CAROL)
  = Aborted EUnknownSender /\
  arena_pvp.commit sample_arena (hashed_move 0) (ctx_of ALICE)
  = Aborted EArenaNotReady /\
  arena_pvp.commit finished (hashed_move 0) (ctx_of ALICE)
  = Aborted EArenaOver.
Proof.
  split; [|split; [|split; [|split]]].
  - destruct (commit_outcomes joined (hashed_move 0) (ctx_of ALICE))
      as (_ & _ & _ & _ & H).
    assert (Hw : arena_pvp.winner joined = None) by (vm_compute; reflexivity).
    assert (H2 : is_some (arena_pvp.player_two joined) = true)
      by (vm_compute; reflexivity).
    assert (Hp : arena_pvp.player_of joined (arena_pvp.sender (ctx_of ALICE))
                 = Some (arena_pvp.player_one joined))
      by (vm_compute; reflexivity).
    assert (Hn : arena_pvp.next_attack (arena_pvp.player_one joined) = None)
      by (vm_compute; reflexivity).
    destruct (H Hw H2 _ Hp Hn) as (arena' & Hc & _ & _ & Hr & _).
    exists arena'. split; [exact Hc | exact Hr].
  - destruct (commit_outcomes alice_committed (hashed_move 1) (ctx_of ALICE))
      as (_ & _ & _ & H & _).
    assert (Hw : arena_pvp.winner alice_committed = None)
      by (vm_compute; reflexivity).
    assert (H2 : is_some (arena_pvp.player_two alice_committed) = true)
      by (vm_compute; reflexivity).
    assert (Hp : arena_pvp.player_of alice_committed
                                     (arena_pvp.sender (ctx_of ALICE))
                 = Some (arena_pvp.player_one alice_committed))
      by (vm_compute; reflexivity).
    assert (Hn : arena_pvp.next_attack (arena_pvp.player_one alice_committed)
                 = Some (hashed_move 0))
      by (vm_compute; reflexivity).
    exact (H Hw H2 _ _ Hp Hn).
  - destruct (commit_outcomes joined (hashed_move 0) (ctx_of CAROL))
      as (_ & _ & H & _).
    apply H; vm_compute; reflexivity.
  - destruct (commit_outcomes sample_arena (hashed_move 0) (ctx_of ALICE))
      as (_ & H & _).
    apply H; reflexivity.
  - destruct (commit_outcomes finished (hashed_move 0) (ctx_of ALICE))
      as (H & _).
    apply (H BOB). vm_compute. reflexivity.
Defined.

Lemma join_accepted_witness :
  exists s,
    arena_pvp.generate_stats
      (arena_pvp.derive sample_hash (arena_pvp.seed sample_arena) 1) = Ok s /\
    stats_shape 25 49 s /\
    arena_pvp.join sample_hash sample_arena (ctx_of BOB)
    = Ok (arena_pvp.mkArena
            (arena_pvp.id sample_arena) (arena_pvp.seed sample_arena)
            (arena_pvp.round sample_arena) (arena_pvp.player_one sample_arena)
            (Some (arena_pvp.mkPlayer (stats.hp s) s
                                      (arena_pvp.sender (ctx_of BOB)) None 0))
            (arena_pvp.winner sample_arena),
          [arena_pvp.PlayerJoined (arena_pvp.id sample_arena)]).
Proof.
  assert (Hne : arena_pvp.sender (ctx_of BOB)
                <> arena_pvp.account (arena_pvp.player_one sample_arena))
    by (intros H; vm_compute in H; discriminate H).
  assert (Hlen : (7 <= length (arena_pvp.derive sample_hash
                                 (arena_pvp.seed sample_arena) 1))%nat)
    by (unfold arena_pvp.derive; rewrite sample_hash_length; lia).
  exact (join_accepted sample_hash sample_arena (ctx_of BOB) eq_refl Hne Hlen).
Defined.

Lemma reveal_consumes_commitment_witness :
  exists p',
    arena_pvp.player_of bob_revealed BOB = Some p' /\
    arena_pvp.next_attack p' = None /\
    arena_pvp.next_round p' = arena_pvp.round both_committed + 1 /\
    forall _move' salt',
      arena_pvp.reveal sample_hash bob_revealed _move' salt' (ctx_of BOB)
      = Aborted EPlayerOneNotReady.
Proof.
  assert (H : arena_pvp.reveal sample_hash both_committed 2 SALT (ctx_of BOB)
              = Ok (bob_revealed,
                    [arena_pvp.PlayerReveal 4097 2;
                     arena_pvp.RoundResult 4097 4200000000 3145888392]))
    by (vm_compute; reflexivity).
  assert (Hw : arena_pvp.winner bob_revealed = None)
    by (vm_compute; reflexivity).
  destruct (reveal_consumes_commitment sample_hash _ _ _ _ _ _ H)
    as (p & p' & _ & Hp' & Hna & Hnr & _ & Hagain).
  exists p'. split; [exact Hp'|]. split; [exact Hna|]. split; [exact Hnr|].
  intros _move' salt'. rewrite (Hagain _move' salt'), Hw. reflexivity.
Defined.

Lemma reveal_hits_the_defender_witness :
  exists defender defender' damage,
    arena_pvp.opponent_of both_committed BOB = Some defender /\
    arena_pvp.opponent_of bob_revealed BOB = Some defender' /\
    MIN_DAMAGE <= damage /\
    stats.hp (arena_pvp.stats defender')
    = Z.max 0 (stats.hp (arena_pvp.stats defender) - damage).
Proof.
  assert (H : arena_pvp.reveal sample_hash both_committed 2 SALT (ctx_of BOB)
              = Ok (bob_revealed,
                    [arena_pvp.PlayerReveal 4097 2;
                     arena_pvp.RoundResult 4097 4200000000 3145888392]))
    by (vm_compute; reflexivity).
  destruct (reveal_hits_the_defender sample_hash _ _ _ _ _ _ H)
    as (att & def & def' & damage & _ & Hd & Hd' & Hmin & _ & Hhp & _).
  exists def, def', damage. auto.
Defined.

Lemma reveal_outcomes_witness :
  arena_pvp.reveal sample_hash sample_arena 0 SALT (ctx_of ALICE)
  = Aborted EArenaNotReady /\
  arena_pvp.reveal sample_hash finished 0 SALT (ctx_of ALICE)
  = Aborted EArenaOver /\
  arena_pvp.reveal sample_hash joined 0 SALT (ctx_of CAROL)
  = Aborted EUnknownSender /\
  arena_pvp.reveal sample_hash joined 0 SALT (ctx_of ALICE)
  = Aborted EPlayerOneNotReady /\
  arena_pvp.reveal sample_hash alice_recommitted 1 SALT (ctx_of ALICE)
  = Aborted EMoveAlreadySubmitted /\
  arena_pvp.reveal sample_hash both_committed 1 SALT (ctx_of BOB)
  = Aborted EInvalidCommitment /\
  arena_pvp.reveal sample_hash alice_wrong 7 SALT (ctx_of ALICE)
  = Aborted EWrongMove /\
  exists arena' events,
    arena_pvp.reveal sample_hash both_committed 2 SALT (ctx_of BOB)
    = Ok (arena', events).
Proof.
  split.
  { apply (reveal_outcomes sample_hash sample_derive_id sample_arena 0 SALT
             (ctx_of ALICE) sample_hash_length (play_reachable [])).
    reflexivity. }
  split.
  { destruct (reveal_outcomes sample_hash sample_derive_id finished 0 SALT
                (ctx_of ALICE) sample_hash_length (play_reachable _))
      as (_ & H & _).
    apply (H ltac:(vm_compute; reflexivity) BOB). vm_compute. reflexivity. }
  split.
  { destruct (reveal_outcomes sample_hash sample_derive_id joined 0 SALT
                (ctx_of CAROL) sample_hash_length (play_reachable _))
      as (_ & _ & H & _).
    apply H; vm_compute; reflexivity. }
  split.
  { destruct (reveal_outcomes sample_hash sample_derive_id joined 0 SALT
                (ctx_of ALICE) sample_hash_length (play_reachable _))
      as (_ & _ & _ & H & _).
    apply (H ltac:(vm_compute; reflexivity) ltac:(vm_compute; reflexivity)
             (arena_pvp.player_one joined));
      vm_compute; reflexivity. }
  split.
  { destruct (reveal_outcomes sample_hash sample_derive_id alice_recommitted
                1 SALT (ctx_of ALICE) sample_hash_length (play_reachable _))
      as (_ & _ & _ & _ & H & _).
    assert (E : exists p,
               arena_pvp.player_of alice_recommitted
                                   (arena_pvp.sender (ctx_of ALICE))
               = Some p /\
               arena_pvp.next_attack p = Some (hashed_move 1) /\
               arena_pvp.next_round p <> arena_pvp.round alice_recommitted)
      by (vm_compute; eexists; repeat split; try reflexivity; discriminate).
    destruct E as (p & Hp & Hna & Hnr).
    exact (H ltac:(vm_compute; reflexivity) ltac:(vm_compute; reflexivity)
             p _ Hp Hna Hnr). }
  assert (Hb2 : is_some (arena_pvp.player_two both_committed) = true)
    by (vm_compute; reflexivity).
  assert (Hbw : arena_pvp.winner both_committed = None)
    by (vm_compute; reflexivity).
  assert (Eb : exists p,
             arena_pvp.player_of both_committed
                                 (arena_pvp.sender (ctx_of BOB)) = Some p /\
             arena_pvp.next_attack p = Some (sample_hash (2 :: SALT)) /\
             arena_pvp.next_round p = arena_pvp.round both_committed)
    by (vm_compute; eexists; repeat split; reflexivity).
  destruct Eb as (pb & Hpb & Hnab & Hnrb).
  split.
  { destruct (reveal_outcomes sample_hash sample_derive_id both_committed
                1 SALT (ctx_of BOB) sample_hash_length (play_reachable _))
      as (_ & _ & _ & _ & _ & H & _).
    apply (H Hb2 Hbw pb _ Hpb Hnab Hnrb).
    vm_compute. discriminate. }
  split.
  { destruct (reveal_outcomes sample_hash sample_derive_id alice_wrong
                7 SALT (ctx_of ALICE) sample_hash_length (play_reachable _))
      as (_ & _ & _ & _ & _ & _ & H & _).
    assert (E : exists p,
               arena_pvp.player_of alice_wrong
                                   (arena_pvp.sender (ctx_of ALICE))
               = Some p /\
               arena_pvp.next_attack p = Some (sample_hash (7 :: SALT)) /\
               arena_pvp.next_round p = arena_pvp.round alice_wrong)
      by (vm_compute; eexists; repeat split; reflexivity).
    destruct E as (p & Hp & Hna & Hnr).
    exact (H ltac:(vm_compute; reflexivity) ltac:(vm_compute; reflexivity)
             p Hp Hna Hnr ltac:(lia)). }
  destruct (reveal_outcomes sample_hash sample_derive_id both_committed
              2 SALT (ctx_of BOB) sample_hash_length (play_reachable _))
    as (_ & _ & _ & _ & _ & _ & _ & H).
  exact (H Hb2 Hbw pb Hpb Hnab Hnrb ltac:(lia)).
Defined.

Lemma client_commit_then_reveal_witness :
  exists arena1 arena2 events p',
    pvp_tx.commit sample_hash joined 0 (ctx_of ALICE)
    = Ok (arena1, [arena_pvp.PlayerCommit (arena_pvp.id joined)]) /\
    pvp_tx.reveal sample_hash arena1 0 (ctx_of ALICE)
    = Ok (arena2, arena_pvp.PlayerReveal (arena_pvp.id joined) 0 :: events) /\
    arena_pvp.player_of arena2 (arena_pvp.sender (ctx_of ALICE)) = Some p' /\
    arena_pvp.next_attack p' = None /\
    arena_pvp.next_round p' = arena_pvp.round joined + 1.
Proof.
  assert (H2 : is_some (arena_pvp.player_two joined) = true)
    by (vm_compute; reflexivity).
  assert (Hw : arena_pvp.winner joined = None) by (vm_compute; reflexivity).
  assert (Hp : arena_pvp.player_of joined (arena_pvp.sender (ctx_of ALICE))
               = Some (arena_pvp.player_one joined))
    by (vm_compute; reflexivity).
  assert (Hn : arena_pvp.next_attack (arena_pvp.player_one joined) = None)
    by (vm_compute; reflexivity).
  assert (Hnr : arena_pvp.next_round (arena_pvp.player_one joined)
                = arena_pvp.round joined) by (vm_compute; reflexivity).
  exact (client_commit_then_reveal sample_hash sample_derive_id joined 0
           (ctx_of ALICE) _ sample_hash_length (play_reachable _)
           H2 Hw Hp Hn Hnr ltac:(lia)).
Defined.

Lemma stats_new_outcomes_witness :
  stats.new 41 35 39 43 47 26 10 [2]
  = Ok (stats.mkStats (41 * stats.SCALING_FACTOR) 35 39 43 47 26 10 [2]) /\
  stats.new 41 35 39 43 47 26 101 [2] = Aborted EIncorrectLevel.
Proof.
  split.
  - apply (stats_new_outcomes 41 35 39 43 47 26 10 [2]); lia.
  - apply (stats_new_outcomes 41 35 39 43 47 26 101 [2]); lia.
Defined.

Lemma level_up_outcomes_witness :
  exists stat',
    stats.level_up (stats.mkStats 4100000000 35 39 43 47 26 100 [2])
    = Ok stat' /\
    forall hp,
      stats.new hp (stats.attack stat') (stats.defence stat')
                (stats.special_attack stat') (stats.special_defence stat')
                (stats.speed stat') (stats.level stat') (stats.types stat')
      = Aborted EIncorrectLevel.
Proof.
  destruct (level_up_outcomes
              (stats.mkStats 4100000000 35 39 43 47 26 100 [2]))
    as (_ & _ & H); [cbn [stats.level]; lia|].
  exact (H eq_refl).
Defined.

Lemma damage_input_checks_witness :
  pokemon_v1.physical_damage
    (stats.mkStats 4200000000 36 40 44 48 27 10 [0])
    (stats.mkStats 4100000000 35 39 43 47 26 10 [2]) 80 216
  = Aborted EIncorrectRandomValue /\
  pokemon_v1.special_damage
    (stats.mkStats 4200000000 36 40 44 48 27 10 [0])
    (stats.mkStats 4100000000 35 39 43 47 26 10 [2]) 0 217
  = Aborted EIncorrectMovePower.
Proof.
  split.
  - destruct (damage_input_checks
                (stats.mkStats 4200000000 36 40 44 48 27 10 [0])
                (stats.mkStats 4100000000 35 39 43 47 26 10 [2]) 80 216)
      as [H _].
    apply H. lia.
  - destruct (damage_input_checks
                (stats.mkStats 4200000000 36 40 44 48 27 10 [0])
                (stats.mkStats 4100000000 35 39 43 47 26 10 [2]) 0 217)
      as [_ H].
    apply H; lia.
Defined.

Lemma damage_returns_within_bounds_witness :
  exists d,
    pokemon_v1.physical_damage
      (stats.mkStats 4200000000 36 40 44 48 27 10 [0])
      (stats.mkStats 4100000000 35 39 43 47 26 10 [2]) 80 224 = Ok d /\
    MIN_RAW_DAMAGE <= d <= 40000000000.
Proof.
  destruct (damage_returns_within_bounds
              (stats.mkStats 4200000000 36 40 44 48 27 10 [0])
              (stats.mkStats 4100000000 35 39 43 47 26 10 [2]) 80 224)
    as [H _]; [cbn [stats.level]; lia | lia | lia |].
  apply H; [cbn [stats.attack]; lia | cbn [stats.defence]; lia
            | cbn [stats.attack stats.defence]; lia].
Defined.

Lemma damage_is_monotone_witness :
  pokemon_v1.damage 10 35 39 40 217 stats.scaling = Ok 536772242 /\
  pokemon_v1.damage 10 36 39 40 224 stats.scaling = Ok 564898940 /\
  536772242 <= 564898940.
Proof.
  assert (H1 : pokemon_v1.damage 10 35 39 40 217 stats.scaling
               = Ok 536772242) by (vm_compute; reflexivity).
  assert (H2 : pokemon_v1.damage 10 36 39 40 224 stats.scaling
               = Ok 564898940) by (vm_compute; reflexivity).
  split; [exact H1|]. split; [exact H2|].
  apply (damage_is_monotone 10 35 36 39 39 40 217 224 _ _ H1 H2); lia.
Defined.

Lemma attack_effect_witness :
  exists damage,
    MIN_DAMAGE <= damage /\
    stats.mkStats 3145888392 35 39 43 47 26 10 [2]
    = stats.set_hp (stats.mkStats 4100000000 35 39 43 47 26 10 [2])
                   (Z.max 0 (4100000000 - damage)).
Proof.
  assert (H : battle.attack (stats.mkStats 4200000000 36 40 44 48 27 10 [0])
                            (stats.mkStats 4100000000 35 39 43 47 26 10 [2])
                            2 224 false
              = Ok (stats.mkStats 3145888392 35 39 43 47 26 10 [2]))
    by (vm_compute; reflexivity).
  destruct (attack_effect _ _ _ _ _ _ H) as (damage & Hmin & Heq & _).
  exists damage. split; [exact Hmin | exact Heq].
Defined.

Lemma attack_rejects_witness :
  battle.attack (stats.mkStats 4200000000 36 40 44 48 27 10 [0])
                (stats.mkStats 4100000000 35 39 43 47 26 10 [2]) 3 224 false
  = Aborted EWrongMove /\
  battle.attack (stats.mkStats 4200000000 36 40 44 48 27 10 [0])
                (stats.mkStats 4100000000 35 39 43 47 26 10 []) 2 224 false
  = Aborted EINDEX_OUT_OF_BOUNDS.
Proof.
  split.
  - apply (attack_rejects (stats.mkStats 4200000000 36 40 44 48 27 10 [0])
                          (stats.mkStats 4100000000 35 39 43 47 26 10 [2])
                          3 224 false). lia.
  - apply (attack_rejects (stats.mkStats 4200000000 36 40 44 48 27 10 [0])
                          (stats.mkStats 4100000000 35 39 43 47 26 10 [])
                          2 224 false); [lia|]. right. reflexivity.
Defined.

Lemma bot_generate_stats_contract_witness :
  (exists s,
      arena.generate_stats [21; 60; 99; 138; 177; 216; 255] = Ok s /\
      stats_shape 30 59 s /\
      40 * stats.SCALING_FACTOR <= stats.hp s <= 69 * stats.SCALING_FACTOR) /\
  arena.generate_stats [21; 60; 99; 138; 177; 216]
  = Aborted EINDEX_OUT_OF_BOUNDS.
Proof.
  split.
  - apply (bot_generate_stats_contract 0 [21; 60; 99; 138; 177; 216; 255]).
    cbn [length]. lia.
  - apply (bot_generate_stats_contract 0 [21; 60; 99; 138; 177; 216]).
    cbn [length]. lia.
Defined.

Lemma bot_attack_outcome_witness :
  arena.attack sample_hash sample_bot_arena 0
  = arena.Returned (bot_play [0],
                    [arena.ArenaHit 4097 5093582896 4541071906]) /\
  arena.round (bot_play [0]) = arena.round sample_bot_arena + 1 /\
  (exists damage,
      MIN_DAMAGE <= damage /\
      arena.bot_stats (bot_play [0])
      = stats.decrease_hp (arena.bot_stats sample_bot_arena) damage) /\
  (exists damage,
      MIN_DAMAGE <= damage /\
      arena.player_stats (bot_play [0])
      = stats.decrease_hp (arena.player_stats sample_bot_arena) damage).
Proof.
  assert (H : arena.attack sample_hash sample_bot_arena 0
              = arena.Returned (bot_play [0],
                                [arena.ArenaHit 4097 5093582896 4541071906]))
    by (vm_compute; reflexivity).
  split; [exact H|].
  destruct (bot_attack_outcome sample_hash _ _ _ _ H)
    as (_ & _ & _ & _ & Hr & Hb & Hp & _).
  split; [exact Hr|]. split; [exact Hb | exact Hp].
Defined.

Lemma bot_arena_over_is_final_witness :
  arena.reachable sample_hash sample_derive_id bot_finished /\
  arena.is_over bot_finished = true /\
  (stats.hp (arena.player_stats bot_finished) = 0 \/
   stats.hp (arena.bot_stats bot_finished) = 0) /\
  (forall _move, arena.attack sample_hash bot_finished _move
                 = arena.Code 666) /\
  forall moves, arena.exec_all sample_hash bot_finished moves = bot_finished.
Proof.
  assert (Ho : arena.is_over bot_finished = true)
    by (vm_compute; reflexivity).
  split; [apply bot_play_reachable|]. split; [exact Ho|].
  destruct (bot_arena_over_is_final sample_hash sample_derive_id bot_finished
              (bot_play_reachable _)) as (Hiff & _ & _ & Hfinal).
  split; [exact (proj1 Hiff Ho)|]. exact (Hfinal Ho).
Defined.

Lemma bot_attack_accepted_witness :
  arena.reachable sample_hash sample_derive_id (bot_play [0; 1]) /\
  0 <= arena.round (bot_play [0; 1]) <= 29 /\
  (exists a' events,
      arena.attack sample_hash (bot_play [0; 1]) 2
      = arena.Returned (a', events)) /\
  arena.attack sample_hash (bot_play [0; 1]) 3 = arena.Raised EWrongMove.
Proof.
  assert (Ho : arena.is_over (bot_play [0; 1]) = false)
    by (vm_compute; reflexivity).
  split; [apply bot_play_reachable|].
  destruct (bot_attack_accepted sample_hash sample_derive_id (bot_play [0; 1])
              2 sample_hash_length (bot_play_reachable _))
    as (Hr & _ & Hok & _).
  destruct (bot_attack_accepted sample_hash sample_derive_id (bot_play [0; 1])
              3 sample_hash_length (bot_play_reachable _))
    as (_ & _ & _ & Hwrong).
  split; [exact Hr|]. split; [apply Hok; [exact Ho | lia]|].
  apply Hwrong; [exact Ho | lia].
Defined.

Lemma transactions_keep_identity_witness :
  exists p2 p2',
    arena_pvp.player_two joined = Some p2 /\
    arena_pvp.player_two (arena_pvp.exec_all sample_hash joined
                                             (full_round 0 2)) = Some p2' /\
    same_player p2 p2'.
Proof.
  assert (E : exists p2, arena_pvp.player_two joined = Some p2)
    by (vm_compute; eexists; reflexivity).
  destruct E as (p2 & E).
  destruct (transactions_keep_identity sample_hash joined (full_round 0 2))
    as (_ & _ & _ & H).
  destruct (H p2 E) as (p2' & E' & Hsame).
  exists p2, p2'. auto.
Defined.

Lemma last_reveal_may_leave_round_witness :
  (exists arena' events,
      arena_pvp.reveal sample_hash bob_revealed 0 SALT (ctx_of ALICE)
      = Ok (arena', events) /\
      arena_pvp.round arena' = arena_pvp.round bob_revealed + 1) /\
  (exists arena' events,
      arena_pvp.reveal sample_hash bob_late 1 SALT (ctx_of BOB)
      = Ok (arena', events) /\
      arena_pvp.round arena' = arena_pvp.round bob_late /\
      stalled arena' (arena_pvp.round bob_late) /\
      forall ops,
        arena_pvp.round (arena_pvp.exec_all sample_hash arena' ops)
        = arena_pvp.round bob_late /\
        arena_pvp.winner (arena_pvp.exec_all sample_hash arena' ops)
        = arena_pvp.winner arena').
Proof.
  split.
  - assert (Hw : arena_pvp.winner bob_revealed = None)
      by (vm_compute; reflexivity).
    assert (E : exists a d,
               arena_pvp.player_of bob_revealed
                                   (arena_pvp.sender (ctx_of ALICE))
               = Some a /\
               arena_pvp.opponent_of bob_revealed
                                     (arena_pvp.sender (ctx_of ALICE))
               = Some d /\
               arena_pvp.next_attack a = Some (sample_hash (0 :: SALT)) /\
               arena_pvp.next_round a = arena_pvp.round bob_revealed /\
               arena_pvp.next_attack d = None /\
               arena_pvp.next_round d = arena_pvp.round bob_revealed + 1)
      by (vm_compute; eexists; eexists; repeat split; reflexivity).
    destruct E as (a & d & Ha & Hd & Hna & Hnr & Hdn & Hdr).
    destruct (last_reveal_may_leave_round sample_hash sample_derive_id
                bob_revealed 0 SALT (ctx_of ALICE) a d sample_hash_length
                (play_reachable _) Hw Ha Hd Hna Hnr ltac:(lia))
      as (arena' & events & a' & d' & Hrev & _ & _ & _ & _ & Hdn' & Hdr'
          & Hiff & _).
    exists arena', events. split; [exact Hrev|].
    apply Hiff. split; congruence.
  - assert (Hw : arena_pvp.winner bob_late = None)
      by (vm_compute; reflexivity).
    assert (E : exists a d,
               arena_pvp.player_of bob_late (arena_pvp.sender (ctx_of BOB))
               = Some a /\
               arena_pvp.opponent_of bob_late
                                     (arena_pvp.sender (ctx_of BOB))
               = Some d /\
               arena_pvp.next_attack a = Some (sample_hash (1 :: SALT)) /\
               arena_pvp.next_round a = arena_pvp.round bob_late /\
               is_some (arena_pvp.next_attack d) = true /\
               arena_pvp.next_round d = arena_pvp.round bob_late + 1)
      by (vm_compute; eexists; eexists; repeat split; reflexivity).
    destruct E as (a & d & Ha & Hd & Hna & Hnr & Hdc & Hdr).
    destruct (last_reveal_may_leave_round sample_hash sample_derive_id
                bob_late 1 SALT (ctx_of BOB) a d sample_hash_length
                (play_reachable _) Hw Ha Hd Hna Hnr ltac:(lia))
      as (arena' & events & a' & d' & Hrev & _ & _ & _ & _ & _ & _
          & _ & _ & _ & Hstall).
    destruct (Hstall Hdr Hdc) as (Hsame & S & Hever).
    exists arena', events.
    split; [exact Hrev|]. split; [exact Hsame|]. split; [exact S | exact Hever].
Defined.
